(** * Trip planner: itinerary days, stops, checklist items and CSV exchange

    A shallow embedding of [app.py]: the route handlers are functions on an
    explicit database value (the sqlite tables as finite maps from the
    INTEGER PRIMARY KEY to the row), Python text is [string], Python dicts
    are [gmap]s, and an exception is an explicit outcome.  A handler that
    raises before [db.commit()] leaves the database it was given. *)

From Stdlib Require Import ZArith Lia List Ascii String Bool Floats Uint63.
From stdpp Require Import gmap strings list sorting.

Local Open Scope string_scope.
Local Open Scope list_scope.
Local Open Scope Z_scope.

(** ** Python text

    A [str] is modelled by [string]; a character is a code point below 256
    (what Latin-1 decoding yields, and a superset of ASCII).  On that range
    [str.strip], [str.lower] and the [in] operator are as below. *)

Module Py.

Definition code (c : ascii) : N := N_of_ascii c.

(** [str.isspace] on code points below 256. *)
Definition is_space (c : ascii) : bool :=
  let n := code c in
  ((9 <=? n) && (n <=? 13) || (28 <=? n) && (n <=? 32)
   || (n =? 133) || (n =? 160))%N.

(** [str.lower] on one code point below 256: A-Z, and the Latin-1 capitals
    U+00C0..U+00DE except the multiplication sign U+00D7. *)
Definition lower_char (c : ascii) : ascii :=
  let n := code c in
  if ((65 <=? n) && (n <=? 90)
      || (192 <=? n) && (n <=? 222) && negb (n =? 215))%N
  then ascii_of_N (n + 32) else c.

Fixpoint lower (s : string) : string :=
  match s with
  | EmptyString => EmptyString
  | String c s' => String (lower_char c) (lower s')
  end.

Fixpoint lstrip (s : string) : string :=
  match s with
  | EmptyString => EmptyString
  | String c s' => if is_space c then lstrip s' else s
  end.

Fixpoint rstrip (s : string) : string :=
  match s with
  | EmptyString => EmptyString
  | String c s' =>
      match rstrip s' with
      | EmptyString => if is_space c then EmptyString else String c EmptyString
      | r => String c r
      end
  end.

Definition strip (s : string) : string := rstrip (lstrip s).

(** [x or ""] for a value that may be [None]. *)
Definition or_empty (v : option string) : string := default "" v.

(** Truth value of a [str]: the empty text is falsy. *)
Definition truthy (s : string) : bool :=
  match s with EmptyString => false | _ => true end.

(** Truth value of an optional text ([None] and [""] are falsy). *)
Definition truthy_opt (v : option string) : bool := truthy (or_empty v).

(** [a or b] on optional text. *)
Definition or_else (a : option string) (b : string) : string :=
  if truthy_opt a then or_empty a else b.

(** [sub in s] on text. *)
Fixpoint contains (sub s : string) : bool :=
  String.prefix sub s ||
  match s with
  | EmptyString => false
  | String _ s' => contains sub s'
  end.

(** [x in {...}] for a set literal of texts. *)
Definition in_set (x : string) (l : list string) : bool :=
  existsb (String.eqb x) l.

End Py.

(** ** The [selected] column of a CSV row (import_trip_csv, lines 238-242) *)

Module Csv.

(** A field is what [row.get(key)] of [csv.DictReader] returns: [None] for
    a missing column or a short row. *)
Definition selected_tokens : list string := ["0"; "false"; "no"; "n"].

Definition parse_selected (field : option string) : bool :=
  let selected_raw := Py.lower (Py.strip (Py.or_empty field)) in
  if Py.in_set selected_raw selected_tokens then false else true.

(** [csv.field_size_limit()]: the reader raises [csv.Error] on a field of
    more characters. *)
Definition field_size_limit : Z := 131072.

Definition field_fits (s : string) : bool :=
  Z.of_nat (String.length s) <=? field_size_limit.

End Csv.

(** ** Calendar dates ([datetime.date])

    A date is its (year, month, day) triple, as Python stores it; ordering is
    the lexicographic one on the triple, [toordinal] is the proleptic
    Gregorian day count, and adding one day raises [OverflowError] past
    [date.max] = 9999-12-31. *)

Module Date.

Record date : Type := mk { year : Z; month : Z; day : Z }.

Definition is_leap (y : Z) : bool :=
  (y mod 4 =? 0) && (negb (y mod 100 =? 0) || (y mod 400 =? 0)).

Definition days_in_month (y m : Z) : Z :=
  if m =? 2 then (if is_leap y then 29 else 28)
  else if (m =? 4) || (m =? 6) || (m =? 9) || (m =? 11) then 30
  else 31.

(** The check of the [date(year, month, day)] constructor. *)
Definition valid (d : date) : bool :=
  (1 <=? year d) && (year d <=? 9999)
  && (1 <=? month d) && (month d <=? 12)
  && (1 <=? day d) && (day d <=? days_in_month (year d) (month d)).

Definition max : date := mk 9999 12 31.

Definition days_before_year (y : Z) : Z :=
  let y' := y - 1 in y' * 365 + y' / 4 - y' / 100 + y' / 400.

Definition days_before_month (y m : Z) : Z :=
  nth (Z.to_nat m) [0; 0; 31; 59; 90; 120; 151; 181; 212; 243; 273; 304; 334] 0
  + (if (2 <? m) && is_leap y then 1 else 0).

Definition toordinal (d : date) : Z :=
  days_before_year (year d) + days_before_month (year d) (month d) + day d.

(** [a <= b], [a < b] and [a == b] on dates. *)
Definition leb (a b : date) : bool :=
  (year a <? year b)
  || (year a =? year b)
     && ((month a <? month b)
         || (month a =? month b) && (day a <=? day b)).

Definition eqb (a b : date) : bool :=
  (year a =? year b) && (month a =? month b) && (day a =? day b).

Definition ltb (a b : date) : bool := negb (leb b a).

(** [d + timedelta(days=1)]: [None] stands for [OverflowError]. *)
Definition add_day (d : date) : option date :=
  if day d <? days_in_month (year d) (month d)
  then Some (mk (year d) (month d) (day d + 1))
  else if month d <? 12 then Some (mk (year d) (month d + 1) 1)
  else if year d <? 9999 then Some (mk (year d + 1) 1 1)
  else None.

(** [(b - a).days] *)
Definition days_between (a b : date) : Z := toordinal b - toordinal a.

Definition digit (n : Z) : ascii := ascii_of_N (48 + Z.to_N n).

Definition pad2 (n : Z) : string :=
  String (digit (n / 10)) (String (digit (n mod 10)) EmptyString).

Definition pad4 (n : Z) : string :=
  String (digit (n / 1000)) (String (digit (n / 100 mod 10)) (pad2 (n mod 100))).

(** [d.isoformat()], that is ["%04d-%02d-%02d"]. *)
Definition isoformat (d : date) : string :=
  pad4 (year d) +:+ "-" +:+ pad2 (month d) +:+ "-" +:+ pad2 (day d).

End Date.

(** ** [datetime.strptime(value, "%Y-%m-%d")]

    CPython turns the format into a regular expression with one named group
    per directive and matches it at the start of the text ([re.match], ordered
    alternatives, backtracking); text left over after the match is an error,
    and the captured numbers go through the [date] constructor.  Every failure
    is a [ValueError], modelled by [None]. *)

Module Strptime.

Inductive regex : Type :=
| Chr (p : ascii -> bool)
| Seq (a b : regex)
| Alt (a b : regex)
| Group (name : string) (r : regex).

Definition groups : Type := list (string * string).

(** [rmatch r s g k]: match [r] at the start of [s]; on success the
    continuation receives the groups, the text [r] consumed and the rest. *)
Fixpoint rmatch {A : Type} (r : regex) (s : string) (g : groups)
    (k : groups -> string -> string -> option A) : option A :=
  match r with
  | Chr p =>
      match s with
      | String c s' => if p c then k g (String c EmptyString) s' else None
      | EmptyString => None
      end
  | Seq a b =>
      rmatch a s g
        (fun g1 m1 s1 => rmatch b s1 g1 (fun g2 m2 s2 => k g2 (m1 +:+ m2) s2))
  | Alt a b =>
      match rmatch a s g k with
      | Some x => Some x
      | None => rmatch b s g k
      end
  | Group name r' =>
      rmatch r' s g (fun g' m s' => k ((name, m) :: g') m s')
  end.

Definition lit (c : ascii) : regex := Chr (Ascii.eqb c).

Definition in_range (lo hi c : ascii) : bool :=
  (Py.code lo <=? Py.code c)%N && (Py.code c <=? Py.code hi)%N.

Definition range (lo hi : ascii) : regex := Chr (in_range lo hi).

(** [\d] on code points below 256. *)
Definition is_digit : ascii -> bool := in_range "0" "9".
Definition digit : regex := Chr is_digit.

(** ['Y': r"(?P<Y>\d\d\d\d)"] *)
Definition re_Y : regex := Group "Y" (Seq digit (Seq digit (Seq digit digit))).

(** ['m': r"(?P<m>1[0-2]|0[1-9]|[1-9])"] *)
Definition re_m : regex :=
  Group "m" (Alt (Seq (lit "1") (range "0" "2"))
            (Alt (Seq (lit "0") (range "1" "9"))
                 (range "1" "9"))).

(** ['d': r"(?P<d>3[0-1]|[1-2]\d|0[1-9]|[1-9]| [1-9])"] *)
Definition re_d : regex :=
  Group "d" (Alt (Seq (lit "3") (range "0" "1"))
            (Alt (Seq (range "1" "2") digit)
            (Alt (Seq (lit "0") (range "1" "9"))
            (Alt (range "1" "9")
                 (Seq (lit " ") (range "1" "9")))))).

(** The pattern of the format ["%Y-%m-%d"]. *)
Definition date_pattern : regex :=
  Seq re_Y (Seq (lit "-") (Seq re_m (Seq (lit "-") re_d))).

Definition digit_val (c : ascii) : Z := Z.of_N (Py.code c) - 48.

Fixpoint digits_value (acc : Z) (s : string) : option Z :=
  match s with
  | EmptyString => Some acc
  | String c s' =>
      if is_digit c then digits_value (10 * acc + digit_val c) s' else None
  end.

(** [int(text)] on the texts a group can capture: decimal digits, with
    surrounding whitespace ignored. *)
Definition int (s : string) : option Z :=
  match Py.strip s with
  | EmptyString => None
  | t => digits_value 0 t
  end.

Definition group (g : groups) (name : string) : option string :=
  snd <$> List.find (fun p => String.eqb (fst p) name) g.

Definition strptime_ymd (data_string : string) : option Date.date :=
  match rmatch date_pattern data_string [] (fun g _ rest => Some (g, rest)) with
  | None => None
  | Some (found, rest) =>
      match rest with
      | String _ _ => None
      | EmptyString =>
          y ← group found "Y" ≫= int;
          m ← group found "m" ≫= int;
          d ← group found "d" ≫= int;
          let dt := Date.mk y m d in
          if Date.valid dt then Some dt else None
      end
  end.

(** What a regular expression matches, with the groups it records. *)
Inductive Matches : regex -> groups -> string -> groups -> Prop :=
| M_Chr p c g : p c = true -> Matches (Chr p) g (String c EmptyString) g
| M_Seq a b g m1 g1 m2 g2 :
    Matches a g m1 g1 -> Matches b g1 m2 g2 ->
    Matches (Seq a b) g (m1 +:+ m2) g2
| M_AltL a b g m g' : Matches a g m g' -> Matches (Alt a b) g m g'
| M_AltR a b g m g' : Matches b g m g' -> Matches (Alt a b) g m g'
| M_Group name r g m g' :
    Matches r g m g' -> Matches (Group name r) g m ((name, m) :: g').

(** The texts the pattern of ["%Y-%m-%d"] accepts, with their values. *)
Inductive year_text : string -> Z -> Prop :=
| year_4 a b c d :
    is_digit a = true -> is_digit b = true -> is_digit c = true ->
    is_digit d = true ->
    year_text (String a (String b (String c (String d EmptyString))))
      (1000 * digit_val a + 100 * digit_val b + 10 * digit_val c + digit_val d).

Inductive month_text : string -> Z -> Prop :=
| month_1x b : in_range "0" "2" b = true ->
    month_text (String "1" (String b EmptyString)) (10 + digit_val b)
| month_0x b : in_range "1" "9" b = true ->
    month_text (String "0" (String b EmptyString)) (digit_val b)
| month_x b : in_range "1" "9" b = true ->
    month_text (String b EmptyString) (digit_val b).

Inductive day_text : string -> Z -> Prop :=
| day_3x b : in_range "0" "1" b = true ->
    day_text (String "3" (String b EmptyString)) (30 + digit_val b)
| day_xx a b : in_range "1" "2" a = true -> is_digit b = true ->
    day_text (String a (String b EmptyString)) (10 * digit_val a + digit_val b)
| day_0x b : in_range "1" "9" b = true ->
    day_text (String "0" (String b EmptyString)) (digit_val b)
| day_x b : in_range "1" "9" b = true ->
    day_text (String b EmptyString) (digit_val b)
| day_sp b : in_range "1" "9" b = true ->
    day_text (String " " (String b EmptyString)) (digit_val b).

Definition date_text (s : string) (dt : Date.date) : Prop :=
  exists Y M D,
    s = Y +:+ "-" +:+ M +:+ "-" +:+ D
    /\ year_text Y (Date.year dt)
    /\ month_text M (Date.month dt)
    /\ day_text D (Date.day dt).

End Strptime.

(** [parse_date] (lines 1647-1648). *)
Definition parse_date (value : string) : option Date.date :=
  Strptime.strptime_ymd value.

(** ** [parse_date] on every Python [str]

    A Python [str] is a sequence of Unicode code points.  The handlers are
    modelled on texts of code points below 256 ([string]); this module gives
    [datetime.strptime(value, "%Y-%m-%d")] on every text.  The pattern is the
    same; its [\d] and the [int] applied to the captured groups accept the
    decimal digits of every script (Py_UNICODE_TODECIMAL, that is
    [unicodedata.decimal]), while the ranges [[0-9]] of the pattern are
    ASCII.  The pattern is compiled with [re.IGNORECASE], which changes
    nothing here: no character of the pattern has another case.  The table
    of decimal digits belongs to the interpreter, so the model takes it as
    an argument; [decimal] is the table of Unicode 14.0, the one of CPython
    3.11. *)

Module Unicode.

Definition text : Type := list N.

Fixpoint of_string (s : string) : text :=
  match s with
  | EmptyString => []
  | String c s' => Py.code c :: of_string s'
  end.

Fixpoint to_string (t : text) : string :=
  match t with
  | [] => EmptyString
  | c :: t' => String (ascii_of_N c) (to_string t')
  end.

(** [str.isspace] of one code point (Py_UNICODE_ISSPACE). *)
Definition is_space (c : N) : bool :=
  ((9 <=? c) && (c <=? 13) || (28 <=? c) && (c <=? 32)
   || (c =? 133) || (c =? 160) || (c =? 5760)
   || (8192 <=? c) && (c <=? 8202) || (c =? 8232) || (c =? 8233)
   || (c =? 8239) || (c =? 8287) || (c =? 12288))%N.

Fixpoint lstrip (t : text) : text :=
  match t with
  | [] => []
  | c :: t' => if is_space c then lstrip t' else t
  end.

Fixpoint rstrip (t : text) : text :=
  match t with
  | [] => []
  | c :: t' =>
      match rstrip t' with
      | [] => if is_space c then [] else [c]
      | r => c :: r
      end
  end.

Definition strip (t : text) : text := rstrip (lstrip t).

Inductive regex : Type :=
| Chr (p : N -> bool)
| Seq (a b : regex)
| Alt (a b : regex)
| Group (name : string) (r : regex).

Definition groups : Type := list (string * text).

(** [rmatch r t g k]: match [r] at the start of [t]; on success the
    continuation receives the groups, the text [r] consumed and the rest. *)
Fixpoint rmatch {A : Type} (r : regex) (t : text) (g : groups)
    (k : groups -> text -> text -> option A) : option A :=
  match r with
  | Chr p =>
      match t with
      | c :: t' => if p c then k g [c] t' else None
      | [] => None
      end
  | Seq a b =>
      rmatch a t g
        (fun g1 m1 t1 => rmatch b t1 g1 (fun g2 m2 t2 => k g2 (m1 ++ m2) t2))
  | Alt a b =>
      match rmatch a t g k with
      | Some x => Some x
      | None => rmatch b t g k
      end
  | Group name r' =>
      rmatch r' t g (fun g' m t' => k ((name, m) :: g') m t')
  end.

Definition lit (c : ascii) : regex := Chr (N.eqb (Py.code c)).

Definition in_range (lo hi : ascii) (c : N) : bool :=
  (Py.code lo <=? c)%N && (c <=? Py.code hi)%N.

Definition range (lo hi : ascii) : regex := Chr (in_range lo hi).

(** The value of an ASCII digit. *)
Definition digit_val (c : N) : Z := Z.of_N c - 48.

Definition group (g : groups) (name : string) : option text :=
  snd <$> List.find (fun p => String.eqb (fst p) name) g.

(** The zero digits of the scripts of Unicode 14.0 that have decimal
    digits: each is followed by the digits one to nine of its script. *)
Definition decimal_zeros : list N :=
  [48; 1632; 1776; 1984; 2406; 2534; 2662; 2790; 2918; 3046; 3174; 3302;
   3430; 3558; 3664; 3792; 3872; 4160; 4240; 6112; 6160; 6470; 6608; 6784;
   6800; 6992; 7088; 7232; 7248; 42528; 43216; 43264; 43472; 43504; 43600;
   44016; 65296; 66720; 68912; 69734; 69872; 69942; 70096; 70384; 70736;
   70864; 71248; 71360; 71472; 71904; 72016; 72784; 73040; 73120; 92768;
   92864; 93008; 120782; 120792; 120802; 120812; 120822; 123200; 123632;
   125264; 130032]%N.

(** [unicodedata.decimal] in Unicode 14.0. *)
Definition decimal (c : N) : option Z :=
  (fun zero => Z.of_N (c - zero))
    <$> List.find (fun zero => (zero <=? c) && (c <=? zero + 9))%N
          decimal_zeros.

Section Pattern.

(** [todecimal c] is the value of [c] when it is a decimal digit. *)
Variable todecimal : N -> option Z.

(** What every version of the Unicode tables has: below 256 the decimal
    digits are the ASCII digits, a decimal digit has one of the values 0 to
    9, and no decimal digit is white space. *)
Record decimal_table : Prop := DecimalTable {
  table_latin : forall c, (c < 256)%N ->
    todecimal c
    = if in_range "0" "9" c then Some (digit_val c) else None;
  table_value : forall c v, todecimal c = Some v -> 0 <= v <= 9;
  table_not_space : forall c v, todecimal c = Some v -> is_space c = false
}.

(** [\d] *)
Definition is_decimal (c : N) : bool :=
  match todecimal c with
  | Some _ => true
  | None => false
  end.

Definition digit : regex := Chr is_decimal.

(** ['Y': r"(?P<Y>\d\d\d\d)"] *)
Definition re_Y : regex := Group "Y" (Seq digit (Seq digit (Seq digit digit))).

(** ['m': r"(?P<m>1[0-2]|0[1-9]|[1-9])"] *)
Definition re_m : regex :=
  Group "m" (Alt (Seq (lit "1") (range "0" "2"))
            (Alt (Seq (lit "0") (range "1" "9"))
                 (range "1" "9"))).

(** ['d': r"(?P<d>3[0-1]|[1-2]\d|0[1-9]|[1-9]| [1-9])"] *)
Definition re_d : regex :=
  Group "d" (Alt (Seq (lit "3") (range "0" "1"))
            (Alt (Seq (range "1" "2") digit)
            (Alt (Seq (lit "0") (range "1" "9"))
            (Alt (range "1" "9")
                 (Seq (lit " ") (range "1" "9")))))).

(** The pattern of the format ["%Y-%m-%d"]. *)
Definition date_pattern : regex :=
  Seq re_Y (Seq (lit "-") (Seq re_m (Seq (lit "-") re_d))).

Fixpoint digits_value (acc : Z) (t : text) : option Z :=
  match t with
  | [] => Some acc
  | c :: t' =>
      match todecimal c with
      | Some v => digits_value (10 * acc + v) t'
      | None => None
      end
  end.

(** [int(text)] on the texts a group can capture: decimal digits, with
    surrounding whitespace ignored. *)
Definition int (t : text) : option Z :=
  match strip t with
  | [] => None
  | t' => digits_value 0 t'
  end.

Definition strptime_ymd (data_string : text) : option Date.date :=
  match rmatch date_pattern data_string [] (fun g _ rest => Some (g, rest)) with
  | None => None
  | Some (found, rest) =>
      match rest with
      | _ :: _ => None
      | [] =>
          y ← group found "Y" ≫= int;
          m ← group found "m" ≫= int;
          d ← group found "d" ≫= int;
          let dt := Date.mk y m d in
          if Date.valid dt then Some dt else None
      end
  end.

(** [parse_date] (lines 1647-1648) on any text. *)
Definition parse_date (value : text) : option Date.date :=
  strptime_ymd value.

(** The texts the pattern of ["%Y-%m-%d"] accepts, with their values: the
    year is four decimal digits of any scripts; month and day are written
    with ASCII digits, except that the second digit of a day from 10 to 29
    is a decimal digit of any script. *)
Inductive year_text : text -> Z -> Prop :=
| year_4 a b c d va vb vc vd :
    todecimal a = Some va -> todecimal b = Some vb ->
    todecimal c = Some vc -> todecimal d = Some vd ->
    year_text [a; b; c; d] (1000 * va + 100 * vb + 10 * vc + vd).

Inductive month_text : text -> Z -> Prop :=
| month_1x b : in_range "0" "2" b = true ->
    month_text [Py.code "1"; b] (10 + digit_val b)
| month_0x b : in_range "1" "9" b = true ->
    month_text [Py.code "0"; b] (digit_val b)
| month_x b : in_range "1" "9" b = true ->
    month_text [b] (digit_val b).

Inductive day_text : text -> Z -> Prop :=
| day_3x b : in_range "0" "1" b = true ->
    day_text [Py.code "3"; b] (30 + digit_val b)
| day_xx a b vb : in_range "1" "2" a = true -> todecimal b = Some vb ->
    day_text [a; b] (10 * digit_val a + vb)
| day_0x b : in_range "1" "9" b = true ->
    day_text [Py.code "0"; b] (digit_val b)
| day_x b : in_range "1" "9" b = true ->
    day_text [b] (digit_val b)
| day_sp b : in_range "1" "9" b = true ->
    day_text [Py.code " "; b] (digit_val b).

Definition date_text (t : text) (dt : Date.date) : Prop :=
  exists Y M D,
    t = Y ++ [Py.code "-"] ++ M ++ [Py.code "-"] ++ D
    /\ year_text Y (Date.year dt)
    /\ month_text M (Date.month dt)
    /\ day_text D (Date.day dt).

End Pattern.

(** What a regular expression matches, with the groups it records. *)
Inductive Matches : regex -> groups -> text -> groups -> Prop :=
| M_Chr p c g : p c = true -> Matches (Chr p) g [c] g
| M_Seq a b g m1 g1 m2 g2 :
    Matches a g m1 g1 -> Matches b g1 m2 g2 ->
    Matches (Seq a b) g (m1 ++ m2) g2
| M_AltL a b g m g' : Matches a g m g' -> Matches (Alt a b) g m g'
| M_AltR a b g m g' : Matches b g m g' -> Matches (Alt a b) g m g'
| M_Group name r g m g' :
    Matches r g m g' -> Matches (Group name r) g m ((name, m) :: g').

End Unicode.

(** ** Exceptions

    A computation that may raise returns [inl e]; [CsvError] is [csv.Error];
    [OutOfFuel] is the model's own outcome for a loop that was given too few
    steps, and the theorems show that the handlers never produce it. *)

Inductive exn : Type :=
| ValueError
| OverflowError
| KeyError
| CsvError
| OutOfFuel.

Definition result (A : Type) : Type := exn + A.

Definition bind {A B : Type} (x : result A) (f : A -> result B) : result B :=
  match x with
  | inl e => inl e
  | inr a => f a
  end.

Declare Scope result_scope.
Delimit Scope result_scope with result.
Notation "'do' x <- c1 ; c2" :=
  (bind c1 (fun x => c2))
  (at level 10, x name, c1 at level 100, c2 at level 200) : result_scope.

(** [parse_date] where a [ValueError] propagates. *)
Definition parse_date_exn (value : string) : result Date.date :=
  match parse_date value with
  | Some d => inr d
  | None => inl ValueError
  end.

(** The loop
    [while current <= end: body(current); current += timedelta(days=1)]
    of the handlers, on a state [S]. *)
Fixpoint for_each_day {S : Type} (fuel : nat) (current end_ : Date.date)
    (body : Date.date -> S -> S) (s : S) : result S :=
  if Date.leb current end_ then
    match fuel with
    | O => inl OutOfFuel
    | Datatypes.S fuel' =>
        let s' := body current s in
        match Date.add_day current with
        | None => inl OverflowError
        | Some next => for_each_day fuel' next end_ body s'
        end
    end
  else inr s.

(** Steps that suffice for the loop from [start] to [end_]. *)
Definition day_fuel (start end_ : Date.date) : nat :=
  Z.to_nat (Date.days_between start end_ + 1).

(** ** The database

    A table with an INTEGER PRIMARY KEY AUTOINCREMENT column [id] is the
    finite map from [id] to the other columns, with the [sqlite_sequence]
    counter that makes a new [id] larger than any used before. *)

Record table (A : Type) : Type := Table { rows : gmap Z A; sequence : Z }.
Arguments Table {A} rows sequence.
Arguments rows {A} t.
Arguments sequence {A} t.

Record trip_row : Type := TripRow {
  destination : string;
  start_date : string;
  end_date : string;
  travel_style : string
}.

Record itinerary_row : Type := ItineraryRow {
  it_trip_id : Z;
  day_number : Z;
  date : string;
  morning_title : option string;
  morning_description : option string;
  morning_map_link : option string;
  afternoon_title : option string;
  afternoon_description : option string;
  afternoon_map_link : option string;
  evening_title : option string;
  evening_description : option string;
  evening_map_link : option string
}.

Record budget_row : Type := BudgetRow {
  bi_trip_id : Z;
  label : string;
  estimated_cost : option float;
  actual_cost : option float
}.

(** [checked] and [hidden] hold 0 or 1 (every writer stores one of the two,
    and [hidden] is read as "NULL or 0"); they are modelled by [bool]. *)
Record day_item_row : Type := DayItemRow {
  itinerary_id : Z;
  category : string;
  name : string;
  checked : bool;
  slot : option string;
  hidden : bool
}.

Record stop_row : Type := StopRow {
  st_trip_id : Z;
  st_name : string;
  st_start_date : string;
  st_end_date : string
}.

Record packing_row : Type := PackingRow {
  pk_trip_id : Z;
  pk_category : string;
  pk_label : string;
  pk_checked : bool
}.

Record database : Type := Database {
  trips : table trip_row;
  itinerary : table itinerary_row;
  budget_items : table budget_row;
  day_items : table day_item_row;
  trip_stops : table stop_row;
  packing_items : table packing_row
}.

Definition set_trips (t : table trip_row) (db : database) : database :=
  Database t (itinerary db) (budget_items db) (day_items db) (trip_stops db)
    (packing_items db).
Definition set_itinerary (t : table itinerary_row) (db : database) : database :=
  Database (trips db) t (budget_items db) (day_items db) (trip_stops db)
    (packing_items db).
Definition set_budget_items (t : table budget_row) (db : database) : database :=
  Database (trips db) (itinerary db) t (day_items db) (trip_stops db)
    (packing_items db).
Definition set_day_items (t : table day_item_row) (db : database) : database :=
  Database (trips db) (itinerary db) (budget_items db) t (trip_stops db)
    (packing_items db).
Definition set_trip_stops (t : table stop_row) (db : database) : database :=
  Database (trips db) (itinerary db) (budget_items db) (day_items db) t
    (packing_items db).
Definition set_packing_items (t : table packing_row) (db : database) : database :=
  Database (trips db) (itinerary db) (budget_items db) (day_items db)
    (trip_stops db) t.

Module Sql.

Definition rowids {A : Type} (m : gmap Z A) : list Z := (map_to_list m).*1.

Definition max_rowid {A : Type} (m : gmap Z A) : Z := foldr Z.max 0 (rowids m).

(** [INSERT]: the new row's id ([cursor.lastrowid]) and the table. *)
Definition insert {A : Type} (r : A) (t : table A) : Z * table A :=
  let id := Z.max (sequence t) (max_rowid (rows t)) + 1 in
  (id, Table (<[id := r]> (rows t)) id).

(** [UPDATE ... WHERE id = ?] *)
Definition update {A : Type} (f : A -> A) (id : Z) (t : table A) : table A :=
  Table (alter f id (rows t)) (sequence t).

(** [UPDATE ... WHERE cond] *)
Definition update_where {A : Type} (cond : Z -> A -> bool) (f : A -> A)
    (t : table A) : table A :=
  Table (map_imap (fun id r => Some (if cond id r then f r else r)) (rows t))
    (sequence t).

(** [DELETE ... WHERE cond] *)
Definition delete_where {A : Type} (cond : Z -> A -> bool) (t : table A)
    : table A :=
  Table (filter (fun kv => cond kv.1 kv.2 = false) (rows t)) (sequence t).

Definition by_rowid {A : Type} (x y : Z * A) : Prop := x.1 <= y.1.

#[global] Instance by_rowid_dec {A : Type} (x y : Z * A) :
  Decision (by_rowid x y) := Z_le_dec x.1 y.1.

(** [SELECT ... WHERE cond], in rowid order (the order of a table scan, and
    of [ORDER BY id]). *)
Definition select {A : Type} (cond : Z -> A -> bool) (t : table A)
    : list (Z * A) :=
  merge_sort by_rowid
    (List.filter (fun kv => cond kv.1 kv.2) (map_to_list (rows t))).

Definition by_key {A : Type} (key : A -> Z) (x y : Z * A) : Prop :=
  key x.2 <= key y.2.

#[global] Instance by_key_dec {A : Type} (key : A -> Z) (x y : Z * A) :
  Decision (by_key key x y) := Z_le_dec (key x.2) (key y.2).

(** [... ORDER BY column] for an integer column. *)
Definition order_by {A : Type} (key : A -> Z) (l : list (Z * A))
    : list (Z * A) :=
  merge_sort (by_key key) l.

Definition by_text {A : Type} (key : A -> string) (x y : Z * A) : Prop :=
  String.leb (key x.2) (key y.2) = true.

#[global] Instance by_text_dec {A : Type} (key : A -> string) (x y : Z * A) :
  Decision (by_text key x y) := bool_eq_dec _ _.

(** [... ORDER BY column] for a text column (binary collation). *)
Definition order_by_text {A : Type} (key : A -> string) (l : list (Z * A))
    : list (Z * A) :=
  merge_sort (by_text key) l.

(** [x IN (...)] for a list of ids. *)
Definition in_ids (x : Z) (ids : list Z) : bool :=
  existsb (Z.eqb x) ids.

(** The handlers write an [IN] list with one host parameter per id, and
    SQLite refuses a statement with more host parameters than
    SQLITE_MAX_VARIABLE_NUMBER (sqlite3.OperationalError, too many SQL
    variables).  That limit is 999 before SQLite 3.32 and 32766 from then on,
    and some builds raise it, so a list of at most 999 ids is accepted by
    every build.  [in_ids] and the queries built on it describe a statement
    that SQLite accepts; the theorems that assert the success of a handler
    binding a list of ids take [within_limit] of that list as a
    hypothesis. *)
Definition host_parameters : Z := 999.

Definition within_limit (ids : list Z) : bool :=
  Z.of_nat (length ids) <=? host_parameters.

(** An id that SQLite can bind: a Python int outside the 64-bit range makes
    [db.execute] raise OverflowError.  The converter of the routes
    ([<int:trip_id>]) accepts every non-negative integer; the handlers are
    modelled on the ids that SQLite can bind, and a theorem that asserts the
    success of a handler for an id that need not be stored takes
    [is_integer] as a hypothesis. *)
Definition is_integer (n : Z) : bool :=
  (- 2 ^ 63 <=? n) && (n <? 2 ^ 63).

End Sql.

(** ** Responses

    What a handler returns, with the message it flashed.  The database next
    to a response is the committed one: a handler that returns without
    [db.commit()], or raises, gives back the database it received. *)

Inductive response : Type :=
| Redirect (endpoint : string) (trip_id : option Z) (flashed : option string)
| Render (template : string) (flashed : option string)
| Raised (e : exn).

(** [request.form.get(key)]: [None] when the field was not posted. *)
Definition form_field : Type := option string.

(** ** Stop-to-date mapping (trip_detail, lines 690-698; the same loop is
    in export_trip_csv, suggest_places and trip_summary) *)

Definition location_by_date_step (acc : result (gmap string string))
    (stop : Z * stop_row) : result (gmap string string) :=
  (do location_by_date <- acc;
   do stop_start <- parse_date_exn (st_start_date stop.2);
   do stop_end <- parse_date_exn (st_end_date stop.2);
   for_each_day (day_fuel stop_start stop_end) stop_start stop_end
     (fun current m => <[Date.isoformat current := st_name stop.2]> m)
     location_by_date)%result.

Definition build_location_by_date (stops : list (Z * stop_row))
    : result (gmap string string) :=
  fold_left location_by_date_step stops (inr ∅).

(** [SELECT ... FROM trip_stops WHERE trip_id = ? ORDER BY start_date] *)
Definition select_stops (db : database) (trip_id : Z) : list (Z * stop_row) :=
  Sql.order_by_text st_start_date
    (Sql.select (fun _ r => st_trip_id r =? trip_id) (trip_stops db)).

(** [SELECT ... FROM itinerary WHERE trip_id = ? ORDER BY day_number] *)
Definition select_days (db : database) (trip_id : Z)
    : list (Z * itinerary_row) :=
  Sql.order_by day_number
    (Sql.select (fun _ r => it_trip_id r =? trip_id) (itinerary db)).

(** [location_by_date.get(key)]; a dict's [get] gives [None] for a missing
    key. *)
Definition location_name (location_by_date : gmap string string)
    (date_str : string) : option string :=
  location_by_date !! date_str.

(** ** Checklist items per day (trip_detail, lines 700-720) *)

Notation item_groups := (gmap string (list (Z * day_item_row))).

(** [{"place": [], "restaurant": [], "hotel": []}] *)
Definition empty_groups : item_groups :=
  <["place" := []]> (<["restaurant" := []]> (<["hotel" := []]> ∅)).

(** [SELECT ... FROM day_items WHERE itinerary_id IN (...)
     AND (hidden IS NULL OR hidden = 0) ORDER BY id] *)
Definition select_visible_items (db : database) (day_ids : list Z)
    : list (Z * day_item_row) :=
  Sql.select
    (fun _ r => Sql.in_ids (itinerary_id r) day_ids && negb (hidden r))
    (day_items db).

(** One turn of the grouping loop; indexing the inner dict with a category
    that is not one of its three keys is a [KeyError]. *)
Definition items_by_day_step (acc : result (gmap Z item_groups))
    (row : Z * day_item_row) : result (gmap Z item_groups) :=
  (do items_by_day <- acc;
   let groups := default empty_groups (items_by_day !! itinerary_id row.2) in
   match groups !! category row.2 with
   | None => inl KeyError
   | Some l =>
       inr (<[itinerary_id row.2 := <[category row.2 := (l ++ [row])%list]> groups]>
              items_by_day)
   end)%result.

Definition build_items_by_day (db : database) (day_ids : list Z)
    : result (gmap Z item_groups) :=
  match day_ids with
  | [] => inr ∅
  | _ => fold_left items_by_day_step (select_visible_items db day_ids) (inr ∅)
  end.

(** [items_by_day.get(day_id, {"place": [], "restaurant": [], "hotel": []})] *)
Definition per_day_items (items_by_day : gmap Z item_groups) (day_id : Z)
    : item_groups :=
  default empty_groups (items_by_day !! day_id).

(** [per_day_items.get(category, [])] *)
Definition items_of (g : item_groups) (cat : string) : list (Z * day_item_row) :=
  default [] (g !! cat).

(** ** Completion statistics (trip_detail, lines 737-766) *)

Module PyFloat.

(** [float(n)] and the implicit conversion of an [int] operand, for the
    small non-negative integers of this program. *)
Definition of_int (n : Z) : float := PrimFloat.of_uint63 (Uint63.of_Z n).

(** The integer nearest to [m * 2^e], ties to even. *)
Definition round_scaled (m e : Z) : Z :=
  if 0 <=? e then m * 2 ^ e
  else
    let d := 2 ^ (- e) in
    let q := m / d in
    let r := m mod d in
    if 2 * r <? d then q
    else if d <? 2 * r then q + 1
    else if Z.even q then q else q + 1.

(** [round(x)] with one argument: the nearest integer, ties to even;
    [None] for an infinity ([OverflowError]) or a NaN ([ValueError]). *)
Definition round (x : float) : option Z :=
  match Prim2SF x with
  | S754_zero _ => Some 0
  | S754_finite s m e =>
      let z := round_scaled (Z.pos m) e in
      Some (if s then - z else z)
  | S754_infinity _ | S754_nan => None
  end.

End PyFloat.

Record completion : Type := Completion {
  slots_filled : Z;
  total_slots : Z;
  meals_picked : Z;
  total_meals : Z;
  percent : Z
}.

(** [(text or "").strip()] taken as a condition. *)
Definition nonblank (v : option string) : bool :=
  Py.truthy (Py.strip (Py.or_empty v)).

Definition count_slots_filled (day : itinerary_row) : Z :=
  (if nonblank (morning_description day) then 1 else 0)
  + (if nonblank (afternoon_description day) then 1 else 0)
  + (if nonblank (evening_description day) then 1 else 0).

(** [{"breakfast": False, "lunch": False, "dinner": False}] *)
Definition initial_meal_flags : gmap string bool :=
  <["breakfast" := false]> (<["lunch" := false]> (<["dinner" := false]> ∅)).

Definition meal_flags_step (meal_flags : gmap string bool)
    (item : Z * day_item_row) : gmap string bool :=
  let slot := Py.lower (Py.or_empty (slot item.2)) in
  if bool_decide (is_Some (meal_flags !! slot)) && checked item.2
  then <[slot := true]> meal_flags
  else meal_flags.

(** [sum(1 for v in meal_flags.values() if v)] *)
Definition count_true (flags : gmap string bool) : Z :=
  Z.of_nat (length (List.filter (fun kv : string * bool => kv.2)
                      (map_to_list flags))).

Definition day_completion (day : itinerary_row) (per_day : item_groups)
    : option completion :=
  let slots_filled := count_slots_filled day in
  let total_slots := 3 in
  let restaurants := items_of per_day "restaurant" in
  let meal_flags := fold_left meal_flags_step restaurants initial_meal_flags in
  let meals_picked := count_true meal_flags in
  let total_meals := 3 in
  let denom := total_slots + total_meals in
  percent ←
    (if denom =? 0 then Some 0
     else PyFloat.round
            (PrimFloat.mul
               (PrimFloat.div (PyFloat.of_int (slots_filled + meals_picked))
                  (PyFloat.of_int denom))
               (PyFloat.of_int 100)));
  Some (Completion slots_filled total_slots meals_picked total_meals percent).

(** ** Hotels filtered by location (trip_detail, lines 768-777) *)

Definition hotels_filtered (per_day : item_groups)
    (location_name : option string) : list (Z * day_item_row) :=
  let hotels := items_of per_day "hotel" in
  if Py.truthy_opt location_name then
    let loc_lower := Py.lower (Py.or_empty location_name) in
    List.filter (fun h => Py.contains loc_lower (Py.lower (name h.2))) hotels
  else hotels.

(** ** delete_trip (lines 1341-1371) *)

Definition delete_trip (db : database) (trip_id : Z) : response * database :=
  let itinerary_ids :=
    (Sql.select (fun _ r => it_trip_id r =? trip_id) (itinerary db)).*1 in
  let db :=
    match itinerary_ids with
    | [] => db
    | _ =>
        set_day_items
          (Sql.delete_where
             (fun _ r => Sql.in_ids (itinerary_id r) itinerary_ids)
             (day_items db)) db
    end in
  let db :=
    set_itinerary
      (Sql.delete_where (fun _ r => it_trip_id r =? trip_id) (itinerary db)) db in
  let db :=
    set_budget_items
      (Sql.delete_where (fun _ r => bi_trip_id r =? trip_id) (budget_items db))
      db in
  let db :=
    set_trip_stops
      (Sql.delete_where (fun _ r => st_trip_id r =? trip_id) (trip_stops db)) db in
  let db :=
    set_trips (Sql.delete_where (fun id _ => id =? trip_id) (trips db)) db in
  (Redirect "list_trips" None (Some "Trip deleted."), db).

(** ** generate_itinerary (lines 1182-1229) and build_ai_style_itinerary
    (lines 1660-1697) *)

Record day_content : Type := DayContent {
  c_morning_title : string;
  c_morning_description : string;
  c_afternoon_title : string;
  c_afternoon_description : string;
  c_evening_title : string;
  c_evening_description : string
}.

Definition style_texts (destination style : string)
    : string * string * string :=
  if Py.contains "food" style || Py.contains "foodie" style then
    ("Start your day at a local cafe in " +:+ destination +:+ ".",
     "Take a walking food tour and sample street food in " +:+ destination +:+ ".",
     "Dinner at a neighborhood restaurant known for regional specialties in "
       +:+ destination +:+ ".")
  else if Py.contains "budget" style then
    ("Explore a free park, garden, or public space in " +:+ destination +:+ ".",
     "Visit a low-cost museum or market and people-watch in " +:+ destination +:+ ".",
     "Find a casual, affordable spot for dinner and stroll the city center in "
       +:+ destination +:+ ".")
  else if Py.contains "family" style then
    ("Family-friendly attraction or playground in " +:+ destination +:+ ".",
     "Interactive museum, zoo, or aquarium suited for kids in " +:+ destination +:+ ".",
     "Relaxed dinner and early evening walk through a safe, lively area in "
       +:+ destination +:+ ".")
  else if Py.contains "luxury" style then
    ("Slow breakfast at a high-end cafe or in-hotel dining in " +:+ destination +:+ ".",
     "Spa treatment or private guided tour around " +:+ destination +:+ ".",
     "Tasting-menu dinner or rooftop bar experience in " +:+ destination +:+ ".")
  else
    ("Walk through a central neighborhood in " +:+ destination +:+ ".",
     "Visit one landmark or museum that interests you in " +:+ destination +:+ ".",
     "Try a recommended local restaurant and explore nearby streets in "
       +:+ destination +:+ ".").

Definition build_ai_style_itinerary (trip : trip_row)
    (days : list (Z * itinerary_row)) : gmap Z day_content :=
  let destination := destination trip in
  let style := Py.lower (travel_style trip) in
  let '(morning, afternoon, evening) := style_texts destination style in
  fold_left
    (fun itinerary day =>
       <[day_number day.2 :=
           DayContent "Morning" morning "Afternoon" afternoon "Evening" evening]>
         itinerary)
    days ∅.

Definition set_descriptions (m a e : string) (r : itinerary_row)
    : itinerary_row :=
  ItineraryRow (it_trip_id r) (day_number r) (date r)
    (morning_title r) (Some m) (morning_map_link r)
    (afternoon_title r) (Some a) (afternoon_map_link r)
    (evening_title r) (Some e) (evening_map_link r).

Definition generate_step (suggestions : gmap Z day_content)
    (acc : result database) (day : Z * itinerary_row) : result database :=
  (do db <- acc;
   match suggestions !! day_number day.2 with
   | None => inl KeyError
   | Some content =>
       let morning_desc :=
         Py.or_else (morning_description day.2) (c_morning_description content) in
       let afternoon_desc :=
         Py.or_else (afternoon_description day.2)
           (c_afternoon_description content) in
       let evening_desc :=
         Py.or_else (evening_description day.2) (c_evening_description content) in
       inr (set_itinerary
              (Sql.update
                 (set_descriptions morning_desc afternoon_desc evening_desc)
                 day.1 (itinerary db)) db)
   end)%result.

Definition generate_itinerary (db : database) (trip_id : Z)
    : response * database :=
  let days := select_days db trip_id in
  match rows (trips db) !! trip_id, days with
  | None, _ | _, [] =>
      (Redirect "list_trips" None (Some "Trip not found."), db)
  | Some trip, _ =>
      let suggestions := build_ai_style_itinerary trip days in
      match fold_left (generate_step suggestions) days (inr db) with
      | inl e => (Raised e, db)
      | inr db' =>
          (Redirect "trip_detail" (Some trip_id)
             (Some "Sample itinerary generated based on your travel style."),
           db')
      end
  end.

(** ** Inserting the days of a date range (new_trip, lines 625-636;
    import_trip_csv, lines 277-289) *)

Definition blank_day (trip_id day_number : Z) (date : string) : itinerary_row :=
  ItineraryRow trip_id day_number date
    None None None None None None None None None.

Definition insert_day_step (trip_id : Z) (current : Date.date)
    (s : Z * database) : Z * database :=
  let '(day_number, db) := s in
  (day_number + 1,
   set_itinerary
     (Sql.insert (blank_day trip_id day_number (Date.isoformat current))
        (itinerary db)).2 db).

Definition insert_days (trip_id : Z) (start_date end_date : Date.date)
    (db : database) : result database :=
  (do s <- for_each_day (day_fuel start_date end_date) start_date end_date
             (insert_day_step trip_id) (1, db);
   inr s.2)%result.

(** ** new_trip (lines 592-643) *)

Definition new_trip (db : database)
    (f_destination f_start_date f_end_date f_travel_style : form_field)
    : response * database :=
  let destination := Py.strip (Py.or_empty f_destination) in
  let travel_style := Py.or_else f_travel_style "Flexible" in
  if negb (Py.truthy destination) || negb (Py.truthy_opt f_start_date)
     || negb (Py.truthy_opt f_end_date)
  then (Render "trip_form.html"
          (Some "Please provide destination, start date, and end date."), db)
  else
    match parse_date (Py.or_empty f_start_date),
          parse_date (Py.or_empty f_end_date) with
    | Some start_date, Some end_date =>
        if Date.ltb end_date start_date then
          (Render "trip_form.html"
             (Some "End date cannot be before start date."), db)
        else
          let '(trip_id, t) :=
            Sql.insert
              (TripRow destination (Date.isoformat start_date)
                 (Date.isoformat end_date) travel_style) (trips db) in
          match insert_days trip_id start_date end_date (set_trips t db) with
          | inl e => (Raised e, db)
          | inr db' =>
              (Redirect "trip_detail" (Some trip_id) (Some "Trip created."), db')
          end
    | _, _ =>
        (Render "trip_form.html"
           (Some "Dates must be in YYYY-MM-DD format."), db)
    end.

(** ** edit_trip (lines 1427-1539) *)

Definition set_number_and_date (n : Z) (date_str : string) (r : itinerary_row)
    : itinerary_row :=
  ItineraryRow (it_trip_id r) n date_str
    (morning_title r) (morning_description r) (morning_map_link r)
    (afternoon_title r) (afternoon_description r) (afternoon_map_link r)
    (evening_title r) (evening_description r) (evening_map_link r).

(** [{row["date"]: row for row in existing_days}] *)
Definition index_by_date (existing_days : list (Z * itinerary_row))
    : gmap string (Z * itinerary_row) :=
  fold_left (fun m row => <[date row.2 := row]> m) existing_days ∅.

Record reconcile_state : Type := ReconcileState {
  rs_day_number : Z;
  rs_used_ids : gset Z;
  rs_db : database
}.

(** The body of the loop over the new range (lines 1492-1513). *)
Definition reconcile_step (trip_id : Z)
    (by_date : gmap string (Z * itinerary_row)) (current : Date.date)
    (s : reconcile_state) : reconcile_state :=
  let date_str := Date.isoformat current in
  let day_number := rs_day_number s in
  match by_date !! date_str with
  | Some row =>
      ReconcileState (day_number + 1) ({[row.1]} ∪ rs_used_ids s)
        (set_itinerary
           (Sql.update (set_number_and_date day_number date_str) row.1
              (itinerary (rs_db s))) (rs_db s))
  | None =>
      ReconcileState (day_number + 1) (rs_used_ids s)
        (set_itinerary
           (Sql.insert (blank_day trip_id day_number date_str)
              (itinerary (rs_db s))).2 (rs_db s))
  end.

(** The adjustment of the itinerary days (lines 1476-1531). *)
Definition reconcile_days (trip_id : Z) (new_start new_end : Date.date)
    (db : database) : result database :=
  let existing_days := select_days db trip_id in
  let by_date := index_by_date existing_days in
  (do s <- for_each_day (day_fuel new_start new_end) new_start new_end
             (reconcile_step trip_id by_date) (ReconcileState 1 ∅ db);
   let to_remove :=
     List.filter (fun id => bool_decide (id ∉ rs_used_ids s))
       existing_days.*1 in
   match to_remove with
   | [] => inr (rs_db s)
   | _ =>
       let db1 :=
         set_day_items
           (Sql.delete_where
              (fun _ r => Sql.in_ids (itinerary_id r) to_remove)
              (day_items (rs_db s))) (rs_db s) in
       inr (set_itinerary
              (Sql.delete_where (fun id _ => Sql.in_ids id to_remove)
                 (itinerary db1)) db1)
   end)%result.

Definition edit_trip (db : database) (trip_id : Z)
    (f_destination f_start_date f_end_date f_travel_style : form_field)
    : response * database :=
  match rows (trips db) !! trip_id with
  | None => (Redirect "list_trips" None (Some "Trip not found."), db)
  | Some trip =>
      let destination := Py.strip (Py.or_empty f_destination) in
      let travel_style := Py.or_else f_travel_style "Flexible" in
      if negb (Py.truthy destination) || negb (Py.truthy_opt f_start_date)
         || negb (Py.truthy_opt f_end_date)
      then (Render "trip_edit.html"
              (Some "Please provide destination, start date, and end date."),
            db)
      else
        match parse_date (Py.or_empty f_start_date),
              parse_date (Py.or_empty f_end_date) with
        | Some new_start, Some new_end =>
            if Date.ltb new_end new_start then
              (Render "trip_edit.html"
                 (Some "End date cannot be before start date."), db)
            else
              match parse_date (start_date trip), parse_date (end_date trip) with
              | Some old_start, Some old_end =>
                  let db1 :=
                    set_trips
                      (Sql.update
                         (fun _ =>
                            TripRow destination (Date.isoformat new_start)
                              (Date.isoformat new_end) travel_style)
                         trip_id (trips db)) db in
                  let adjusted :=
                    if negb (Date.eqb new_start old_start)
                       || negb (Date.eqb new_end old_end)
                    then reconcile_days trip_id new_start new_end db1
                    else inr db1 in
                  match adjusted with
                  | inl e => (Raised e, db)
                  | inr db2 =>
                      (Redirect "trip_detail" (Some trip_id)
                         (Some "Trip updated."), db2)
                  end
              | _, _ => (Raised ValueError, db)
              end
        | _, _ =>
            (Render "trip_edit.html"
               (Some "Dates must be in YYYY-MM-DD format."), db)
        end
  end.

(** ** CSV rows

    [csv.DictReader] and [csv.writer] are taken at the level of rows: an
    uploaded file is the list of its data rows, each giving [row.get(key)]
    for the seven column names, and an export is the list of rows written
    after the header. *)

Record csv_row : Type := CsvRow {
  f_date : option string;
  f_time_of_day : option string;
  f_category : option string;
  f_name : option string;
  f_city : option string;
  f_meal : option string;
  f_selected : option string
}.

Record parsed_row : Type := ParsedRow {
  p_date : Date.date;
  p_name : string;
  p_time_of_day : string;
  p_category : string;
  p_city : string;
  p_meal : string;
  p_selected : bool
}.

(** One turn of the row loop (lines 223-257 and 382-412): [None] when the
    row is skipped. *)
Definition parse_row (row : csv_row) : option parsed_row :=
  let date_str := Py.strip (Py.or_empty (f_date row)) in
  let name := Py.strip (Py.or_empty (f_name row)) in
  if negb (Py.truthy date_str) || negb (Py.truthy name) then None
  else
    match parse_date date_str with
    | None => None
    | Some date =>
        let time_of_day := Py.lower (Py.strip (Py.or_empty (f_time_of_day row))) in
        let category := Py.lower (Py.strip (Py.or_empty (f_category row))) in
        let city := Py.strip (Py.or_empty (f_city row)) in
        let meal := Py.lower (Py.strip (Py.or_empty (f_meal row))) in
        let selected := Csv.parse_selected (f_selected row) in
        let category :=
          if Py.in_set category ["place"; "restaurant"; "hotel"]
          then category else "place" in
        Some (ParsedRow date name time_of_day category city meal selected)
    end.

Definition parse_rows (reader : list csv_row) : list parsed_row :=
  omap parse_row reader.

(** [min(dates)] and [max(dates)] of a non-empty list. *)
Definition date_min (d : Date.date) (l : list Date.date) : Date.date :=
  fold_left (fun m x => if Date.ltb x m then x else m) l d.
Definition date_max (d : Date.date) (l : list Date.date) : Date.date :=
  fold_left (fun m x => if Date.ltb m x then x else m) l d.

(** [city_dates.setdefault(city, []).append(date)] on an insertion-ordered
    dict. *)
Fixpoint city_dates_add (city : string) (date : Date.date)
    (city_dates : list (string * list Date.date))
    : list (string * list Date.date) :=
  match city_dates with
  | [] => [(city, [date])]
  | (c, ds) :: rest =>
      if String.eqb c city then (c, (ds ++ [date])%list) :: rest
      else (c, ds) :: city_dates_add city date rest
  end.

Definition build_city_dates (rows : list parsed_row)
    : list (string * list Date.date) :=
  fold_left
    (fun acc row =>
       if Py.truthy (p_city row) then city_dates_add (p_city row) (p_date row) acc
       else acc)
    rows [].

(** The stops derived from the city column (lines 308-317, 443-452). *)
Definition insert_stops (trip_id : Z)
    (city_dates : list (string * list Date.date)) (db : database) : database :=
  fold_left
    (fun db entry =>
       match entry.2 with
       | [] => db
       | d :: ds =>
           let stop_start := date_min d ds in
           let stop_end := date_max d ds in
           set_trip_stops
             (Sql.insert
                (StopRow trip_id entry.1 (Date.isoformat stop_start)
                   (Date.isoformat stop_end)) (trip_stops db)).2 db
       end)
    city_dates db.

(** The slot stored for a parsed row (lines 326-332, 461-467). *)
Definition row_slot (row : parsed_row) : option string :=
  if String.eqb (p_category row) "place" then
    if Py.in_set (p_time_of_day row) ["morning"; "afternoon"; "evening"]
    then Some (p_time_of_day row) else None
  else if String.eqb (p_category row) "restaurant" then
    if Py.in_set (p_meal row) ["breakfast"; "lunch"; "dinner"; "snack"]
    then Some (p_meal row) else None
  else None.

(** [{row["date"]: row for row in days}], keeping the id. *)
Definition day_by_date (days : list (Z * itinerary_row)) : gmap string Z :=
  fold_left (fun m row => <[date row.2 := row.1]> m) days ∅.

(** The checklist items inserted for the rows (lines 320-340, 455-475). *)
Definition insert_items (day_by_date : gmap string Z) (rows : list parsed_row)
    (db : database) : database :=
  fold_left
    (fun db row =>
       match day_by_date !! Date.isoformat (p_date row) with
       | None => db
       | Some day_id =>
           set_day_items
             (Sql.insert
                (DayItemRow day_id (p_category row) (p_name row)
                   (p_selected row) (row_slot row) false) (day_items db)).2 db
       end)
    rows db.

(** ** import_trip_csv (lines 200-347); [file] is [None] when no file was
    chosen. *)

Definition import_trip_csv (db : database)
    (f_destination f_travel_style : form_field) (file : option (list csv_row))
    : response * database :=
  let destination := Py.strip (Py.or_empty f_destination) in
  let travel_style := Py.or_else f_travel_style "Flexible" in
  match file with
  | None =>
      (Render "import_trip.html"
         (Some "Please provide a destination and choose a CSV file."), db)
  | Some reader =>
      if negb (Py.truthy destination) then
        (Render "import_trip.html"
           (Some "Please provide a destination and choose a CSV file."), db)
      else
        match parse_rows reader with
        | [] =>
            (Render "import_trip.html"
               (Some "No valid rows found in CSV. Expected headers: date,time_of_day,category,name,city,meal."),
             db)
        | r :: rs =>
            let parsed_rows := r :: rs in
            let start_date := date_min (p_date r) (p_date <$> rs) in
            let end_date := date_max (p_date r) (p_date <$> rs) in
            let '(trip_id, t) :=
              Sql.insert
                (TripRow destination (Date.isoformat start_date)
                   (Date.isoformat end_date) travel_style) (trips db) in
            match insert_days trip_id start_date end_date (set_trips t db) with
            | inl e => (Raised e, db)
            | inr db1 =>
                let days :=
                  Sql.select (fun _ r => it_trip_id r =? trip_id)
                    (itinerary db1) in
                let db2 :=
                  insert_stops trip_id (build_city_dates parsed_rows) db1 in
                let db3 := insert_items (day_by_date days) parsed_rows db2 in
                (Redirect "trip_detail" (Some trip_id)
                   (Some "Trip imported from CSV."), db3)
            end
        end
  end.

(** ** import_trip_csv_into_trip (lines 349-483), the POST branch *)

Definition import_trip_csv_into_trip (db : database) (trip_id : Z)
    (file : option (list csv_row)) : response * database :=
  match rows (trips db) !! trip_id with
  | None => (Redirect "list_trips" None (Some "Trip not found."), db)
  | Some trip =>
      match file with
      | None =>
          (Render "import_trip_into_existing.html"
             (Some "Please choose a CSV file."), db)
      | Some reader =>
          match parse_rows reader with
          | [] =>
              (Render "import_trip_into_existing.html"
                 (Some "No valid rows found in CSV. Expected headers: date,time_of_day,category,name,city,meal,selected."),
               db)
          | parsed_rows =>
              match parse_date (start_date trip), parse_date (end_date trip) with
              | Some trip_start, Some trip_end =>
                  let in_range_rows :=
                    List.filter
                      (fun r => Date.leb trip_start (p_date r)
                                && Date.leb (p_date r) trip_end) parsed_rows in
                  match in_range_rows with
                  | [] =>
                      (Render "import_trip_into_existing.html"
                         (Some "CSV rows are all outside the current trip dates."),
                       db)
                  | _ =>
                      let itinerary_rows :=
                        Sql.select (fun _ r => it_trip_id r =? trip_id)
                          (itinerary db) in
                      let db1 :=
                        insert_stops trip_id (build_city_dates in_range_rows) db in
                      let db2 :=
                        insert_items (day_by_date itinerary_rows) in_range_rows
                          db1 in
                      (Redirect "trip_detail" (Some trip_id)
                         (Some "Trip updated from CSV."), db2)
                  end
              | _, _ => (Raised ValueError, db)
              end
          end
      end
  end.

(** ** export_trip_csv (lines 485-590) *)

Record export_row : Type := ExportRow {
  x_date : string;
  x_time_of_day : string;
  x_category : string;
  x_name : string;
  x_city : string;
  x_meal : string;
  x_selected : string
}.

(** [items_by_day.setdefault(row["itinerary_id"], []).append(row)] over the
    visible items in id order, then [items_by_day.get(day_id, [])]. *)
Definition export_day_items (items : list (Z * day_item_row)) (day_id : Z)
    : list (Z * day_item_row) :=
  List.filter (fun it => itinerary_id it.2 =? day_id) items.

Definition export_item (date_str city : string) (item : Z * day_item_row)
    : export_row :=
  let category := category item.2 in
  let slot := Py.or_empty (slot item.2) in
  let time_of_day :=
    if String.eqb category "place"
       && Py.in_set slot ["morning"; "afternoon"; "evening"]
    then slot else "" in
  let meal :=
    if negb (String.eqb category "place") && String.eqb category "restaurant"
       && Py.in_set slot ["breakfast"; "lunch"; "dinner"; "snack"]
    then slot else "" in
  let selected := if checked item.2 then "1" else "0" in
  ExportRow date_str time_of_day category (name item.2) city meal selected.

Definition export_rows (destination : string)
    (location_by_date : gmap string string)
    (days : list (Z * itinerary_row)) (items : list (Z * day_item_row))
    : list export_row :=
  flat_map
    (fun day =>
       let date_str := date day.2 in
       let city := Py.or_else (location_by_date !! date_str) destination in
       export_item date_str city <$> export_day_items items day.1)
    days.

(** The result of the handler: not found, an exception, or the rows of the
    download. *)
Inductive export_result : Type :=
| ExportNotFound
| ExportRaised (e : exn)
| ExportCsv (rows : list export_row).

Definition export_trip_csv (db : database) (trip_id : Z) : export_result :=
  match rows (trips db) !! trip_id with
  | None => ExportNotFound
  | Some trip =>
      let days := select_days db trip_id in
      match build_location_by_date (select_stops db trip_id) with
      | inl e => ExportRaised e
      | inr location_by_date =>
          let items := select_visible_items db days.*1 in
          ExportCsv (export_rows (destination trip) location_by_date days items)
      end
  end.

(** What [csv.DictReader] reads back from a written row whose fields are
    within the reader's limit: every column is present. *)
Definition read_back (r : export_row) : csv_row :=
  CsvRow (Some (x_date r)) (Some (x_time_of_day r)) (Some (x_category r))
    (Some (x_name r)) (Some (x_city r)) (Some (x_meal r)) (Some (x_selected r)).

(** Every field of the row is within [csv.field_size_limit()]. *)
Definition row_fits (r : export_row) : bool :=
  Csv.field_fits (x_date r) && Csv.field_fits (x_time_of_day r)
  && Csv.field_fits (x_category r) && Csv.field_fits (x_name r)
  && Csv.field_fits (x_city r) && Csv.field_fits (x_meal r)
  && Csv.field_fits (x_selected r).

(** The rows that [csv.DictReader] yields for the written file: the loop
    over the reader raises [csv.Error] at a field beyond the limit. *)
Definition read_rows (written : list export_row) : result (list csv_row) :=
  if forallb row_fits written then inr (read_back <$> written)
  else inl CsvError.

(** ** The per-day part of trip_detail (lines 661-777)

    The view holds what the day loop computes: the completion and the
    filtered hotels of each day, and the city that is passed to
    build_day_directions_url for the day (line 731).  The directions link
    itself and the parts of the page after the day loop (budget, packing
    list, weather, food highlights) are not modelled. *)

Record detail_view : Type := DetailView {
  v_days : list (Z * itinerary_row);
  v_location_by_date : gmap string string;
  v_items_by_day : gmap Z item_groups;
  v_city_by_day : gmap Z string;
  v_completion_by_day : gmap Z completion;
  v_hotels_filtered_by_day : gmap Z (list (Z * day_item_row))
}.

(** What the day loop has recorded so far. *)
Record day_maps : Type := DayMaps {
  m_city : gmap Z string;
  m_completion : gmap Z completion;
  m_hotels : gmap Z (list (Z * day_item_row))
}.

Definition detail_day_step (trip : trip_row)
    (location_by_date : gmap string string)
    (items_by_day : gmap Z item_groups)
    (acc : result day_maps) (day : Z * itinerary_row) : result day_maps :=
  (do s <- acc;
   let per_day := per_day_items items_by_day day.1 in
   let city :=
     Py.or_else (location_name location_by_date (date day.2))
       (destination trip) in
   match day_completion day.2 per_day with
   | None => inl ValueError
   | Some stats =>
       let location_name := location_name location_by_date (date day.2) in
       inr (DayMaps (<[day.1 := city]> (m_city s))
              (<[day.1 := stats]> (m_completion s))
              (<[day.1 := hotels_filtered per_day location_name]> (m_hotels s)))
   end)%result.

Definition trip_detail_days (db : database) (trip_id : Z)
    : option (result detail_view) :=
  match rows (trips db) !! trip_id with
  | None => None
  | Some trip =>
      let days := select_days db trip_id in
      Some
        (do location_by_date <-
              build_location_by_date (select_stops db trip_id);
         do items_by_day <- build_items_by_day db days.*1;
         do s <- fold_left (detail_day_step trip location_by_date items_by_day)
                   days (inr (DayMaps ∅ ∅ ∅));
         inr (DetailView days location_by_date items_by_day (m_city s)
                (m_completion s) (m_hotels s)))%result
  end.

(** ** Specification vocabulary *)

(** The first [n] days from [d] on. *)
Fixpoint dates_from (n : nat) (d : Date.date) : list Date.date :=
  match n with
  | O => []
  | Datatypes.S n' =>
      d :: match Date.add_day d with
           | Some d' => dates_from n' d'
           | None => []
           end
  end.

(** The dates from [start] to [end_], both included. *)
Definition date_range (start end_ : Date.date) : list Date.date :=
  dates_from (day_fuel start end_) start.

(** A stop whose stored dates parse and whose end is before [date.max]
    (no trip, and so no stop, can end on [date.max]: the day loops of
    new_trip, import_trip_csv and edit_trip raise there before committing). *)
Definition stop_dates_ok (stop : stop_row) : bool :=
  match parse_date (st_start_date stop), parse_date (st_end_date stop) with
  | Some s, Some e => negb (Date.eqb e Date.max)
  | _, _ => false
  end.

(** The stop's range covers the date. *)
Definition stop_covers (d : Date.date) (stop : Z * stop_row) : bool :=
  match parse_date (st_start_date stop.2), parse_date (st_end_date stop.2) with
  | Some s, Some e => Date.leb s d && Date.leb d e
  | _, _ => false
  end.

(** The nearest integer to [n / d] for [d > 0], ties to even. *)
Definition round_ratio (n d : Z) : Z :=
  let q := n / d in
  let r := n mod d in
  if 2 * r <? d then q
  else if d <? 2 * r then q + 1
  else if Z.even q then q else q + 1.

Definition all_rows {A : Type} (P : A -> bool) (t : table A) : bool :=
  forallb (fun kv : Z * A => P kv.2) (map_to_list (rows t)).

Definition some_row {A : Type} (P : A -> bool) (t : table A) : bool :=
  existsb (fun kv : Z * A => P kv.2) (map_to_list (rows t)).

(** Every checklist item has one of the three categories. *)
Definition categories_ok (db : database) : bool :=
  all_rows (fun r => Py.in_set (category r) ["place"; "restaurant"; "hotel"])
    (day_items db).

(** Every stored slot is lower-case text (the writers store a recognised
    lower-case slot or NULL). *)
Definition slots_lowercase (db : database) : bool :=
  all_rows
    (fun r => String.eqb (Py.lower (Py.or_empty (slot r))) (Py.or_empty (slot r)))
    (day_items db).

(** The day has a checked, visible restaurant item with that meal as slot. *)
Definition meal_picked (db : database) (day_id : Z) (meal : string) : bool :=
  some_row
    (fun r => (itinerary_id r =? day_id) && String.eqb (category r) "restaurant"
              && negb (hidden r) && checked r
              && bool_decide (slot r = Some meal))
    (day_items db).

(** The three keys of a day's groups. *)
Definition three : list string := ["place"; "restaurant"; "hotel"].

(** The item belongs to the day and has the category. *)
Definition item_matches (day_id : Z) (cat : string) (it : Z * day_item_row)
    : bool :=
  (itinerary_id it.2 =? day_id) && String.eqb (category it.2) cat.

(** The name contains the location, compared case-insensitively; no
    condition when no location is resolved. *)
Definition at_location (location_name : option string) (h : Z * day_item_row)
    : bool :=
  negb (Py.truthy_opt location_name)
  || Py.contains (Py.lower (Py.or_empty location_name)) (Py.lower (name h.2)).

(** ** A sample database

    One trip to Paris over three days, with two stops that overlap on the
    second day, checklist items on the first day, a budget line and a
    packing item. *)

Definition sample_day (n : Z) (d : string) (m a e : option string)
    : itinerary_row :=
  ItineraryRow 1 n d None m None None a None None e None.

Definition sample_db : database :=
  Database
    (Table (list_to_map [(1, TripRow "Paris" "2024-01-01" "2024-01-03" "Foodie")]) 1)
    (Table (list_to_map
              [(1, sample_day 1 "2024-01-01" (Some "Louvre") (Some "Seine walk")
                     (Some "Dinner cruise"));
               (2, sample_day 2 "2024-01-02" (Some "  ") None (Some ""));
               (3, sample_day 3 "2024-01-03" None None None)]) 3)
    (Table (list_to_map [(1, BudgetRow 1 "Museum pass" None None)]) 1)
    (Table (list_to_map
              [(1, DayItemRow 1 "restaurant" "Cafe de Flore" true
                     (Some "breakfast") false);
               (2, DayItemRow 1 "restaurant" "Bistro Paul" true (Some "lunch") false);
               (3, DayItemRow 1 "restaurant" "Le Train Bleu" false
                     (Some "dinner") false);
               (4, DayItemRow 1 "restaurant" "Creperie" true (Some "snack") false);
               (5, DayItemRow 1 "hotel" "Hotel PARIS Opera" false None false);
               (6, DayItemRow 1 "hotel" "Lyon Inn" true None false);
               (7, DayItemRow 1 "place" "Catacombs" true (Some "morning") true);
               (8, DayItemRow 1 "place" "Louvre" true (Some "morning") false)]) 8)
    (Table (list_to_map
              [(1, StopRow 1 "Paris" "2024-01-01" "2024-01-02");
               (2, StopRow 1 "Lyon" "2024-01-02" "2024-01-03")]) 2)
    (Table (list_to_map [(1, PackingRow 1 "Essentials" "Passport / ID" false)]) 1).

(** The suggested description texts of a trip (morning, afternoon,
    evening). *)
Definition suggested_texts (trip : trip_row) : string * string * string :=
  style_texts (destination trip) (Py.lower (travel_style trip)).

(** Two day rows that differ at most in their three descriptions. *)
Definition same_but_descriptions (r r' : itinerary_row) : Prop :=
  it_trip_id r' = it_trip_id r /\ day_number r' = day_number r
  /\ date r' = date r
  /\ morning_title r' = morning_title r
  /\ morning_map_link r' = morning_map_link r
  /\ afternoon_title r' = afternoon_title r
  /\ afternoon_map_link r' = afternoon_map_link r
  /\ evening_title r' = evening_title r
  /\ evening_map_link r' = evening_map_link r.

(** A description after generation: kept when it was non-empty, else the
    suggestion. *)
Definition filled (old : option string) (suggestion : string) : option string :=
  if Py.truthy_opt old then old else Some suggestion.

(** The parsed row's date lies in the inclusive range. *)
Definition row_in_range (lo hi : Date.date) (p : parsed_row) : bool :=
  Date.leb lo (p_date p) && Date.leb (p_date p) hi.

(** The file row parses to a row whose date lies in the range. *)
Definition keep_in_range (lo hi : Date.date) (row : csv_row) : bool :=
  match parse_row row with
  | Some p => row_in_range lo hi p
  | None => false
  end.

(** The rows of an upload used by the examples: one in the sample trip's
    range and one after it. *)
Definition sample_upload : list csv_row :=
  [CsvRow (Some "2024-01-02") (Some "Morning") (Some "place")
     (Some " Eiffel Tower ") (Some "Paris") None (Some "yes");
   CsvRow (Some "2024-02-10") None (Some "hotel") (Some "Far Inn")
     (Some "Nice") None (Some "0")].

(** The [day_number] and [date] columns of a trip's days, in [day_number]
    order. *)
Definition day_columns (db : database) (trip_id : Z) : list (Z * string) :=
  (fun row => (day_number row.2, date row.2)) <$> select_days db trip_id.

(** The dates of the range in ISO form, numbered from 1. *)
Definition numbered_dates (start end_ : Date.date) : list (Z * string) :=
  imap (fun k d => (Z.of_nat k + 1, Date.isoformat d)) (date_range start end_).

(** The stored date of the day is the ISO form of a date of the range. *)
Definition in_new_range (start end_ : Date.date) (r : itinerary_row) : Prop :=
  date r ∈ Date.isoformat <$> date_range start end_.

(** The trip's stored days have pairwise different dates. *)
Definition distinct_dates (db : database) (trip_id : Z) : bool :=
  bool_decide (NoDup ((fun row => date row.2) <$> select_days db trip_id)).

(** Two day rows with the same titles, descriptions and map links. *)
Definition same_slots (r r' : itinerary_row) : Prop :=
  morning_title r' = morning_title r
  /\ morning_description r' = morning_description r
  /\ morning_map_link r' = morning_map_link r
  /\ afternoon_title r' = afternoon_title r
  /\ afternoon_description r' = afternoon_description r
  /\ afternoon_map_link r' = afternoon_map_link r
  /\ evening_title r' = evening_title r
  /\ evening_description r' = evening_description r
  /\ evening_map_link r' = evening_map_link r.

(** The checklist items of a day, by item id. *)
Definition items_of_day (db : database) (day_id : Z) : gmap Z day_item_row :=
  filter (fun kv => itinerary_id kv.2 = day_id) (rows (day_items db)).

(** The row that the loop of edit_trip leaves for the [k]-th date of the new
    range (counting from 0). *)
Definition reconciled_row (trip_id : Z)
    (by_date : gmap string (Z * itinerary_row)) (k : nat) (d : Date.date)
    : itinerary_row :=
  match by_date !! Date.isoformat d with
  | Some row =>
      set_number_and_date (Z.of_nat k + 1) (Date.isoformat d) row.2
  | None => blank_day trip_id (Z.of_nat k + 1) (Date.isoformat d)
  end.

(** The state of the loop of edit_trip after the dates [ds], where [ids]
    are the ids of the rows written for them, in order. *)
Record reconciled (db : database) (trip_id : Z)
    (by_date : gmap string (Z * itinerary_row)) (ds : list Date.date)
    (ids : list Z) (s : reconcile_state) : Prop := Reconciled {
  rec_length : length ids = length ds;
  rec_NoDup : NoDup ids;
  rec_number : rs_day_number s = Z.of_nat (length ds) + 1;
  rec_used : forall id,
    id ∈ rs_used_ids s
    <-> exists k d r, ids !! k = Some id /\ ds !! k = Some d
                      /\ by_date !! Date.isoformat d = Some (id, r);
  rec_rows : forall k id d,
    ids !! k = Some id -> ds !! k = Some d ->
    rows (itinerary (rs_db s)) !! id
    = Some (reconciled_row trip_id by_date k d)
    /\ match by_date !! Date.isoformat d with
       | Some row => id = row.1
       | None => rows (itinerary db) !! id = None
       end;
  rec_other : forall id,
    id ∉ ids -> rows (itinerary (rs_db s)) !! id = rows (itinerary db) !! id;
  rec_frame :
    trips (rs_db s) = trips db /\ budget_items (rs_db s) = budget_items db
    /\ day_items (rs_db s) = day_items db
    /\ trip_stops (rs_db s) = trip_stops db
    /\ packing_items (rs_db s) = packing_items db
}.

(** The order of (day_number, date) pairs by their number. *)
Definition by_first (x y : Z * string) : Prop := x.1 <= y.1.

(** A trip that ends one day before [date.max]. *)
Definition late_db : database :=
  Database
    (Table (list_to_map [(1, TripRow "Paris" "9999-12-30" "9999-12-30" "Foodie")]) 1)
    (Table (list_to_map [(1, sample_day 1 "9999-12-30" (Some "Louvre") None None)]) 1)
    (Table ∅ 0) (Table ∅ 0) (Table ∅ 0) (Table ∅ 0).

(** A visible checklist item of a trip: the date of its day, its category,
    name and checked flag, and its slot. *)
Definition visible_item (db : database) (trip_id : Z)
    (d c n : string) (k : bool) (s : option string) : Prop :=
  exists day_id day iid it,
    rows (itinerary db) !! day_id = Some day /\ it_trip_id day = trip_id
    /\ rows (day_items db) !! iid = Some it /\ itinerary_id it = day_id
    /\ hidden it = false
    /\ date day = d /\ category it = c /\ name it = n /\ checked it = k
    /\ slot it = s.

(** The slot is one of the recognized values for the category. *)
Definition recognized (c : string) (s : option string) : bool :=
  String.eqb c "place"
  && Py.in_set (Py.or_empty s) ["morning"; "afternoon"; "evening"]
  || String.eqb c "restaurant"
     && Py.in_set (Py.or_empty s) ["breakfast"; "lunch"; "dinner"; "snack"].

(** The slot after an export and import: kept when recognized, else empty. *)
Definition kept_slot (c : string) (s : option string) : option string :=
  if recognized c s then s else None.

(** The foreign keys that the schema declares for itinerary and day_items
    hold. *)
Definition foreign_keys_ok (db : database) : bool :=
  all_rows (fun r => bool_decide (is_Some (rows (trips db) !! it_trip_id r)))
    (itinerary db)
  && all_rows
       (fun r => bool_decide (is_Some (rows (itinerary db) !! itinerary_id r)))
       (day_items db).

(** The text is the ISO form of a calendar date before [date.max]. *)
Definition iso_date_text (s : string) : bool :=
  match parse_date s with
  | Some d => String.eqb (Date.isoformat d) s && negb (Date.eqb d Date.max)
  | None => false
  end.

(** The trip's days have ISO dates, and its visible items have a trimmed,
    non-empty name and one of the three categories. *)
Definition exportable (db : database) (trip_id : Z) : bool :=
  forallb (fun day : Z * itinerary_row => iso_date_text (date day.2))
    (select_days db trip_id)
  && forallb
       (fun it : Z * day_item_row =>
          String.eqb (Py.strip (name it.2)) (name it.2)
          && Py.truthy (name it.2) && Py.in_set (category it.2) three)
       (select_visible_items db (select_days db trip_id).*1).

(** The stored dates of the trip's stops parse, and no stop ends on
    [date.max]. *)
Definition stops_ok (db : database) (trip_id : Z) : bool :=
  forallb (fun stop : Z * stop_row => stop_dates_ok stop.2)
    (select_stops db trip_id).

(** The trip has a visible checklist item on one of its days. *)
Definition has_visible_item (db : database) (trip_id : Z) : bool :=
  match select_visible_items db (select_days db trip_id).*1 with
  | [] => false
  | _ => true
  end.

(** The names of the trip's visible items, the names of its stops and its
    destination are within [csv.field_size_limit()]. *)
Definition fields_fit (db : database) (trip_id : Z) (trip : trip_row) : bool :=
  Csv.field_fits (destination trip)
  && forallb (fun stop : Z * stop_row => Csv.field_fits (st_name stop.2))
       (select_stops db trip_id)
  && forallb (fun it : Z * day_item_row => Csv.field_fits (name it.2))
       (select_visible_items db (select_days db trip_id).*1).

(** A trip with the stops A (Jan 1-3) and B (Jan 3-5) of the
    specification's example, stored in the other order, and one day. *)
Definition ab_db : database :=
  Database
    (Table (list_to_map [(7, TripRow "Lyon" "2024-01-01" "2024-01-05" "Flexible")]) 7)
    (Table (list_to_map [(1, ItineraryRow 7 1 "2024-01-03" None None None None
                                None None None None None)]) 1)
    (Table ∅ 0)
    (Table (list_to_map
              [(1, DayItemRow 1 "hotel" "B Hotel" false None false);
               (2, DayItemRow 1 "hotel" "Auberge A" true None false)]) 2)
    (Table (list_to_map
              [(1, StopRow 7 "B" "2024-01-03" "2024-01-05");
               (2, StopRow 7 "A" "2024-01-01" "2024-01-03")]) 2)
    (Table ∅ 0).

(** A trip of one day without checklist items. *)
Definition bare_db : database :=
  Database
    (Table (list_to_map [(1, TripRow "Paris" "2024-01-01" "2024-01-01" "Foodie")]) 1)
    (Table (list_to_map [(1, sample_day 1 "2024-01-01" (Some "Louvre") None None)]) 1)
    (Table ∅ 0) (Table ∅ 0) (Table ∅ 0) (Table ∅ 0).

(** The same trip with one item whose stored name ends in a space. *)
Definition cafe_db : database :=
  set_day_items
    (Table (list_to_map [(1, DayItemRow 1 "place" "Cafe " true None false)]) 1)
    bare_db.

(** The rows of the export of the sample trip: the first, and the others. *)
Definition sample_export_first : export_row :=
  ExportRow "2024-01-01" "" "restaurant" "Cafe de Flore" "Paris" "breakfast" "1".

Definition sample_export_rest : list export_row :=
  [ExportRow "2024-01-01" "" "restaurant" "Bistro Paul" "Paris" "lunch" "1";
   ExportRow "2024-01-01" "" "restaurant" "Le Train Bleu" "Paris" "dinner" "0";
   ExportRow "2024-01-01" "" "restaurant" "Creperie" "Paris" "snack" "1";
   ExportRow "2024-01-01" "" "hotel" "Hotel PARIS Opera" "Paris" "" "0";
   ExportRow "2024-01-01" "" "hotel" "Lyon Inn" "Paris" "" "1";
   ExportRow "2024-01-01" "morning" "place" "Louvre" "Paris" "" "1"].

(** The stops A (Jan 1-3) and B (Jan 3-5) of the specification's example. *)
Definition stops_A_B : list (Z * stop_row) :=
  [(1, StopRow 7 "A" "2024-01-01" "2024-01-03");
   (2, StopRow 7 "B" "2024-01-03" "2024-01-05")].

(** The invariant of the grouping loop: under every day and key, the
    matching items seen so far, in order. *)
Definition grouped (ibd : gmap Z item_groups) (seen : list (Z * day_item_row))
    : Prop :=
  forall day_id cat,
    per_day_items ibd day_id !! cat
    = if Py.in_set cat three
      then Some (List.filter (item_matches day_id cat) seen) else None.

(** The meal flags as a map of the three meals. *)
Definition flags3 (b l d : bool) : gmap string bool :=
  <["breakfast" := b]> (<["lunch" := l]> (<["dinner" := d]> ∅)).

(** The item is checked and its slot is the meal. *)
Definition meal_hit (meal : string) (it : Z * day_item_row) : bool :=
  checked it.2 && String.eqb (Py.lower (Py.or_empty (slot it.2))) meal.

(** The content suggested for every day of the trip. *)
Definition trip_content (trip : trip_row) : day_content :=
  DayContent "Morning" (suggested_texts trip).1.1
    "Afternoon" (suggested_texts trip).1.2
    "Evening" (suggested_texts trip).2.

(** The row after generation. *)
Definition fill (c : day_content) (r : itinerary_row) : itinerary_row :=
  set_descriptions
    (Py.or_else (morning_description r) (c_morning_description c))
    (Py.or_else (afternoon_description r) (c_afternoon_description c))
    (Py.or_else (evening_description r) (c_evening_description c)) r.

(** The strict shape the specification names: four digits, a dash, two
    digits, a dash, two digits. *)
Definition strict_ymd_text (s : string) : bool :=
  match s with
  | String y1 (String y2 (String y3 (String y4 (String d1
      (String m1 (String m2 (String d2 (String a1 (String a2 EmptyString))))))))) =>
      Strptime.is_digit y1 && Strptime.is_digit y2 && Strptime.is_digit y3 && Strptime.is_digit y4
      && Ascii.eqb d1 "-" && Strptime.is_digit m1 && Strptime.is_digit m2
      && Ascii.eqb d2 "-" && Strptime.is_digit a1 && Strptime.is_digit a2
  | _ => false
  end.



(** * Calendar arithmetic *)

Module DateFacts.
Import Date.

Lemma valid_iff d :
  valid d = true <->
  1 <= year d <= 9999 /\ 1 <= month d <= 12
  /\ 1 <= day d <= days_in_month (year d) (month d).
Proof.
  unfold valid. rewrite !andb_true_iff, !Z.leb_le. tauto.
Qed.

Lemma is_leap_spec y :
  is_leap y = true <-> (y mod 4 = 0 /\ (y mod 100 <> 0 \/ y mod 400 = 0)).
Proof.
  unfold is_leap.
  rewrite andb_true_iff, orb_true_iff, negb_true_iff, !Z.eqb_eq, Z.eqb_neq.
  tauto.
Qed.

Lemma days_before_year_succ y :
  days_before_year (y + 1)
  = days_before_year y + (if is_leap y then 366 else 365).
Proof.
  unfold days_before_year. cbv zeta.
  replace (y + 1 - 1) with y by lia.
  destruct (is_leap y) eqn:L.
  - apply is_leap_spec in L.
    Z.to_euclidean_division_equations. lia.
  - assert (~ (y mod 4 = 0 /\ (y mod 100 <> 0 \/ y mod 400 = 0))) as L'.
    { rewrite <- is_leap_spec. congruence. }
    Z.to_euclidean_division_equations. lia.
Qed.

Lemma days_before_year_mono y1 y2 :
  y1 <= y2 -> days_before_year y1 <= days_before_year y2.
Proof.
  intros H. unfold days_before_year. cbv zeta.
  Z.to_euclidean_division_equations. lia.
Qed.

Ltac month_cases m :=
  let H := fresh in
  assert (H : m = 1 \/ m = 2 \/ m = 3 \/ m = 4 \/ m = 5 \/ m = 6 \/ m = 7
              \/ m = 8 \/ m = 9 \/ m = 10 \/ m = 11 \/ m = 12) by lia;
  repeat destruct H as [H | H]; subst m.

Lemma days_before_month_succ y m :
  1 <= m < 12 ->
  days_before_month y (m + 1) = days_before_month y m + days_in_month y m.
Proof.
  intros Hm. unfold days_before_month, days_in_month.
  month_cases m; try lia; destruct (is_leap y); reflexivity.
Qed.

Lemma days_before_month_mono y m1 m2 :
  1 <= m1 -> m1 < m2 <= 12 ->
  days_before_month y m1 + days_in_month y m1 <= days_before_month y m2.
Proof.
  intros H1 H2. unfold days_before_month, days_in_month.
  month_cases m1; month_cases m2; try (exfalso; lia); destruct (is_leap y);
    apply Z.leb_le; reflexivity.
Qed.

Lemma days_before_month_nonneg y m : 1 <= m <= 12 -> 0 <= days_before_month y m.
Proof.
  intros Hm. unfold days_before_month.
  month_cases m; destruct (is_leap y); apply Z.leb_le; reflexivity.
Qed.

Lemma year_length y :
  days_before_month y 12 + days_in_month y 12
  = if is_leap y then 366 else 365.
Proof. unfold days_before_month, days_in_month. destruct (is_leap y); reflexivity. Qed.

Lemma days_in_month_pos y m : 28 <= days_in_month y m <= 31.
Proof.
  unfold days_in_month.
  repeat match goal with |- context [if ?b then _ else _] => destruct b end; lia.
Qed.

(** The day after a date that is not [date.max]. *)
Lemma add_day_spec d :
  valid d = true -> d <> max ->
  exists d', add_day d = Some d' /\ valid d' = true
             /\ toordinal d' = toordinal d + 1.
Proof.
  intros V Hmax. apply valid_iff in V as (Hy & Hm & Hd).
  destruct d as [y m dd]. cbn [year month day] in *.
  unfold add_day. cbn [year month day].
  destruct (Z.ltb_spec dd (days_in_month y m)).
  - eexists; split; [reflexivity|]. split.
    + apply valid_iff; cbn; lia.
    + unfold toordinal; cbn; lia.
  - assert (dd = days_in_month y m) by lia. subst dd.
    destruct (Z.ltb_spec m 12).
    + eexists; split; [reflexivity|].
      pose proof (days_in_month_pos y (m + 1)). split.
      * apply valid_iff; cbn; lia.
      * unfold toordinal; cbn. rewrite days_before_month_succ by lia. lia.
    + assert (m = 12) by lia. subst m.
      destruct (Z.ltb_spec y 9999).
      * eexists; split; [reflexivity|]. split.
        -- apply valid_iff; cbn. change (days_in_month (y + 1) 1) with 31. lia.
        -- unfold toordinal; cbn [year month day].
           rewrite days_before_year_succ.
           pose proof (year_length y) as L.
           change (days_before_month (y + 1) 1) with 0.
           destruct (is_leap y); lia.
      * exfalso. apply Hmax. assert (y = 9999) by lia. subst y. reflexivity.
Qed.

Lemma add_day_max : add_day max = None.
Proof. reflexivity. Qed.

Lemma leb_le a b :
  leb a b = true <->
  (year a < year b
   \/ year a = year b
      /\ (month a < month b \/ month a = month b /\ day a <= day b)).
Proof.
  unfold leb.
  rewrite orb_true_iff, andb_true_iff, orb_true_iff, andb_true_iff.
  rewrite !Z.ltb_lt, !Z.eqb_eq, Z.leb_le. tauto.
Qed.

Lemma toordinal_lt a b :
  valid a = true -> valid b = true ->
  (year a < year b
   \/ year a = year b
      /\ (month a < month b \/ month a = month b /\ day a < day b)) ->
  toordinal a < toordinal b.
Proof.
  intros Va Vb H. apply valid_iff in Va as (Hya & Hma & Hda).
  apply valid_iff in Vb as (Hyb & Hmb & Hdb).
  destruct a as [ya ma da], b as [yb mb db]. cbn [year month day] in *.
  unfold toordinal. cbn [year month day].
  destruct H as [H | [-> [H | [-> H]]]].
  - pose proof (days_before_year_mono (ya + 1) yb ltac:(lia)) as M.
    rewrite days_before_year_succ in M.
    pose proof (year_length ya) as L.
    pose proof (days_before_month_nonneg yb mb Hmb).
    assert (days_before_month ya ma + days_in_month ya ma
            <= days_before_month ya 12 + days_in_month ya 12).
    { destruct (Z.eq_dec ma 12) as [->|]; [lia|].
      pose proof (days_before_month_mono ya ma 12 ltac:(lia) ltac:(lia)).
      pose proof (days_in_month_pos ya 12). lia. }
    destruct (is_leap ya); lia.
  - pose proof (days_before_month_mono yb ma mb ltac:(lia) ltac:(lia)). lia.
  - lia.
Qed.

Lemma leb_toordinal a b :
  valid a = true -> valid b = true ->
  (leb a b = true <-> toordinal a <= toordinal b).
Proof.
  intros Va Vb. rewrite leb_le. split.
  - intros H.
    destruct (Z.eq_dec (year a) (year b)) as [Ey|];
      [destruct (Z.eq_dec (month a) (month b)) as [Em|];
       [destruct (Z.eq_dec (day a) (day b)) as [Ed|]|]|].
    + destruct a, b; cbn in *; subst; lia.
    + apply Z.lt_le_incl, toordinal_lt; auto. lia.
    + apply Z.lt_le_incl, toordinal_lt; auto. lia.
    + apply Z.lt_le_incl, toordinal_lt; auto. lia.
  - intros H.
    destruct (Z.lt_trichotomy (year a) (year b)) as [|[Ey|Hy]]; [tauto| |].
    + destruct (Z.lt_trichotomy (month a) (month b)) as [|[Em|Hm]]; [tauto| |].
      * destruct (Z_le_gt_dec (day a) (day b)); [tauto|].
        pose proof (toordinal_lt b a Vb Va). lia.
      * pose proof (toordinal_lt b a Vb Va). lia.
    + pose proof (toordinal_lt b a Vb Va). lia.
Qed.

Lemma toordinal_inj a b :
  valid a = true -> valid b = true -> toordinal a = toordinal b -> a = b.
Proof.
  intros Va Vb E.
  destruct (Z.lt_trichotomy (year a) (year b)) as [H|[Ey|H]].
  - pose proof (toordinal_lt a b Va Vb). lia.
  - destruct (Z.lt_trichotomy (month a) (month b)) as [H|[Em|H]].
    + pose proof (toordinal_lt a b Va Vb). lia.
    + destruct (Z.lt_trichotomy (day a) (day b)) as [H|[Ed|H]].
      * pose proof (toordinal_lt a b Va Vb). lia.
      * destruct a, b; cbn in *; congruence.
      * pose proof (toordinal_lt b a Vb Va). lia.
    + pose proof (toordinal_lt b a Vb Va). lia.
  - pose proof (toordinal_lt b a Vb Va). lia.
Qed.

Lemma ltb_toordinal a b :
  valid a = true -> valid b = true ->
  (ltb a b = true <-> toordinal a < toordinal b).
Proof.
  intros Va Vb. unfold ltb. rewrite negb_true_iff.
  pose proof (leb_toordinal b a Vb Va) as H.
  destruct (leb b a) eqn:E; split; intros X.
  - discriminate.
  - exfalso. destruct H as [H _]. specialize (H eq_refl). lia.
  - destruct (Z_le_gt_dec (toordinal b) (toordinal a)) as [L|]; [|lia].
    destruct H as [_ H]. specialize (H L). discriminate.
  - reflexivity.
Qed.

Lemma eqb_eq a b : eqb a b = true <-> a = b.
Proof.
  unfold eqb. split.
  - intros H. apply andb_true_iff in H as [H Hd].
    apply andb_true_iff in H as [Hy Hm].
    apply Z.eqb_eq in Hy, Hm, Hd. destruct a, b; cbn in *; congruence.
  - intros ->. now rewrite !Z.eqb_refl.
Qed.

Lemma valid_max : valid max = true.
Proof. reflexivity. Qed.

Lemma toordinal_le_max d : valid d = true -> toordinal d <= toordinal max.
Proof.
  intros V. apply leb_toordinal; [exact V | reflexivity|].
  apply valid_iff in V as (Hy & Hm & Hd). apply leb_le.
  pose proof (days_in_month_pos (year d) (month d)).
  cbn [year month day max]. lia.
Qed.

End DateFacts.

Module StrptimeFacts.
Import Strptime.

Lemma app_cons c s t : String c s +:+ t = String c (s +:+ t).
Proof. reflexivity. Qed.

Lemma app_empty_l t : EmptyString +:+ t = t.
Proof. reflexivity. Qed.

Lemma app_assoc' m1 m2 s : m1 +:+ m2 +:+ s = (m1 +:+ m2) +:+ s.
Proof.
  induction m1 as [|c m1 IH]; [reflexivity|].
  rewrite !app_cons. now rewrite IH.
Qed.

Lemma rmatch_sound {A} (r : regex) :
  forall s g (k : groups -> string -> string -> option A) x,
    rmatch r s g k = Some x ->
    exists m s' g', s = m +:+ s' /\ Matches r g m g' /\ k g' m s' = Some x.
Proof.
  induction r as [p | a IHa b IHb | a IHa b IHb | name r IH]; intros s g k x H;
    cbn [rmatch] in H.
  - destruct s as [|c s']; [discriminate|].
    destruct (p c) eqn:Hp; [|discriminate].
    exists (String c EmptyString), s', g.
    split; [reflexivity | split; [constructor; exact Hp | exact H]].
  - apply IHa in H as (m1 & s1 & g1 & -> & Ha & H).
    apply IHb in H as (m2 & s2 & g2 & -> & Hb & H).
    exists (m1 +:+ m2), s2, g2. split; [|split; eauto using Matches].
    apply app_assoc'.
  - destruct (rmatch a s g k) eqn:E.
    + inversion H; subst. apply IHa in E as (m & s' & g' & ? & ? & ?).
      eauto 8 using Matches.
    + apply IHb in H as (m & s' & g' & ? & ? & ?). eauto 8 using Matches.
  - apply IH in H as (m & s' & g' & ? & ? & ?). eauto 8 using Matches.
Qed.


Lemma in_range_codes lo hi c :
  in_range lo hi c = true <-> (Py.code lo <= Py.code c <= Py.code hi)%N.
Proof.
  unfold in_range. rewrite andb_true_iff, !N.leb_le. tauto.
Qed.

Lemma in_range_weaken lo hi lo' hi' c :
  in_range lo hi c = true ->
  (Py.code lo' <=? Py.code lo)%N = true ->
  (Py.code hi <=? Py.code hi')%N = true ->
  in_range lo' hi' c = true.
Proof.
  rewrite !in_range_codes, !N.leb_le. lia.
Qed.

Lemma digit_not_space c : is_digit c = true -> Py.is_space c = false.
Proof.
  unfold is_digit. rewrite in_range_codes. unfold Py.is_space.
  change (Py.code "0") with 48%N. change (Py.code "9") with 57%N.
  intros H. cbv zeta.
  repeat match goal with
  | |- context [(?a <=? ?b)%N] => destruct (N.leb_spec a b)
  | |- context [(?a =? ?b)%N] => destruct (N.eqb_spec a b)
  end; try reflexivity; lia.
Qed.

Lemma int_1 a : is_digit a = true -> int (String a EmptyString) = Some (digit_val a).
Proof.
  intros Ha. unfold int, Py.strip. cbn [Py.lstrip Py.rstrip].
  rewrite (digit_not_space a Ha). cbn [Py.rstrip]. rewrite (digit_not_space a Ha).
  cbn [digits_value]; rewrite Ha; try (f_equal; lia).
Qed.

Lemma int_2 a b :
  is_digit a = true -> is_digit b = true ->
  int (String a (String b EmptyString)) = Some (10 * digit_val a + digit_val b).
Proof.
  intros Ha Hb. unfold int, Py.strip. cbn [Py.lstrip Py.rstrip].
  rewrite (digit_not_space a Ha). cbn [Py.rstrip]. rewrite (digit_not_space b Hb).
  cbn [digits_value]; rewrite Ha, Hb; try (f_equal; lia).
Qed.

Lemma int_sp b :
  is_digit b = true ->
  int (String " " (String b EmptyString)) = Some (digit_val b).
Proof.
  intros Hb. unfold int, Py.strip. cbn [Py.lstrip Py.rstrip].
  change (Py.is_space " ") with true. cbv iota.
  cbn [Py.lstrip]. rewrite (digit_not_space b Hb). cbn [Py.rstrip].
  rewrite (digit_not_space b Hb).
  cbn [digits_value]; rewrite Hb; try (f_equal; lia).
Qed.

Lemma int_4 a b c d :
  is_digit a = true -> is_digit b = true -> is_digit c = true ->
  is_digit d = true ->
  int (String a (String b (String c (String d EmptyString))))
  = Some (1000 * digit_val a + 100 * digit_val b + 10 * digit_val c + digit_val d).
Proof.
  intros Ha Hb Hc Hd. unfold int, Py.strip. cbn [Py.lstrip Py.rstrip].
  rewrite (digit_not_space a Ha). cbn [Py.rstrip]. rewrite (digit_not_space d Hd).
  cbn [digits_value]; rewrite Ha, Hb, Hc, Hd; try (f_equal; lia).
Qed.


Lemma app_empty_r s : s +:+ EmptyString = s.
Proof. induction s as [|c s IH]; [reflexivity|]. now rewrite app_cons, IH. Qed.

Lemma group_cons n m g name :
  group ((n, m) :: g) name = if String.eqb n name then Some m else group g name.
Proof. unfold group. cbn [List.find fst]. now destruct (String.eqb n name). Qed.

Ltac inv_matches :=
  repeat match goal with
  | H : Matches (Seq _ _) _ _ _ |- _ => inversion H; subst; clear H
  | H : Matches (Alt _ _) _ _ _ |- _ => inversion H; subst; clear H
  | H : Matches (Group _ _) _ _ _ |- _ => inversion H; subst; clear H
  | H : Matches (Chr _) _ _ _ |- _ => inversion H; subst; clear H
  end.

Ltac lit_eq :=
  repeat match goal with
  | H : Ascii.eqb _ _ = true |- _ => apply Ascii.eqb_eq in H; subst
  end.

Ltac norm_app := repeat (rewrite app_cons || rewrite app_empty_l).

Ltac digit_facts :=
  repeat match goal with
  | H : in_range ?lo ?hi ?c = true |- _ =>
      lazymatch goal with
      | _ : is_digit c = true |- _ => fail
      | _ => pose proof (in_range_weaken lo hi "0" "9" c H eq_refl eq_refl
                         : is_digit c = true)
      end
  end.

Ltac digit_side := first [assumption | reflexivity].

Ltac eval_ints :=
  cbn [mbind option_bind];
  repeat (match goal with
          | |- context [int (String ?a (String ?b (String ?c (String ?d EmptyString))))] =>
              rewrite (int_4 a b c d) by digit_side
          | |- context [int (String " " (String ?b EmptyString))] =>
              rewrite (int_sp b) by digit_side
          | |- context [int (String ?a (String ?b EmptyString))] =>
              rewrite (int_2 a b) by digit_side
          | |- context [int (String ?a EmptyString)] =>
              rewrite (int_1 a) by digit_side
          end; cbn [mbind option_bind]).

Lemma strptime_sound s dt :
  strptime_ymd s = Some dt -> date_text s dt /\ Date.valid dt = true.
Proof.
  unfold strptime_ymd.
  destruct (rmatch date_pattern s [] _) as [[found rest]|] eqn:E; [|discriminate].
  destruct rest; [|discriminate].
  apply rmatch_sound in E as (m & s' & g' & -> & HM & Hk).
  injection Hk as -> ->. rewrite app_empty_r.
  unfold date_pattern, re_Y, re_m, re_d, lit, range, digit in HM.
  inv_matches; lit_eq; norm_app; digit_facts.
  all: idtac;
    match goal with
    | |- context [group [(_, ?D); (_, ?M); (_, ?Y)] _] =>
        rewrite !group_cons; cbn [String.eqb Ascii.eqb Bool.eqb]; eval_ints;
        match goal with
        | |- (if ?b then _ else _) = _ -> _ =>
            destruct b eqn:V; [|discriminate]
        end;
        intros [= <-]; (split; [|exact V]);
        exists Y, M, D; (split; [reflexivity|]);
        cbn [Date.year Date.month Date.day];
        (split; [|split]); constructor; assumption
    end.
Qed.


Ltac eval_tests :=
  repeat first
    [ progress cbn [rmatch]
    | match goal with
      | H : ?b = true |- context [if ?b then _ else _] => rewrite H
      | H : in_range _ _ (Ascii _ _ _ _ _ _ _ _) = true |- _ =>
          vm_compute in H; discriminate H
      | |- context [if in_range ?lo ?hi (Ascii ?a ?b ?c ?d ?e ?f ?g ?h) then _ else _] =>
          let v := eval vm_compute in (in_range lo hi (Ascii a b c d e f g h)) in
          change (in_range lo hi (Ascii a b c d e f g h)) with v; cbv iota
      | |- context [if is_digit (Ascii ?a ?b ?c ?d ?e ?f ?g ?h) then _ else _] =>
          let v := eval vm_compute in (is_digit (Ascii a b c d e f g h)) in
          change (is_digit (Ascii a b c d e f g h)) with v; cbv iota
      | |- context [Ascii.eqb (Ascii ?a ?b ?c ?d ?e ?f ?g ?h)
                              (Ascii ?a' ?b' ?c' ?d' ?e' ?f' ?g' ?h')] =>
          let v := eval vm_compute in
                (Ascii.eqb (Ascii a b c d e f g h) (Ascii a' b' c' d' e' f' g' h')) in
          change (Ascii.eqb (Ascii a b c d e f g h) (Ascii a' b' c' d' e' f' g' h'))
            with v; cbv iota
      | |- context [if Ascii.eqb ?x ?y then _ else _] =>
          let E := fresh "E" in
          destruct (Ascii.eqb x y) eqn:E;
          [apply Ascii.eqb_eq in E; try subst | ]
      | |- context [if in_range ?lo ?hi ?c then _ else _] =>
          let E := fresh "E" in destruct (in_range lo hi c) eqn:E
      | |- context [if is_digit ?c then _ else _] =>
          let E := fresh "E" in destruct (is_digit c) eqn:E
      end ].

Lemma strptime_complete s dt :
  date_text s dt -> Date.valid dt = true -> strptime_ymd s = Some dt.
Proof.
  intros (Y & M & D & -> & HY & HM & HD) V. destruct dt as [y m d].
  cbn [Date.year Date.month Date.day] in *.
  unfold strptime_ymd, date_pattern, re_Y, re_m, re_d, lit, range, digit.
  destruct HY, HM, HD; norm_app; digit_facts; eval_tests.
  all: rewrite !group_cons; cbn [String.eqb Ascii.eqb Bool.eqb]; norm_app;
    eval_ints;
    match goal with
    | |- _ = Some ?X =>
        change ((if Date.valid X then Some X else None) = Some X)
    end; rewrite V; reflexivity.
Qed.

End StrptimeFacts.

(** *** Formatting and parsing are inverse on calendar dates *)

Ltac range_cases tac :=
  match goal with
  | |- Forall ?P ?l =>
      let l' := eval vm_compute in l in change (Forall P l')
  end;
  repeat (constructor; [tac|]); constructor.

Section ParseDate.
Import Strptime StrptimeFacts.

Lemma forall_range (P : Z -> Prop) (a : Z) (n : nat) :
  Forall P (map (fun i => a + Z.of_nat i) (List.seq 0 n)) ->
  forall z, a <= z < a + Z.of_nat n -> P z.
Proof.
  intros H z Hz. rewrite Forall_forall in H. apply H.
  apply list_elem_of_In, in_map_iff. exists (Z.to_nat (z - a)). split; [lia|].
  apply in_seq. lia.
Qed.

Lemma digit_is_digit k :
  0 <= k <= 9 ->
  is_digit (Date.digit k) = true /\ digit_val (Date.digit k) = k.
Proof.
  intros Hk. apply (forall_range
    (fun k => is_digit (Date.digit k) = true /\ digit_val (Date.digit k) = k)
    0 10); [|lia].
  repeat constructor.
Qed.

Lemma pad4_year_text y : 0 <= y <= 9999 -> year_text (Date.pad4 y) y.
Proof.
  intros Hy. unfold Date.pad4, Date.pad2.
  destruct (digit_is_digit (y / 1000)) as [Ha Ea];
    [Z.to_euclidean_division_equations; lia|].
  destruct (digit_is_digit (y / 100 mod 10)) as [Hb Eb];
    [Z.to_euclidean_division_equations; lia|].
  destruct (digit_is_digit (y mod 100 / 10)) as [Hc Ec];
    [Z.to_euclidean_division_equations; lia|].
  destruct (digit_is_digit (y mod 100 mod 10)) as [Hd Ed];
    [Z.to_euclidean_division_equations; lia|].
  replace y with
    (1000 * digit_val (Date.digit (y / 1000))
     + 100 * digit_val (Date.digit (y / 100 mod 10))
     + 10 * digit_val (Date.digit (y mod 100 / 10))
     + digit_val (Date.digit (y mod 100 mod 10))) at 5.
  - now constructor.
  - rewrite Ea, Eb, Ec, Ed. clear. Z.to_euclidean_division_equations. lia.
Qed.

Lemma pad2_month_text m : 1 <= m <= 12 -> month_text (Date.pad2 m) m.
Proof.
  intros Hm. apply (forall_range (fun m => month_text (Date.pad2 m) m) 1 12);
    [|lia].
  range_cases ltac:(vm_compute; constructor; reflexivity).
Qed.

Lemma pad2_day_text d : 1 <= d <= 31 -> day_text (Date.pad2 d) d.
Proof.
  intros Hd. apply (forall_range (fun d => day_text (Date.pad2 d) d) 1 31);
    [|lia].
  range_cases ltac:(vm_compute; constructor; reflexivity).
Qed.

Lemma valid_bounds d :
  Date.valid d = true ->
  1 <= Date.year d <= 9999 /\ 1 <= Date.month d <= 12
  /\ 1 <= Date.day d <= Date.days_in_month (Date.year d) (Date.month d).
Proof.
  unfold Date.valid. rewrite !andb_true_iff, !Z.leb_le. tauto.
Qed.

Lemma days_in_month_le y m : Date.days_in_month y m <= 31.
Proof.
  unfold Date.days_in_month.
  repeat match goal with |- context [if ?b then _ else _] => destruct b end; lia.
Qed.

Lemma isoformat_date_text d : Date.valid d = true -> date_text (Date.isoformat d) d.
Proof.
  intros V. apply valid_bounds in V as (Hy & Hm & Hd).
  pose proof (days_in_month_le (Date.year d) (Date.month d)).
  exists (Date.pad4 (Date.year d)), (Date.pad2 (Date.month d)),
         (Date.pad2 (Date.day d)).
  split; [reflexivity|]. split; [|split].
  - apply pad4_year_text. lia.
  - now apply pad2_month_text.
  - apply pad2_day_text. lia.
Qed.

Lemma parse_date_isoformat d :
  Date.valid d = true -> parse_date (Date.isoformat d) = Some d.
Proof.
  intros V. apply strptime_complete; [now apply isoformat_date_text | exact V].
Qed.

Lemma isoformat_inj a b :
  Date.valid a = true -> Date.valid b = true ->
  Date.isoformat a = Date.isoformat b -> a = b.
Proof.
  intros Va Vb E. apply parse_date_isoformat in Va, Vb.
  rewrite E in Va. congruence.
Qed.

Lemma parse_date_valid s d : parse_date s = Some d -> Date.valid d = true.
Proof. intros H. now apply strptime_sound in H. Qed.

(** C4, as stated, fails in both directions: ["2024-1-5"] is not strict
    YYYY-MM-DD text and parses, and ["2024-02-30"] is strict YYYY-MM-DD text
    and is rejected. *)
Lemma parse_date_not_strict_counterexample :
  ~ (forall s : string, is_Some (parse_date s) <-> strict_ymd_text s = true).
Proof.
  intros H. destruct (H "2024-1-5") as [H1 _].
  assert (E : is_Some (parse_date "2024-1-5")) by (vm_compute; eauto).
  specialize (H1 E). vm_compute in H1. discriminate H1.
Qed.

(** On the texts of code points below 256, [parse_date] succeeds exactly on
    the texts Y-M-D where Y is four digits, M is 1..12 written with one or
    two digits, D is 1..31 written with one or two digits (or a space and
    one digit), and (Y, M, D) is a calendar date with year at least 1; the
    result is that date.  Every other text is a [ValueError].  In particular
    every strict YYYY-MM-DD text of a calendar date parses to it. *)
Lemma parse_date_latin1_spec :
  (forall s dt,
     parse_date s = Some dt <-> date_text s dt /\ Date.valid dt = true)
  /\ (forall s, parse_date s = None
                <-> ~ exists dt, date_text s dt /\ Date.valid dt = true)
  /\ (forall d, Date.valid d = true ->
                strict_ymd_text (Date.isoformat d) = true
                /\ parse_date (Date.isoformat d) = Some d)
  /\ parse_date "2024-01-05" = Some (Date.mk 2024 1 5)
  /\ parse_date "2024-1-5" = Some (Date.mk 2024 1 5)
  /\ parse_date "2024-02-30" = None
  /\ parse_date "05/01/2024" = None.
Proof.
  assert (A : forall s dt,
     parse_date s = Some dt <-> date_text s dt /\ Date.valid dt = true).
  { intros s dt. split; [apply strptime_sound|].
    intros [H V]. now apply strptime_complete. }
  split; [exact A|]. split; [|split; [|repeat split; reflexivity]].
  - intros s. split.
    + intros E (dt & H). apply A in H. congruence.
    + intros H. destruct (parse_date s) as [dt|] eqn:E; [|reflexivity].
      exfalso. apply H. exists dt. now apply A.
  - intros d V. split; [|now apply parse_date_isoformat].
    destruct (isoformat_date_text d V) as (Y & M & D & E & HY & HM & HD).
    apply valid_bounds in V as (Hy & Hm & Hd).
    pose proof (days_in_month_le (Date.year d) (Date.month d)).
    unfold Date.isoformat, Date.pad4, Date.pad2. norm_app.
    cbn [strict_ymd_text].
    repeat match goal with
    | |- context [is_digit (Date.digit ?k)] =>
        let Hk := fresh in
        destruct (digit_is_digit k) as [Hk _];
        [Z.to_euclidean_division_equations; lia | rewrite Hk]
    end.
    reflexivity.
Qed.

End ParseDate.


(** *** [parse_date] on texts of any code points *)

Module UnicodeFacts.
Import Unicode.

Lemma text_rmatch_sound {A} (r : regex) :
  forall t g (k : groups -> text -> text -> option A) x,
    rmatch r t g k = Some x ->
    exists m t' g', t = m ++ t' /\ Matches r g m g' /\ k g' m t' = Some x.
Proof.
  induction r as [p | a IHa b IHb | a IHa b IHb | name r IH]; intros t g k x H;
    cbn [rmatch] in H.
  - destruct t as [|c t']; [discriminate|].
    destruct (p c) eqn:Hp; [|discriminate].
    exists [c], t', g.
    split; [reflexivity | split; [constructor; exact Hp | exact H]].
  - apply IHa in H as (m1 & t1 & g1 & -> & Ha & H).
    apply IHb in H as (m2 & t2 & g2 & -> & Hb & H).
    exists (m1 ++ m2), t2, g2. split; [|split; eauto using Matches].
    now rewrite app_assoc.
  - destruct (rmatch a t g k) eqn:E.
    + inversion H; subst. apply IHa in E as (m & t' & g' & ? & ? & ?).
      eauto 8 using Matches.
    + apply IHb in H as (m & t' & g' & ? & ? & ?). eauto 8 using Matches.
  - apply IH in H as (m & t' & g' & ? & ? & ?). eauto 8 using Matches.
Qed.

Lemma text_in_range_codes lo hi c :
  in_range lo hi c = true <-> (Py.code lo <= c <= Py.code hi)%N.
Proof.
  unfold in_range. rewrite andb_true_iff, !N.leb_le. tauto.
Qed.

Lemma text_in_range_weaken lo hi lo' hi' c :
  in_range lo hi c = true ->
  (Py.code lo' <=? Py.code lo)%N = true ->
  (Py.code hi <=? Py.code hi')%N = true ->
  in_range lo' hi' c = true.
Proof.
  rewrite !text_in_range_codes, !N.leb_le. lia.
Qed.

Lemma text_group_cons n m g name :
  group ((n, m) :: g) name = if String.eqb n name then Some m else group g name.
Proof. unfold group. cbn [List.find fst]. now destruct (String.eqb n name). Qed.

Section Table.
Variable todecimal : N -> option Z.
Hypothesis table : decimal_table todecimal.

Lemma todecimal_ascii c :
  in_range "0" "9" c = true -> todecimal c = Some (digit_val c).
Proof.
  intros H. rewrite (table_latin _ table).
  - now rewrite H.
  - apply text_in_range_codes in H. change (Py.code "9") with 57%N in H. lia.
Qed.

Lemma is_decimal_true c v : todecimal c = Some v -> is_decimal todecimal c = true.
Proof. unfold is_decimal. now intros ->. Qed.

Lemma text_int_1 a va :
  todecimal a = Some va -> int todecimal [a] = Some va.
Proof.
  intros Ha. unfold int, strip. cbn [lstrip rstrip].
  rewrite (table_not_space _ table a va Ha). cbn [rstrip].
  rewrite (table_not_space _ table a va Ha).
  cbn [digits_value]. rewrite Ha. f_equal; lia.
Qed.

Lemma text_int_2 a b va vb :
  todecimal a = Some va -> todecimal b = Some vb ->
  int todecimal [a; b] = Some (10 * va + vb).
Proof.
  intros Ha Hb. unfold int, strip. cbn [lstrip rstrip].
  rewrite (table_not_space _ table a va Ha). cbn [rstrip].
  rewrite (table_not_space _ table b vb Hb).
  cbn [digits_value]. rewrite Ha, Hb. f_equal; lia.
Qed.

Lemma text_int_sp b vb :
  todecimal b = Some vb -> int todecimal [Py.code " "; b] = Some vb.
Proof.
  intros Hb. unfold int, strip. cbn [lstrip rstrip].
  change (is_space (Py.code " ")) with true. cbv iota.
  rewrite (table_not_space _ table b vb Hb). cbn [rstrip].
  rewrite (table_not_space _ table b vb Hb).
  cbn [digits_value]. rewrite Hb. f_equal; lia.
Qed.

Lemma text_int_4 a b c d va vb vc vd :
  todecimal a = Some va -> todecimal b = Some vb ->
  todecimal c = Some vc -> todecimal d = Some vd ->
  int todecimal [a; b; c; d] = Some (1000 * va + 100 * vb + 10 * vc + vd).
Proof.
  intros Ha Hb Hc Hd. unfold int, strip. cbn [lstrip rstrip].
  rewrite (table_not_space _ table a va Ha). cbn [rstrip].
  rewrite (table_not_space _ table d vd Hd).
  cbn [digits_value]. rewrite Ha, Hb, Hc, Hd. f_equal; lia.
Qed.

End Table.

Ltac inv_matches :=
  repeat match goal with
  | H : Matches (Seq _ _) _ _ _ |- _ => inversion H; subst; clear H
  | H : Matches (Alt _ _) _ _ _ |- _ => inversion H; subst; clear H
  | H : Matches (Group _ _) _ _ _ |- _ => inversion H; subst; clear H
  | H : Matches (Chr _) _ _ _ |- _ => inversion H; subst; clear H
  end.

Ltac literal_codes_in H :=
  change (Py.code "-") with 45%N in H; change (Py.code " ") with 32%N in H;
  change (Py.code "0") with 48%N in H; change (Py.code "1") with 49%N in H;
  change (Py.code "3") with 51%N in H.

Ltac literal_codes :=
  change (Py.code "-") with 45%N; change (Py.code " ") with 32%N;
  change (Py.code "0") with 48%N; change (Py.code "1") with 49%N;
  change (Py.code "3") with 51%N.

Ltac lit_eq :=
  repeat match goal with
  | H : N.eqb _ _ = true |- _ => apply N.eqb_eq in H; subst
  end.

Section Parse.
Variable todecimal : N -> option Z.
Hypothesis table : decimal_table todecimal.

Ltac digit_facts :=
  repeat match goal with
  | H : in_range ?lo ?hi ?c = true |- _ =>
      lazymatch goal with
      | _ : todecimal c = Some (digit_val c) |- _ => fail
      | _ => pose proof (todecimal_ascii todecimal table c
                           (text_in_range_weaken lo hi "0" "9" c H
                              eq_refl eq_refl))
      end
  | H : is_decimal todecimal ?c = true |- _ =>
      let v := fresh "v" in
      let E := fresh "E" in
      unfold is_decimal in H; destruct (todecimal c) as [v|] eqn:E;
      [clear H | discriminate H]
  end.

Ltac digit_side :=
  first [eassumption
        | apply (todecimal_ascii todecimal table); reflexivity].

Ltac eval_ints :=
  cbn [mbind option_bind];
  repeat (match goal with
          | |- context [int todecimal [?a; ?b; ?c; ?d]] =>
              erewrite (text_int_4 todecimal table a b c d) by digit_side
          | |- context [int todecimal [32%N; ?b]] =>
              change (int todecimal [32%N; b])
                with (int todecimal [Py.code " "; b]);
              erewrite (text_int_sp todecimal table b) by digit_side
          | |- context [int todecimal [?a; ?b]] =>
              erewrite (text_int_2 todecimal table a b) by digit_side
          | |- context [int todecimal [?a]] =>
              erewrite (text_int_1 todecimal table a) by digit_side
          end; cbn [mbind option_bind]).

Lemma text_strptime_sound t dt :
  strptime_ymd todecimal t = Some dt ->
  date_text todecimal t dt /\ Date.valid dt = true.
Proof.
  unfold strptime_ymd.
  destruct (rmatch (date_pattern todecimal) t [] _) as [[found rest]|] eqn:E;
    [|discriminate].
  destruct rest; [|discriminate].
  apply text_rmatch_sound in E as (m & t' & g' & -> & HM & Hk).
  injection Hk as -> ->. rewrite app_nil_r.
  unfold date_pattern, re_Y, re_m, re_d, lit, range, digit in HM.
  literal_codes_in HM.
  inv_matches; lit_eq; cbn [app]; digit_facts.
  all: idtac;
    match goal with
    | |- context [group [(_, ?D); (_, ?M); (_, ?Y)] _] =>
        rewrite !text_group_cons; cbn [String.eqb Ascii.eqb Bool.eqb];
        eval_ints;
        match goal with
        | |- (if ?b then _ else _) = _ -> _ =>
            destruct b eqn:V; [|discriminate]
        end;
        intros [= <-]; (split; [|exact V]);
        exists Y, M, D; (split; [reflexivity|]);
        cbn [Date.year Date.month Date.day];
        (split; [|split]); econstructor; eassumption
    end.
Qed.

Ltac eval_tests :=
  repeat first
    [ progress cbn [rmatch]
    | match goal with
      | H : ?b = true |- context [if ?b then _ else _] => rewrite H
      | H : todecimal ?c = Some _ |- context [is_decimal todecimal ?c] =>
          rewrite (is_decimal_true todecimal c _ H)
      | H : in_range ?lo ?hi ?c = true |- _ =>
          let v := eval vm_compute in (in_range lo hi c) in
          match v with
          | false => vm_compute in H; discriminate H
          end
      | |- context [if in_range ?lo ?hi ?c then _ else _] =>
          let v := eval vm_compute in (in_range lo hi c) in
          match v with
          | true => change (in_range lo hi c) with true; cbv iota
          | false => change (in_range lo hi c) with false; cbv iota
          end
      | |- context [if N.eqb ?x ?y then _ else _] =>
          let v := eval vm_compute in (N.eqb x y) in
          match v with
          | true => change (N.eqb x y) with true; cbv iota
          | false => change (N.eqb x y) with false; cbv iota
          end
      | |- context [if N.eqb ?x ?y then _ else _] =>
          let E := fresh "E" in
          destruct (N.eqb x y) eqn:E;
          [apply N.eqb_eq in E; try subst | ]
      | |- context [if in_range ?lo ?hi ?c then _ else _] =>
          let E := fresh "E" in destruct (in_range lo hi c) eqn:E
      | |- context [if is_decimal todecimal ?c then _ else _] =>
          let E := fresh "E" in destruct (is_decimal todecimal c) eqn:E
      end ].

Lemma text_strptime_complete t dt :
  date_text todecimal t dt -> Date.valid dt = true ->
  strptime_ymd todecimal t = Some dt.
Proof.
  intros (Y & M & D & -> & HY & HM & HD) V. destruct dt as [y m d].
  cbn [Date.year Date.month Date.day] in *.
  unfold strptime_ymd, date_pattern, re_Y, re_m, re_d, lit, range, digit.
  destruct HY, HM, HD; literal_codes; cbn [app]; digit_facts; eval_tests.
  all: rewrite !text_group_cons; cbn [String.eqb Ascii.eqb Bool.eqb];
    cbn [app]; eval_ints;
    match goal with
    | |- _ = Some ?X =>
        change ((if Date.valid X then Some X else None) = Some X)
    end; rewrite V; reflexivity.
Qed.

Lemma of_string_app s1 s2 :
  of_string (s1 +:+ s2) = of_string s1 ++ of_string s2.
Proof.
  induction s1 as [|c s1 IH]; [reflexivity|].
  change (String c s1 +:+ s2) with (String c (s1 +:+ s2)).
  cbn [of_string app]. now rewrite IH.
Qed.

Lemma to_string_app t1 t2 :
  to_string (t1 ++ t2) = to_string t1 +:+ to_string t2.
Proof.
  induction t1 as [|c t1 IH]; [reflexivity|].
  cbn [to_string app]. rewrite IH. reflexivity.
Qed.

Lemma to_string_of_string s : to_string (of_string s) = s.
Proof.
  induction s as [|c s IH]; [reflexivity|].
  cbn [of_string to_string]. unfold Py.code.
  now rewrite ascii_N_embedding, IH.
Qed.

Lemma of_string_bounded s : Forall (fun c => (c < 256)%N) (of_string s).
Proof.
  induction s as [|c s IH]; constructor; [apply N_ascii_bounded | exact IH].
Qed.

Lemma code_ascii_of_N c : (c < 256)%N -> Py.code (ascii_of_N c) = c.
Proof. apply N_ascii_embedding. Qed.

Lemma latin_in_range lo hi c :
  (c < 256)%N -> Strptime.in_range lo hi (ascii_of_N c) = in_range lo hi c.
Proof.
  intros H. unfold Strptime.in_range, in_range.
  now rewrite (code_ascii_of_N c H).
Qed.

Lemma latin_digit_val c :
  (c < 256)%N -> Strptime.digit_val (ascii_of_N c) = digit_val c.
Proof.
  intros H. unfold Strptime.digit_val, digit_val.
  now rewrite (code_ascii_of_N c H).
Qed.

Lemma latin_decimal c v :
  (c < 256)%N -> todecimal c = Some v ->
  Strptime.is_digit (ascii_of_N c) = true
  /\ v = Strptime.digit_val (ascii_of_N c).
Proof.
  intros H E. rewrite (table_latin _ table c H) in E.
  unfold Strptime.is_digit. rewrite (latin_in_range _ _ c H).
  rewrite (latin_digit_val c H).
  destruct (in_range "0" "9" c); [|discriminate].
  split; [reflexivity | congruence].
Qed.

(** On a text of code points below 256 the two descriptions agree. *)
Lemma date_text_of_string s dt :
  Strptime.date_text s dt -> date_text todecimal (of_string s) dt.
Proof.
  intros (Y & M & D & -> & HY & HM & HD).
  exists (of_string Y), (of_string M), (of_string D).
  split; [now rewrite !of_string_app|].
  split; [|split].
  - destruct HY. cbn [of_string].
    apply year_4;
      apply (todecimal_ascii todecimal table); assumption.
  - destruct HM; cbn [of_string];
      [apply month_1x | apply month_0x | apply month_x]; assumption.
  - destruct HD; cbn [of_string].
    + now apply day_3x.
    + apply day_xx; [assumption|].
      apply (todecimal_ascii todecimal table); assumption.
    + now apply day_0x.
    + now apply day_x.
    + now apply day_sp.
Qed.

Lemma date_text_to_string t dt :
  Forall (fun c => (c < 256)%N) t ->
  date_text todecimal t dt -> Strptime.date_text (to_string t) dt.
Proof.
  intros Hb (Y & M & D & -> & HY & HM & HD).
  rewrite !Forall_app in Hb. destruct Hb as (BY & _ & BM & _ & BD).
  exists (to_string Y), (to_string M), (to_string D).
  split; [now rewrite !to_string_app|].
  split; [|split].
  - destruct HY as [a b c d va vb vc vd Ha Hb Hc Hd].
    repeat match goal with
    | H : Forall _ (_ :: _) |- _ => apply Forall_cons in H; destruct H
    end.
    destruct (latin_decimal a va) as [? ->]; [assumption..|].
    destruct (latin_decimal b vb) as [? ->]; [assumption..|].
    destruct (latin_decimal c vc) as [? ->]; [assumption..|].
    destruct (latin_decimal d vd) as [? ->]; [assumption..|].
    cbn [to_string]. now constructor.
  - destruct HM;
      repeat match goal with
      | H : Forall _ (_ :: _) |- _ => apply Forall_cons in H; destruct H
      end;
      cbn [to_string];
      rewrite <- (latin_digit_val b) by assumption;
      [apply Strptime.month_1x | apply Strptime.month_0x
      | apply Strptime.month_x];
      now rewrite latin_in_range.
  - destruct HD as [b Hr | a b vb Hr Hv | b Hr | b Hr | b Hr];
      repeat match goal with
      | H : Forall _ (_ :: _) |- _ => apply Forall_cons in H; destruct H
      end;
      cbn [to_string].
    + rewrite <- (latin_digit_val b) by assumption.
      apply Strptime.day_3x. now rewrite latin_in_range.
    + destruct (latin_decimal b vb) as [? ->]; [assumption..|].
      rewrite <- (latin_digit_val a) by assumption.
      apply Strptime.day_xx; [now rewrite latin_in_range | assumption].
    + rewrite <- (latin_digit_val b) by assumption.
      apply Strptime.day_0x. now rewrite latin_in_range.
    + rewrite <- (latin_digit_val b) by assumption.
      apply Strptime.day_x. now rewrite latin_in_range.
    + rewrite <- (latin_digit_val b) by assumption.
      apply Strptime.day_sp. now rewrite latin_in_range.
Qed.

End Parse.

End UnicodeFacts.

Section Latin1.
Variable todecimal : N -> option Z.
Hypothesis table : Unicode.decimal_table todecimal.

(** [parse_date] of the handlers' model is [parse_date] on every text,
    taken at the texts of code points below 256. *)
Lemma parse_date_of_string s :
  parse_date s = Unicode.parse_date todecimal (Unicode.of_string s).
Proof.
  unfold Unicode.parse_date, parse_date.
  destruct (Strptime.strptime_ymd s) as [dt|] eqn:E.
  - symmetry. apply StrptimeFacts.strptime_sound in E as [H V].
    apply (UnicodeFacts.text_strptime_complete todecimal table);
      [now apply UnicodeFacts.date_text_of_string | exact V].
  - destruct (Unicode.strptime_ymd todecimal (Unicode.of_string s))
      as [dt|] eqn:E';
      [|reflexivity].
    apply (UnicodeFacts.text_strptime_sound todecimal table) in E' as [H V].
    apply (UnicodeFacts.date_text_to_string todecimal table _ _
             (UnicodeFacts.of_string_bounded s)) in H.
    rewrite UnicodeFacts.to_string_of_string in H.
    rewrite (StrptimeFacts.strptime_complete s dt H V) in E. discriminate.
Qed.

End Latin1.

(** The table of Unicode 14.0 is a table of decimal digits. *)
Lemma decimal_table_unicode : Unicode.decimal_table Unicode.decimal.
Proof.
  assert (Hfind : forall c zero,
            List.find (fun zero => (zero <=? c) && (c <=? zero + 9))%N
              Unicode.decimal_zeros = Some zero ->
            In zero Unicode.decimal_zeros /\ (zero <= c <= zero + 9)%N).
  { intros c zero E. apply find_some in E as [Hin E].
    apply andb_true_iff in E as [E1 E2]. apply N.leb_le in E1, E2.
    now split. }
  split.
  - intros c Hc. unfold Unicode.decimal, Unicode.in_range, Unicode.digit_val.
    change (Py.code "0") with 48%N. change (Py.code "9") with 57%N.
    destruct (List.find _ Unicode.decimal_zeros) as [zero|] eqn:E.
    + destruct (Hfind c zero E) as [Hin Hr].
      assert (Hz : (zero = 48 \/ 256 <= zero)%N).
      { assert (F : forallb (fun z => (z =? 48) || (256 <=? z))%N
                      Unicode.decimal_zeros = true) by reflexivity.
        rewrite forallb_forall in F. specialize (F zero Hin).
        apply orb_true_iff in F as [F|F];
          [left; now apply N.eqb_eq | right; now apply N.leb_le]. }
      destruct Hz as [-> | Hz]; [|lia].
      destruct Hr as [H1 H2]. change (48 + 9)%N with 57%N in H2.
      rewrite (proj2 (N.leb_le 48 c) H1), (proj2 (N.leb_le c 57) H2).
      cbn [fmap option_fmap option_map andb]. f_equal. lia.
    + cbn [fmap option_fmap option_map].
      destruct ((48 <=? c) && (c <=? 57))%N eqn:R; [|reflexivity].
      exfalso. unfold Unicode.decimal_zeros in E. cbn [List.find] in E.
      change (48 + 9)%N with 57%N in E. rewrite R in E. discriminate.
  - intros c v E. unfold Unicode.decimal in E.
    destruct (List.find _ Unicode.decimal_zeros) as [zero|] eqn:F;
      [|discriminate].
    destruct (Hfind c zero F) as [_ Hr]. injection E as <-. lia.
  - intros c v E. unfold Unicode.decimal in E.
    destruct (List.find _ Unicode.decimal_zeros) as [zero|] eqn:F;
      [|discriminate].
    destruct (Hfind c zero F) as [Hin Hr]. clear E F.
    assert (A : forallb
                  (fun z => forallb
                              (fun i => negb (Unicode.is_space (z + N.of_nat i)))
                              (List.seq 0 10))
                  Unicode.decimal_zeros = true) by (vm_compute; reflexivity).
    rewrite forallb_forall in A. specialize (A zero Hin).
    rewrite forallb_forall in A.
    specialize (A (N.to_nat (c - zero))).
    replace (zero + N.of_nat (N.to_nat (c - zero)))%N with c in A by lia.
    apply negb_true_iff, A, in_seq. lia.
Qed.

(** C4 (amended): for every text, [parse_date] succeeds exactly on the texts
    Y-M-D where Y is four decimal digits, M is a month 1..12 written with
    one or two ASCII digits, D is a day 1..31 written with one or two ASCII
    digits (or a space and one digit), except that the second digit of a day
    from 10 to 29 may be a decimal digit of any script, as may the digits of
    the year, and (Y, M, D) is a calendar date with year at least 1; the
    result is that date.  Every other text is a [ValueError].  On the texts
    of code points below 256, where the decimal digits are the ASCII digits,
    this is [parse_date] of the handlers' model; in particular every strict
    YYYY-MM-DD text of a calendar date parses to it.  The statement holds
    for every table of decimal digits that extends the ASCII digits. *)
Theorem parse_date_accepts_lenient_ymd (todecimal : N -> option Z) :
  Unicode.decimal_table todecimal ->
  (forall t dt,
     Unicode.parse_date todecimal t = Some dt
     <-> Unicode.date_text todecimal t dt /\ Date.valid dt = true)
  /\ (forall t,
        Unicode.parse_date todecimal t = None
        <-> ~ exists dt,
              Unicode.date_text todecimal t dt /\ Date.valid dt = true)
  /\ (forall s,
        parse_date s = Unicode.parse_date todecimal (Unicode.of_string s))
  /\ (forall s dt,
        parse_date s = Some dt
        <-> Strptime.date_text s dt /\ Date.valid dt = true)
  /\ (forall s,
        parse_date s = None
        <-> ~ exists dt, Strptime.date_text s dt /\ Date.valid dt = true)
  /\ (forall d, Date.valid d = true ->
                strict_ymd_text (Date.isoformat d) = true
                /\ parse_date (Date.isoformat d) = Some d)
  /\ parse_date "2024-01-05" = Some (Date.mk 2024 1 5)
  /\ parse_date "2024-1-5" = Some (Date.mk 2024 1 5)
  /\ parse_date "2024-02-30" = None
  /\ parse_date "05/01/2024" = None.
Proof.
  intros table.
  assert (A : forall t dt,
     Unicode.parse_date todecimal t = Some dt
     <-> Unicode.date_text todecimal t dt /\ Date.valid dt = true).
  { intros t dt. split;
      [apply (UnicodeFacts.text_strptime_sound todecimal table)|].
    intros [H V].
    now apply (UnicodeFacts.text_strptime_complete todecimal table). }
  split; [exact A|]. split.
  { intros t. split.
    - intros E (dt & H). apply A in H. congruence.
    - intros H.
      destruct (Unicode.parse_date todecimal t) as [dt|] eqn:E;
        [|reflexivity].
      exfalso. apply H. exists dt. now apply A. }
  split; [exact (parse_date_of_string todecimal table)|].
  exact parse_date_latin1_spec.
Qed.

Lemma parse_date_accepts_lenient_ymd_witness :
  Unicode.decimal_table Unicode.decimal
  /\ Unicode.parse_date Unicode.decimal
       [65298; 65296; 65298; 65300; 45; 49; 45; 49; 1635]%N
     = Some (Date.mk 2024 1 13)
  /\ Unicode.parse_date Unicode.decimal
       [50; 48; 50; 52; 45; 48; 1633; 45; 48; 53]%N
     = None
  /\ (forall s,
        parse_date s
        = Unicode.parse_date Unicode.decimal (Unicode.of_string s)).
Proof.
  destruct (parse_date_accepts_lenient_ymd Unicode.decimal
              decimal_table_unicode) as (_ & _ & H & _).
  split; [exact decimal_table_unicode|].
  split; [vm_compute; reflexivity|].
  split; [vm_compute; reflexivity | exact H].
Defined.

Lemma in_set_In x l : Py.in_set x l = true <-> In x l.
Proof.
  unfold Py.in_set. rewrite existsb_exists. split.
  - intros (y & Hy & E). apply String.eqb_eq in E. now subst.
  - intros H. exists x. split; [exact H | apply String.eqb_refl].
Qed.

(** C5, as stated, fails: the field [" no"] is none of the four tokens
    under case folding, yet it parses to unchecked, because the code trims
    the field before it compares. *)
Lemma selected_untrimmed_counterexample :
  ~ (forall v : string,
       Csv.parse_selected (Some v) = false
       <-> In (Py.lower v) Csv.selected_tokens).
Proof.
  intros H. destruct (H " no") as [H1 _].
  assert (E : Csv.parse_selected (Some " no") = false) by reflexivity.
  specialize (H1 E). vm_compute in H1.
  repeat destruct H1 as [H1 | H1]; try discriminate H1; exact H1.
Qed.

(** C5 (amended): the [selected] field parses to unchecked exactly when
    its value, trimmed of surrounding whitespace, is case-insensitively one
    of "0", "false", "no", "n"; a missing field, the empty text and any
    other token ("1", "yes", "true", "maybe") parse to checked. *)
Theorem selected_parses_trimmed_token :
  (forall field : option string,
     Csv.parse_selected field = false
     <-> exists t, In t Csv.selected_tokens
                   /\ Py.lower (Py.strip (Py.or_empty field)) = Py.lower t)
  /\ (forall field, Csv.parse_selected field = true
                    <-> Csv.parse_selected field <> false)
  /\ Csv.parse_selected (Some "0") = false
  /\ Csv.parse_selected (Some "false") = false
  /\ Csv.parse_selected (Some "No") = false
  /\ Csv.parse_selected (Some "n") = false
  /\ Csv.parse_selected None = true
  /\ Csv.parse_selected (Some "") = true
  /\ Csv.parse_selected (Some "1") = true
  /\ Csv.parse_selected (Some "yes") = true
  /\ Csv.parse_selected (Some "true") = true
  /\ Csv.parse_selected (Some "maybe") = true.
Proof.
  split; [|split; [|repeat split; reflexivity]].
  - intros field. unfold Csv.parse_selected.
    destruct (Py.in_set _ _) eqn:E.
    + split; [intros _ | reflexivity].
      apply in_set_In in E.
      exists (Py.lower (Py.strip (Py.or_empty field))). split; [exact E|].
      revert E. generalize (Py.lower (Py.strip (Py.or_empty field))).
      intros s Hs. simpl in Hs.
      repeat destruct Hs as [Hs | Hs]; try (subst s; reflexivity).
      destruct Hs.
    + split; [discriminate|]. intros (t & Ht & Et). exfalso.
      assert (Hin : In (Py.lower (Py.strip (Py.or_empty field)))
                       Csv.selected_tokens).
      { rewrite Et. simpl in Ht.
        repeat destruct Ht as [Ht | Ht]; try (subst t; vm_compute; tauto).
        destruct Ht. }
      apply in_set_In in Hin. congruence.
  - intros field. destruct (Csv.parse_selected field); split; congruence.
Qed.



(** * The day loop *)

Module LoopFacts.
Import Date DateFacts.

Lemma not_max_lt d : valid d = true -> (d <> max <-> toordinal d < toordinal max).
Proof.
  intros V. pose proof (toordinal_le_max d V). split.
  - intros N. destruct (Z.eq_dec (toordinal d) (toordinal max)) as [E|]; [|lia].
    exfalso. apply N. now apply toordinal_inj.
  - intros L ->. lia.
Qed.

Lemma dates_from_lookup n : forall d i x,
  valid d = true -> toordinal d + Z.of_nat n <= toordinal max + 1 ->
  dates_from n d !! i = Some x ->
  valid x = true /\ toordinal x = toordinal d + Z.of_nat i /\ (i < n)%nat.
Proof.
  induction n as [|n IH]; intros d i x V B H; [discriminate|].
  cbn [dates_from] in H. destruct i as [|i].
  - injection H as <-. repeat split; [exact V | lia | lia].
  - cbn in H.
    destruct (Z.eq_dec (Z.of_nat n) 0) as [Z0|NZ].
    { assert (n = O) by lia. subst n. destruct (add_day d); discriminate. }
    destruct (add_day_spec d V) as (d' & E & V' & O').
    { apply not_max_lt; [exact V | lia]. }
    rewrite E in H. apply IH in H as (Vx & Ox & Li); [| exact V' | lia].
    repeat split; [exact Vx | lia | lia].
Qed.

Lemma dates_from_length n : forall d,
  valid d = true -> toordinal d + Z.of_nat n <= toordinal max + 1 ->
  length (dates_from n d) = n.
Proof.
  induction n as [|n IH]; intros d V B; [reflexivity|].
  cbn [dates_from length]. f_equal.
  destruct n as [|n]; [destruct (add_day d); reflexivity|].
  destruct (add_day_spec d V) as (d' & E & V' & O').
  { apply not_max_lt; [exact V | lia]. }
  rewrite E. apply IH; [exact V' | lia].
Qed.

Lemma elem_of_dates_from n d x :
  valid d = true -> toordinal d + Z.of_nat n <= toordinal max + 1 ->
  valid x = true ->
  (x ∈ dates_from n d <-> toordinal d <= toordinal x < toordinal d + Z.of_nat n).
Proof.
  intros V B Vx. split.
  - intros H. apply list_elem_of_lookup in H as (i & H).
    apply dates_from_lookup in H as (_ & O & L); auto. lia.
  - intros H.
    destruct (lookup_lt_is_Some_2 (dates_from n d)
                (Z.to_nat (toordinal x - toordinal d))) as [y Hy].
    { rewrite dates_from_length by auto. lia. }
    pose proof Hy as Hy'.
    apply dates_from_lookup in Hy' as (Vy & Oy & _); auto.
    assert (y = x) by (apply toordinal_inj; auto; lia). subst y.
    eapply list_elem_of_lookup_2; eauto.
Qed.

Lemma dates_from_valid n d x :
  valid d = true -> toordinal d + Z.of_nat n <= toordinal max + 1 ->
  x ∈ dates_from n d -> valid x = true.
Proof.
  intros V B H. apply list_elem_of_lookup in H as (i & H).
  now apply dates_from_lookup in H as (? & _).
Qed.

Lemma dates_from_NoDup n d :
  valid d = true -> toordinal d + Z.of_nat n <= toordinal max + 1 ->
  NoDup (dates_from n d).
Proof.
  intros V B. apply NoDup_alt. intros i j x Hi Hj.
  apply dates_from_lookup in Hi as (_ & Oi & _); auto.
  apply dates_from_lookup in Hj as (_ & Oj & _); auto. lia.
Qed.

Lemma dates_from_iso_NoDup n d :
  valid d = true -> toordinal d + Z.of_nat n <= toordinal max + 1 ->
  NoDup (isoformat <$> dates_from n d).
Proof.
  intros V B. apply NoDup_fmap_2_strong; [|now apply dates_from_NoDup].
  intros x y Hx Hy E. apply isoformat_inj; eauto using dates_from_valid.
Qed.

(** With an end before [date.max] the loop runs its body once per date of
    the range, in order, and ends normally. *)
Lemma for_each_day_spec {S : Type} (body : date -> S -> S) end_ :
  valid end_ = true -> end_ <> max ->
  forall n fuel current s,
    valid current = true ->
    n = day_fuel current end_ -> (n <= fuel)%nat ->
    for_each_day fuel current end_ body s
    = inr (fold_left (fun s d => body d s) (dates_from n current) s).
Proof.
  intros Ve Hmax. apply not_max_lt in Hmax; [|exact Ve].
  induction n as [|n IH]; intros fuel current s V En Hf.
  - unfold day_fuel, days_between in En.
    destruct fuel; cbn [for_each_day dates_from fold_left].
    + destruct (leb current end_) eqn:L; [|reflexivity].
      apply leb_toordinal in L; auto. lia.
    + destruct (leb current end_) eqn:L; [|reflexivity].
      apply leb_toordinal in L; auto. lia.
  - unfold day_fuel, days_between in En.
    destruct fuel as [|fuel]; [lia|]. cbn [for_each_day].
    assert (L : leb current end_ = true) by (apply leb_toordinal; auto; lia).
    rewrite L.
    destruct (add_day_spec current V) as (d' & E & V' & O').
    { apply not_max_lt; [exact V | lia]. }
    rewrite E. cbn [dates_from fold_left]. rewrite E.
    apply IH; [exact V' | unfold day_fuel, days_between; lia | lia].
Qed.

Lemma date_range_bound start end_ :
  valid start = true -> valid end_ = true ->
  toordinal start + Z.of_nat (day_fuel start end_) <= toordinal max + 1.
Proof.
  intros Vs Ve. pose proof (toordinal_le_max end_ Ve).
  pose proof (toordinal_le_max start Vs).
  unfold day_fuel, days_between. lia.
Qed.

Lemma date_range_elem start end_ x :
  valid start = true -> valid end_ = true -> valid x = true ->
  (x ∈ date_range start end_
   <-> leb start x = true /\ leb x end_ = true).
Proof.
  intros Vs Ve Vx. unfold date_range.
  pose proof (toordinal_le_max end_ Ve).
  rewrite elem_of_dates_from; auto.
  - rewrite !leb_toordinal by auto. unfold day_fuel, days_between.
    destruct (Z_le_gt_dec (toordinal start) (toordinal end_)).
    + rewrite Z2Nat.id by lia. lia.
    + replace (Z.to_nat (toordinal end_ - toordinal start + 1)) with O by lia.
      lia.
  - apply date_range_bound; auto.
Qed.

Lemma date_range_length start end_ :
  valid start = true -> valid end_ = true -> leb start end_ = true ->
  Z.of_nat (length (date_range start end_)) = days_between start end_ + 1.
Proof.
  intros Vs Ve L. unfold date_range.
  pose proof (toordinal_le_max end_ Ve).
  apply leb_toordinal in L; auto.
  rewrite dates_from_length; auto using date_range_bound.
  unfold day_fuel, days_between. lia.
Qed.

End LoopFacts.


(** * Stop-to-date mapping *)

Section LocationByDate.
Import Date DateFacts LoopFacts.

Lemma fold_insert_lookup (n : string) (l : list date) :
  forall (m : gmap string string) (k : string),
    fold_left (fun m d => <[isoformat d := n]> m) l m !! k
    = if bool_decide (k ∈ isoformat <$> l) then Some n else m !! k.
Proof.
  induction l as [|d l IH]; intros m k; cbn [fold_left fmap list_fmap].
  - rewrite bool_decide_eq_false_2; [reflexivity | apply not_elem_of_nil].
  - rewrite IH. destruct (decide (k ∈ isoformat <$> l)) as [Hin|Hin].
    + rewrite !bool_decide_eq_true_2; auto. now right.
    + rewrite bool_decide_eq_false_2 by exact Hin.
      destruct (decide (k = isoformat d)) as [->|Hne].
      * rewrite lookup_insert_eq, bool_decide_eq_true_2; [reflexivity|left].
      * rewrite lookup_insert_ne by congruence.
        rewrite bool_decide_eq_false_2; [reflexivity|].
        intros [E|E]%elem_of_cons; [exact (Hne E) | exact (Hin E)].
Qed.

Lemma last_filter_snoc {A} (P : A -> bool) (l : list A) (x : A) :
  last (List.filter P (l ++ [x]))
  = if P x then Some x else last (List.filter P l).
Proof.
  rewrite List.filter_app. cbn [List.filter].
  destruct (P x); [apply last_snoc | now rewrite app_nil_r].
Qed.

Lemma stop_step_lookup (m0 : gmap string string) (stop : Z * stop_row) d :
  stop_dates_ok stop.2 = true -> valid d = true ->
  exists m, location_by_date_step (inr m0) stop = inr m
            /\ m !! isoformat d
               = if stop_covers d stop then Some (st_name stop.2)
                 else m0 !! isoformat d.
Proof.
  intros Hok Vd. unfold stop_dates_ok in Hok. unfold stop_covers.
  unfold location_by_date_step, bind, parse_date_exn.
  destruct (parse_date (st_start_date stop.2)) as [s|] eqn:Es; [|discriminate].
  destruct (parse_date (st_end_date stop.2)) as [e|] eqn:Ee; [|discriminate].
  pose proof (parse_date_valid _ _ Es) as Vs.
  pose proof (parse_date_valid _ _ Ee) as Ve.
  assert (Hmax : e <> max)
    by (intros ->; vm_compute in Hok; discriminate Hok).
  rewrite (for_each_day_spec _ e Ve Hmax (day_fuel s e) (day_fuel s e) s m0 Vs
             eq_refl (Nat.le_refl _)).
  eexists; split; [reflexivity|].
  rewrite fold_insert_lookup. fold (date_range s e).
  destruct (leb s d && leb d e) eqn:C.
  - apply andb_true_iff in C. rewrite bool_decide_eq_true_2; [reflexivity|].
    apply list_elem_of_fmap. exists d. split; [reflexivity|].
    now apply date_range_elem.
  - rewrite bool_decide_eq_false_2; [reflexivity|].
    intros (d' & E & Hin)%list_elem_of_fmap.
    assert (Vd' : valid d' = true).
    { unfold date_range in Hin.
      apply (dates_from_valid (day_fuel s e) s d'); auto using date_range_bound. }
    apply isoformat_inj in E; auto. subst d'.
    apply date_range_elem in Hin; auto.
    apply andb_false_iff in C. destruct Hin; destruct C; congruence.
Qed.

Lemma build_location_lookup (stops : list (Z * stop_row)) d :
  Forall (fun stop => stop_dates_ok stop.2 = true) stops ->
  valid d = true ->
  forall m0, exists m,
    fold_left location_by_date_step stops (inr m0) = inr m
    /\ m !! isoformat d
       = match last (List.filter (stop_covers d) stops) with
         | Some stop => Some (st_name stop.2)
         | None => m0 !! isoformat d
         end.
Proof.
  intros Hok Vd. induction stops as [|stop stops IH] using rev_ind; intros m0.
  - exists m0. split; reflexivity.
  - apply Forall_app in Hok as [Hok Hstop]. apply Forall_inv in Hstop.
    destruct (IH Hok m0) as (m1 & E1 & L1).
    rewrite fold_left_app, E1. cbn [fold_left].
    destruct (stop_step_lookup m1 stop d Hstop Vd) as (m & E & L).
    exists m. split; [exact E|].
    rewrite L, last_filter_snoc. destruct (stop_covers d stop); [reflexivity|].
    exact L1.
Qed.

End LocationByDate.

(** The mapping built from a list of stops: the lookup of a date gives the
    name of the last stop in the list whose range covers it, and a date that
    no stop covers is absent. *)
Lemma build_location_by_date_spec (stops : list (Z * stop_row)) :
  Forall (fun stop => stop_dates_ok stop.2 = true) stops ->
  exists location_by_date,
    build_location_by_date stops = inr location_by_date
    /\ (forall d, Date.valid d = true ->
          location_name location_by_date (Date.isoformat d)
          = (fun stop : Z * stop_row => st_name stop.2)
              <$> last (List.filter (stop_covers d) stops))
    /\ (forall d, Date.valid d = true ->
          List.filter (stop_covers d) stops = [] ->
          location_name location_by_date (Date.isoformat d) = None).
Proof.
  intros Hok.
  destruct stops as [|s0 rest] eqn:Es.
  - exists ∅. split; [reflexivity|]. split; intros; apply lookup_empty.
  - rewrite <- Es in *. clear Es s0 rest.
    destruct (build_location_lookup stops (Date.mk 1 1 1) Hok eq_refl ∅)
      as (m & E & _).
    exists m. split; [exact E|].
    assert (A : forall d, Date.valid d = true ->
              location_name m (Date.isoformat d)
              = (fun stop : Z * stop_row => st_name stop.2)
                  <$> last (List.filter (stop_covers d) stops)).
    { intros d Vd.
      destruct (build_location_lookup stops d Hok Vd ∅) as (m' & E' & L).
      unfold build_location_by_date in E. rewrite E in E'.
      injection E' as <-. unfold location_name. rewrite L.
      destruct (last _); [reflexivity | apply lookup_empty]. }
    split; [exact A|]. intros d Vd Hnone. rewrite A by exact Vd.
    now rewrite Hnone.
Qed.


(** Stops A (Jan 1-3) and B (Jan 3-5), in that order. *)
Lemma location_by_date_example :
  match build_location_by_date stops_A_B with
  | inr m =>
      location_name m "2024-01-03" = Some "B"
      /\ location_name m "2024-01-02" = Some "A"
      /\ location_name m "2024-01-06" = None
  | inl _ => False
  end.
Proof. vm_compute. repeat split. Qed.


(** * Queries and the grouping of checklist items *)

Section SqlFacts.
Context {A : Type}.

Lemma elem_of_select (cond : Z -> A -> bool) (t : table A) (id : Z) (r : A) :
  (id, r) ∈ Sql.select cond t <-> rows t !! id = Some r /\ cond id r = true.
Proof.
  unfold Sql.select. rewrite merge_sort_Permutation.
  rewrite list_elem_of_In, filter_In, <- list_elem_of_In, elem_of_map_to_list.
  reflexivity.
Qed.

Lemma select_NoDup (cond : Z -> A -> bool) (t : table A) :
  NoDup (Sql.select cond t).*1.
Proof.
  unfold Sql.select. rewrite merge_sort_Permutation.
  pose proof (NoDup_fst_map_to_list (rows t)) as H.
  induction (map_to_list (rows t)) as [|x l IH]; [constructor|].
  cbn [List.filter]. apply NoDup_cons in H as [Hx Hl].
  destruct (cond x.1 x.2); [|auto].
  cbn. apply NoDup_cons. split; [|auto].
  intros Hin. apply Hx. apply list_elem_of_fmap in Hin as (y & E & Hy).
  apply list_elem_of_fmap. exists y. split; [exact E|].
  apply list_elem_of_In, filter_In in Hy as [Hy _]. now apply list_elem_of_In.
Qed.

Lemma elem_of_order_by (key : A -> Z) (l : list (Z * A)) x :
  x ∈ Sql.order_by key l <-> x ∈ l.
Proof. unfold Sql.order_by. now rewrite merge_sort_Permutation. Qed.

Lemma order_by_Permutation (key : A -> Z) (l : list (Z * A)) :
  Sql.order_by key l ≡ₚ l.
Proof. apply merge_sort_Permutation. Qed.

Lemma elem_of_order_by_text (key : A -> string) (l : list (Z * A)) x :
  x ∈ Sql.order_by_text key l <-> x ∈ l.
Proof. unfold Sql.order_by_text. now rewrite merge_sort_Permutation. Qed.

Lemma in_ids_In x ids : Sql.in_ids x ids = true <-> x ∈ ids.
Proof.
  unfold Sql.in_ids. rewrite existsb_exists. split.
  - intros (y & Hy & E). apply Z.eqb_eq in E. subst. now apply list_elem_of_In.
  - intros H. exists x. split; [now apply list_elem_of_In | apply Z.eqb_refl].
Qed.

Lemma all_rows_spec (P : A -> bool) (t : table A) :
  all_rows P t = true <-> forall id r, rows t !! id = Some r -> P r = true.
Proof.
  unfold all_rows. rewrite forallb_forall. split.
  - intros H id r Hr. apply (H (id, r)).
    now apply list_elem_of_In, elem_of_map_to_list.
  - intros H [id r] Hin. apply (H id).
    now apply elem_of_map_to_list, list_elem_of_In.
Qed.

Lemma some_row_spec (P : A -> bool) (t : table A) :
  some_row P t = true <-> exists id r, rows t !! id = Some r /\ P r = true.
Proof.
  unfold some_row. rewrite existsb_exists. split.
  - intros ([id r] & Hin & HP). exists id, r. split; [|exact HP].
    now apply elem_of_map_to_list, list_elem_of_In.
  - intros (id & r & Hr & HP). exists (id, r). split; [|exact HP].
    now apply list_elem_of_In, elem_of_map_to_list.
Qed.

End SqlFacts.

Lemma elem_of_select_days db trip_id id r :
  (id, r) ∈ select_days db trip_id
  <-> rows (itinerary db) !! id = Some r /\ it_trip_id r = trip_id.
Proof.
  unfold select_days. rewrite elem_of_order_by, elem_of_select, Z.eqb_eq.
  reflexivity.
Qed.

Lemma select_days_NoDup db trip_id : NoDup (select_days db trip_id).*1.
Proof.
  unfold select_days. rewrite order_by_Permutation. apply select_NoDup.
Qed.

Lemma elem_of_select_visible db day_ids id r :
  (id, r) ∈ select_visible_items db day_ids
  <-> rows (day_items db) !! id = Some r
      /\ itinerary_id r ∈ day_ids /\ hidden r = false.
Proof.
  unfold select_visible_items.
  rewrite elem_of_select, andb_true_iff, in_ids_In, negb_true_iff.
  reflexivity.
Qed.

Lemma empty_groups_lookup cat :
  empty_groups !! cat = if Py.in_set cat three then Some [] else None.
Proof.
  unfold empty_groups, three, Py.in_set. cbn [existsb].
  destruct (String.eqb_spec cat "place") as [->|N1]; [reflexivity|].
  destruct (String.eqb_spec cat "restaurant") as [->|N2]; [reflexivity|].
  destruct (String.eqb_spec cat "hotel") as [->|N3]; [reflexivity|].
  rewrite !lookup_insert_ne by congruence. rewrite lookup_empty. reflexivity.
Qed.

Lemma items_by_day_fold_inl e l :
  fold_left items_by_day_step l (inl e) = inl e.
Proof. induction l as [|x l IH]; [reflexivity | exact IH]. Qed.

Lemma grouped_empty : grouped ∅ [].
Proof.
  intros day_id cat. unfold per_day_items. rewrite lookup_empty. cbn.
  apply empty_groups_lookup.
Qed.

Lemma grouped_step ibd seen row :
  grouped ibd seen ->
  Py.in_set (category row.2) three = true ->
  exists ibd', items_by_day_step (inr ibd) row = inr ibd'
               /\ grouped ibd' (seen ++ [row]).
Proof.
  intros G Hcat. unfold items_by_day_step, bind.
  fold (per_day_items ibd (itinerary_id row.2)).
  rewrite (G (itinerary_id row.2) (category row.2)), Hcat.
  eexists; split; [reflexivity|].
  intros day_id cat. unfold per_day_items at 1.
  rewrite List.filter_app. cbn [List.filter].
  destruct (Z.eqb_spec (itinerary_id row.2) day_id) as [<-|Nd].
  - rewrite lookup_insert_eq. cbn [default from_option id].
    destruct (String.eqb_spec (category row.2) cat) as [<-|Nc].
    + rewrite lookup_insert_eq, Hcat.
      assert (item_matches (itinerary_id row.2) (category row.2) row = true)
        as ->; [|reflexivity].
      unfold item_matches. now rewrite Z.eqb_refl, String.eqb_refl.
    + rewrite lookup_insert_ne by exact Nc.
      assert (item_matches (itinerary_id row.2) cat row = false) as ->.
      { unfold item_matches. rewrite Z.eqb_refl. now apply String.eqb_neq. }
      rewrite app_nil_r. apply G.
  - rewrite lookup_insert_ne by exact Nd.
    assert (item_matches day_id cat row = false) as ->.
    { unfold item_matches. apply Z.eqb_neq in Nd. now rewrite Nd. }
    rewrite app_nil_r. apply G.
Qed.

Lemma items_by_day_fold ibd seen l :
  grouped ibd seen ->
  Forall (fun row => Py.in_set (category row.2) three = true) l ->
  exists ibd', fold_left items_by_day_step l (inr ibd) = inr ibd'
               /\ grouped ibd' (seen ++ l).
Proof.
  revert ibd seen. induction l as [|row l IH]; intros ibd seen G H.
  - exists ibd. rewrite app_nil_r. auto.
  - apply Forall_cons in H as [Hrow Hl].
    destruct (grouped_step ibd seen row G Hrow) as (ibd1 & E1 & G1).
    destruct (IH ibd1 (seen ++ [row]) G1 Hl) as (ibd' & E' & G').
    exists ibd'. cbn [fold_left]. rewrite E1. split; [exact E'|].
    now rewrite <- app_assoc in G'.
Qed.

(** With valid categories the grouping never raises, and a day's list
    under a key is the day's visible items of that category, in id order. *)
Lemma build_items_by_day_spec db day_ids :
  categories_ok db = true ->
  exists ibd,
    build_items_by_day db day_ids = inr ibd
    /\ forall day_id cat,
         items_of (per_day_items ibd day_id) cat
         = if Py.in_set cat three
           then List.filter (item_matches day_id cat)
                  (select_visible_items db day_ids)
           else [].
Proof.
  intros Hc.
  assert (Hall : Forall (fun row : Z * day_item_row =>
                           Py.in_set (category row.2) three = true)
                   (select_visible_items db day_ids)).
  { apply Forall_forall. intros [id r] Hin.
    apply elem_of_select_visible in Hin as (Hr & _).
    unfold categories_ok in Hc. rewrite all_rows_spec in Hc. exact (Hc id r Hr). }
  destruct (items_by_day_fold ∅ [] (select_visible_items db day_ids)
              grouped_empty Hall) as (ibd & E & G).
  cbn [app] in G.
  assert (Hspec : forall ibd0 l, grouped ibd0 l -> forall day_id cat,
            items_of (per_day_items ibd0 day_id) cat
            = if Py.in_set cat three
              then List.filter (item_matches day_id cat) l else []).
  { intros ibd0 l G0 day_id cat. unfold items_of. rewrite G0.
    now destruct (Py.in_set cat three). }
  unfold build_items_by_day. destruct day_ids as [|d0 ds] eqn:Ed.
  - exists ∅. split; [reflexivity|]. intros day_id cat.
    rewrite (Hspec ∅ [] grouped_empty).
    assert (select_visible_items db [] = []) as ->; [|reflexivity].
    apply elem_of_nil_inv. intros [id r] Hin.
    apply elem_of_select_visible in Hin as (_ & Hin & _).
    now apply not_elem_of_nil in Hin.
  - exists ibd. split; [exact E|]. now apply Hspec.
Qed.


(** * Completion statistics *)

(** The float computation of the percentage agrees with exact rounding of
    the ratio for the seven possible counts. *)
Lemma float_percent k :
  0 <= k <= 6 ->
  PyFloat.round
    (PrimFloat.mul (PrimFloat.div (PyFloat.of_int k) (PyFloat.of_int 6))
       (PyFloat.of_int 100))
  = Some (round_ratio (100 * k) 6).
Proof.
  intros Hk.
  apply (forall_range
           (fun k => PyFloat.round
                       (PrimFloat.mul
                          (PrimFloat.div (PyFloat.of_int k) (PyFloat.of_int 6))
                          (PyFloat.of_int 100))
                     = Some (round_ratio (100 * k) 6)) 0 7); [|lia].
  range_cases ltac:(vm_compute; reflexivity).
Qed.

Lemma flags3_lookup b l d k :
  flags3 b l d !! k
  = if String.eqb k "breakfast" then Some b
    else if String.eqb k "lunch" then Some l
    else if String.eqb k "dinner" then Some d
    else None.
Proof.
  unfold flags3.
  destruct (String.eqb_spec k "breakfast") as [->|N1]; [reflexivity|].
  rewrite lookup_insert_ne by congruence.
  destruct (String.eqb_spec k "lunch") as [->|N2]; [reflexivity|].
  rewrite lookup_insert_ne by congruence.
  destruct (String.eqb_spec k "dinner") as [->|N3]; [reflexivity|].
  rewrite lookup_insert_ne by congruence. apply lookup_empty.
Qed.

Lemma meal_flags_step_flags3 b l d it :
  meal_flags_step (flags3 b l d) it
  = flags3 (b || meal_hit "breakfast" it) (l || meal_hit "lunch" it)
      (d || meal_hit "dinner" it).
Proof.
  unfold meal_flags_step, meal_hit.
  set (s := Py.lower (Py.or_empty (slot it.2))).
  apply map_eq. intros k.
  destruct (checked it.2) eqn:C; cbn [andb].
  2:{ rewrite andb_false_r, !orb_false_r. reflexivity. }
  rewrite andb_true_r.
  destruct (String.eqb_spec s "breakfast") as [E1|N1].
  { rewrite E1. rewrite bool_decide_eq_true_2 by (rewrite flags3_lookup; eauto).
    cbn [String.eqb Ascii.eqb Bool.eqb]. rewrite !orb_false_r, orb_true_r.
    unfold flags3. now rewrite insert_insert_eq. }
  destruct (String.eqb_spec s "lunch") as [E2|N2].
  { rewrite E2. rewrite bool_decide_eq_true_2 by (rewrite flags3_lookup; eauto).
    rewrite !orb_false_r, orb_true_r.
    rewrite lookup_insert, !flags3_lookup.
    case_decide as Hk; [subst k; reflexivity|].
    destruct (String.eqb_spec k "lunch") as [->|]; [congruence|]. reflexivity. }
  destruct (String.eqb_spec s "dinner") as [E3|N3].
  { rewrite E3. rewrite bool_decide_eq_true_2 by (rewrite flags3_lookup; eauto).
    rewrite !orb_false_r, orb_true_r.
    rewrite lookup_insert, !flags3_lookup.
    case_decide as Hk; [subst k; reflexivity|].
    destruct (String.eqb_spec k "dinner") as [->|]; [congruence|]. reflexivity. }
  rewrite bool_decide_eq_false_2.
  - now rewrite !orb_false_r.
  - rewrite flags3_lookup.
    destruct (String.eqb_spec s "breakfast"); [congruence|].
    destruct (String.eqb_spec s "lunch"); [congruence|].
    destruct (String.eqb_spec s "dinner"); [congruence|].
    intros [? ?]; discriminate.
Qed.

Lemma meal_flags_fold items : forall b l d,
  fold_left meal_flags_step items (flags3 b l d)
  = flags3 (b || existsb (meal_hit "breakfast") items)
      (l || existsb (meal_hit "lunch") items)
      (d || existsb (meal_hit "dinner") items).
Proof.
  induction items as [|it items IH]; intros b l d; cbn [fold_left existsb].
  - now rewrite !orb_false_r.
  - rewrite meal_flags_step_flags3, IH, !orb_assoc. reflexivity.
Qed.

Lemma count_true_flags3 b l d :
  count_true (flags3 b l d)
  = (if b then 1 else 0) + (if l then 1 else 0) + (if d then 1 else 0).
Proof. destruct b, l, d; reflexivity. Qed.

Lemma slots_lowercase_spec db id r :
  slots_lowercase db = true -> rows (day_items db) !! id = Some r ->
  Py.lower (Py.or_empty (slot r)) = Py.or_empty (slot r).
Proof.
  unfold slots_lowercase. rewrite all_rows_spec. intros H Hr.
  apply String.eqb_eq. exact (H id r Hr).
Qed.

Lemma meal_hit_picked db day_ids day_id meal :
  slots_lowercase db = true -> day_id ∈ day_ids -> meal <> "" ->
  existsb (meal_hit meal)
    (List.filter (item_matches day_id "restaurant")
       (select_visible_items db day_ids))
  = meal_picked db day_id meal.
Proof.
  intros Hl Hday Hmeal. apply eq_true_iff_eq.
  unfold meal_picked. rewrite some_row_spec, existsb_exists. split.
  - intros ([id r] & Hin & Hhit). apply filter_In in Hin as [Hin Hm].
    apply list_elem_of_In, elem_of_select_visible in Hin as (Hr & _ & Hh).
    unfold item_matches in Hm. cbn [snd] in Hm.
    apply andb_true_iff in Hm as [Hd Hc].
    unfold meal_hit in Hhit. cbn [snd] in Hhit.
    apply andb_true_iff in Hhit as [Hchk Hs].
    apply String.eqb_eq in Hs.
    rewrite (slots_lowercase_spec db id r Hl Hr) in Hs.
    exists id, r. split; [exact Hr|].
    rewrite Hd, Hc, Hh, Hchk. cbn [andb negb].
    apply bool_decide_eq_true_2.
    destruct (slot r) as [s|]; cbn in Hs; [now subst|congruence].
  - intros (id & r & Hr & HP).
    apply andb_true_iff in HP as [HP Hs]. apply andb_true_iff in HP as [HP Hchk].
    apply andb_true_iff in HP as [HP Hh]. apply andb_true_iff in HP as [Hd Hc].
    apply bool_decide_eq_true_1 in Hs. apply negb_true_iff in Hh.
    exists (id, r). split.
    + apply filter_In. split.
      * apply list_elem_of_In, elem_of_select_visible. repeat split; auto.
        apply Z.eqb_eq in Hd. now rewrite Hd.
      * unfold item_matches. cbn [snd]. now rewrite Hd, Hc.
    + unfold meal_hit. cbn [snd]. rewrite Hchk. cbn [andb].
      rewrite (slots_lowercase_spec db id r Hl Hr), Hs. apply String.eqb_refl.
Qed.

(** The completion of a day from the grouping of the visible items of a
    list of days. *)
Lemma day_completion_formula (db : database) (day_ids : list Z)
    (day_id : Z) (day : itinerary_row) :
  categories_ok db = true -> slots_lowercase db = true -> day_id ∈ day_ids ->
  exists ibd c,
    build_items_by_day db day_ids = inr ibd
    /\ day_completion day (per_day_items ibd day_id) = Some c
    /\ slots_filled c
       = Z.of_nat (length (List.filter nonblank
                             [morning_description day;
                              afternoon_description day;
                              evening_description day]))
    /\ meals_picked c
       = Z.of_nat (length (List.filter (meal_picked db day_id)
                             ["breakfast"; "lunch"; "dinner"]))
    /\ percent c = round_ratio (100 * (slots_filled c + meals_picked c)) 6
    /\ (slots_filled c = 3 -> meals_picked c = 2 -> percent c = 83).
Proof.
  intros Hc Hl Hday.
  destruct (build_items_by_day_spec db day_ids Hc) as (ibd & E & Hitems).
  exists ibd. unfold day_completion.
  rewrite (Hitems day_id "restaurant"). change (Py.in_set "restaurant" three) with true.
  cbv iota.
  change initial_meal_flags with (flags3 false false false).
  rewrite meal_flags_fold, count_true_flags3. cbn [orb].
  rewrite !(meal_hit_picked db day_ids day_id) by (auto; discriminate).
  set (sf := count_slots_filled day).
  set (mp := (if meal_picked db day_id "breakfast" then 1 else 0)
             + (if meal_picked db day_id "lunch" then 1 else 0)
             + (if meal_picked db day_id "dinner" then 1 else 0)).
  assert (Hsf : 0 <= sf <= 3).
  { unfold sf, count_slots_filled.
    destruct (nonblank _), (nonblank _), (nonblank _); lia. }
  assert (Hmp : 0 <= mp <= 3).
  { unfold mp. destruct (meal_picked _ _ _), (meal_picked _ _ _),
      (meal_picked _ _ _); lia. }
  change (3 + 3 =? 0) with false. cbv iota. change (3 + 3) with 6.
  rewrite float_percent by lia. cbn [mbind option_bind].
  eexists. split; [exact E|]. split; [reflexivity|].
  cbn [slots_filled meals_picked percent].
  split; [|split; [|split]].
  - unfold sf, count_slots_filled. cbn [List.filter].
    destruct (nonblank _), (nonblank _), (nonblank _); reflexivity.
  - unfold mp. cbn [List.filter].
    destruct (meal_picked _ _ _), (meal_picked _ _ _), (meal_picked _ _ _);
      reflexivity.
  - reflexivity.
  - intros -> ->. reflexivity.
Qed.



(** * Hotels filtered by location *)

(** C2, as stated, fails: the list is taken from all the day's visible
    hotel items, checked or not.  A day whose only hotel item is unchecked,
    with no location resolved, keeps that item. *)
Lemma hotels_filtered_unchecked_counterexample :
  ~ (forall (per_day : item_groups) (location_name : option string),
       hotels_filtered per_day location_name
       = List.filter (at_location location_name)
           (List.filter (fun h : Z * day_item_row => checked h.2)
              (items_of per_day "hotel"))).
Proof.
  intros H.
  specialize (H (<["hotel" := [(5, DayItemRow 1 "hotel" "Hotel PARIS Opera"
                                      false None false)]]> empty_groups) None).
  vm_compute in H. discriminate H.
Qed.

Lemma hotels_filtered_eq per_day location_name :
  hotels_filtered per_day location_name
  = List.filter (at_location location_name) (items_of per_day "hotel").
Proof.
  unfold hotels_filtered, at_location.
  destruct (Py.truthy_opt location_name); cbn [negb orb]; [reflexivity|].
  induction (items_of per_day "hotel") as [|h l IH]; [reflexivity|].
  cbn [List.filter]. now rewrite <- IH.
Qed.

(** The hotel list of a day from the grouping of the visible items of a
    list of days. *)
Lemma hotels_filtered_spec (db : database) (day_ids : list Z)
    (day_id : Z) (location_name : option string) :
  categories_ok db = true -> day_id ∈ day_ids ->
  exists ibd,
    build_items_by_day db day_ids = inr ibd
    /\ hotels_filtered (per_day_items ibd day_id) location_name
       = List.filter (at_location location_name)
           (List.filter (item_matches day_id "hotel")
              (select_visible_items db day_ids))
    /\ (forall id r,
          (id, r) ∈ hotels_filtered (per_day_items ibd day_id) location_name
          <-> rows (day_items db) !! id = Some r
              /\ itinerary_id r = day_id /\ category r = "hotel"
              /\ hidden r = false
              /\ (Py.truthy_opt location_name = true ->
                  Py.contains (Py.lower (Py.or_empty location_name))
                    (Py.lower (name r)) = true)).
Proof.
  intros Hc Hday.
  destruct (build_items_by_day_spec db day_ids Hc) as (ibd & E & Hitems).
  exists ibd. split; [exact E|].
  assert (Heq : hotels_filtered (per_day_items ibd day_id) location_name
                = List.filter (at_location location_name)
                    (List.filter (item_matches day_id "hotel")
                       (select_visible_items db day_ids))).
  { rewrite hotels_filtered_eq, (Hitems day_id "hotel"). reflexivity. }
  split; [exact Heq|]. intros id r. rewrite Heq.
  rewrite list_elem_of_In, !filter_In, <- list_elem_of_In.
  rewrite elem_of_select_visible.
  unfold item_matches, at_location. cbn [snd].
  rewrite andb_true_iff, Z.eqb_eq, String.eqb_eq, orb_true_iff, negb_true_iff.
  split.
  - intros [[(Hr & _ & Hh) [Hd Hcat]] Hloc]. repeat split; auto.
    intros T. destruct Hloc as [F|C]; [congruence | exact C].
  - intros (Hr & Hd & Hcat & Hh & Hloc). subst day_id.
    repeat split; auto.
    destruct (Py.truthy_opt location_name); [right; auto | left; reflexivity].
Qed.



(** * delete_trip *)

Section DeleteWhere.
Context {A : Type}.

Lemma delete_where_lookup (cond : Z -> A -> bool) (t : table A) id r :
  rows (Sql.delete_where cond t) !! id = Some r
  <-> rows t !! id = Some r /\ cond id r = false.
Proof. unfold Sql.delete_where. cbn [rows]. apply map_lookup_filter_Some. Qed.

Lemma delete_where_lookup_None (cond : Z -> A -> bool) (t : table A) id :
  rows (Sql.delete_where cond t) !! id = None
  <-> forall r, rows t !! id = Some r -> cond id r = true.
Proof.
  unfold Sql.delete_where. cbn [rows]. rewrite map_lookup_filter_None.
  split.
  - intros [Hn | H] r Hr; [congruence|]. specialize (H r Hr). cbn in H.
    now destruct (cond id r).
  - intros H. destruct (rows t !! id) as [r|] eqn:E; [right | now left].
    intros r' [= <-]. cbn. now rewrite (H r eq_refl).
Qed.

End DeleteWhere.

Ltac proj_db :=
  cbn [trips itinerary budget_items day_items trip_stops packing_items
       set_trips set_itinerary set_budget_items set_day_items set_trip_stops
       set_packing_items fst snd].

(** What delete_trip removes and what it leaves: the trip, its days, the
    items of those days, its stops and its budget items are gone, rows of
    other trips stay, and the packing_items table is not touched. *)
Lemma delete_trip_effect (db : database) (trip_id : Z) :
  let db' := (delete_trip db trip_id).2 in
  rows (trips db') !! trip_id = None
  /\ (forall id r, rows (itinerary db') !! id = Some r
                   <-> rows (itinerary db) !! id = Some r
                       /\ it_trip_id r <> trip_id)
  /\ (forall id r, rows (day_items db') !! id = Some r
                   <-> rows (day_items db) !! id = Some r
                       /\ ~ (exists d, rows (itinerary db) !! itinerary_id r = Some d
                                       /\ it_trip_id d = trip_id))
  /\ (forall id r, rows (trip_stops db') !! id = Some r
                   <-> rows (trip_stops db) !! id = Some r
                       /\ st_trip_id r <> trip_id)
  /\ (forall id r, rows (budget_items db') !! id = Some r
                   <-> rows (budget_items db) !! id = Some r
                       /\ bi_trip_id r <> trip_id)
  /\ packing_items db' = packing_items db.
Proof.
  cbv zeta. unfold delete_trip. cbn [snd].
  set (ids := (Sql.select _ (itinerary db)).*1).
  assert (Hids : forall x, x ∈ ids <-> exists d, rows (itinerary db) !! x = Some d
                                              /\ it_trip_id d = trip_id).
  { intros x. unfold ids. rewrite list_elem_of_fmap. split.
    - intros ([i d] & -> & Hin). apply elem_of_select in Hin as [Hd Ht].
      apply Z.eqb_eq in Ht. eauto.
    - intros (d & Hd & Ht). exists (x, d). split; [reflexivity|].
      apply elem_of_select. split; [exact Hd | now apply Z.eqb_eq]. }
  split; [|split; [|split; [|split; [|split]]]].
  - destruct ids; proj_db; apply delete_where_lookup_None; intros;
      apply Z.eqb_refl.
  - intros id r. destruct ids; proj_db; rewrite delete_where_lookup, Z.eqb_neq;
      reflexivity.
  - intros id r. destruct ids as [|i0 rest] eqn:Ei.
    + proj_db. split; [|tauto]. intros Hr. split; [exact Hr|].
      intros Hex. apply Hids in Hex. now apply not_elem_of_nil in Hex.
    + rewrite <- Ei in *. proj_db. rewrite delete_where_lookup.
      rewrite <- Hids, <- in_ids_In. destruct (Sql.in_ids _ _); split;
        intros [? ?]; split; auto; congruence.
  - intros id r. destruct ids; proj_db; rewrite delete_where_lookup, Z.eqb_neq;
      reflexivity.
  - intros id r. destruct ids; proj_db; rewrite delete_where_lookup, Z.eqb_neq;
      reflexivity.
  - destruct ids; reflexivity.
Qed.

(** C3 at the failing input: deleting trip 1 of the sample database
    removes the trip and leaves its packing item in the database. *)
Lemma delete_trip_leaves_packing_item :
  let db' := (delete_trip sample_db 1).2 in
  rows (trips db') !! 1 = None
  /\ rows (packing_items db') !! 1
     = Some (PackingRow 1 "Essentials" "Passport / ID" false).
Proof. vm_compute. split; reflexivity. Qed.


(** * generate_itinerary *)

Lemma update_lookup {A : Type} (f : A -> A) (id j : Z) (t : table A) :
  rows (Sql.update f id t) !! j
  = if decide (id = j) then f <$> rows t !! j else rows t !! j.
Proof.
  unfold Sql.update. cbn [rows]. rewrite lookup_alter.
  case_decide; subst; reflexivity.
Qed.

Lemma or_else_filled old s : Some (Py.or_else old s) = filled old s.
Proof.
  unfold Py.or_else, filled, Py.truthy_opt.
  destruct old as [x|]; cbn; [|reflexivity].
  now destruct (Py.truthy x).
Qed.

Lemma suggestions_lookup trip days n :
  build_ai_style_itinerary trip days !! n
  = if bool_decide (n ∈ (fun d : Z * itinerary_row => day_number d.2) <$> days)
    then Some (trip_content trip) else None.
Proof.
  unfold build_ai_style_itinerary, trip_content, suggested_texts.
  destruct (style_texts _ _) as [[m a] e]. cbn [fst snd].
  set (c := DayContent _ _ _ _ _ _).
  assert (G : forall l (acc : gmap Z day_content),
    fold_left (fun it (day : Z * itinerary_row) => <[day_number day.2 := c]> it)
      l acc !! n
    = if bool_decide (n ∈ (fun d : Z * itinerary_row => day_number d.2) <$> l)
      then Some c else acc !! n).
  { induction l as [|d l IH]; intros acc; cbn [fold_left fmap list_fmap].
    - rewrite bool_decide_eq_false_2; [reflexivity | apply not_elem_of_nil].
    - rewrite IH. destruct (decide (n ∈ (fun d => day_number d.2) <$> l)) as [Hin|Hin].
      + rewrite !bool_decide_eq_true_2; auto. now right.
      + rewrite bool_decide_eq_false_2 by exact Hin.
        destruct (decide (n = day_number d.2)) as [->|Hne].
        * rewrite lookup_insert_eq, bool_decide_eq_true_2; [reflexivity|left].
        * rewrite lookup_insert_ne by congruence.
          rewrite bool_decide_eq_false_2; [reflexivity|].
          intros [E|E]%elem_of_cons; [exact (Hne E) | exact (Hin E)]. }
  rewrite G, lookup_empty. reflexivity.
Qed.

Lemma generate_fold sugg c (l : list (Z * itinerary_row)) : forall db,
  NoDup l.*1 ->
  (forall day, day ∈ l ->
     rows (itinerary db) !! day.1 = Some day.2
     /\ sugg !! day_number day.2 = Some c) ->
  exists db',
    fold_left (generate_step sugg) l (inr db) = inr db'
    /\ trips db' = trips db /\ budget_items db' = budget_items db
    /\ day_items db' = day_items db /\ trip_stops db' = trip_stops db
    /\ packing_items db' = packing_items db
    /\ forall j, rows (itinerary db') !! j
                 = if bool_decide (j ∈ l.*1)
                   then fill c <$> rows (itinerary db) !! j
                   else rows (itinerary db) !! j.
Proof.
  induction l as [|day l IH]; intros db ND H.
  - exists db. do 6 (split; [reflexivity|]). intros j.
    rewrite bool_decide_eq_false_2; [reflexivity | apply not_elem_of_nil].
  - cbn [fmap list_fmap] in ND. apply NoDup_cons in ND as [Hnot ND].
    destruct (H day (list_elem_of_here _ _)) as [Hrow Hs].
    cbn [fold_left]. unfold generate_step at 2. cbn [bind]. rewrite Hs.
    set (db1 := set_itinerary _ db).
    destruct (IH db1 ND) as (db' & E & Ht & Hb & Hi & Hst & Hp & Hl).
    { intros d Hd. destruct (H d (list_elem_of_further _ _ _ Hd)) as [Hr Hsd].
      split; [|exact Hsd]. unfold db1. proj_db. rewrite update_lookup.
      case_decide as Heq; [|exact Hr].
      exfalso. apply Hnot. rewrite Heq. apply list_elem_of_fmap.
      exists d. auto. }
    exists db'. split; [exact E|]. repeat split; try assumption.
    intros j. rewrite Hl. unfold db1. proj_db. rewrite update_lookup.
    cbn [fmap list_fmap].
    destruct (decide (day.1 = j)) as [<-|Hne].
    + rewrite bool_decide_eq_false_2 by exact Hnot.
      rewrite bool_decide_eq_true_2 by left.
      rewrite Hrow. reflexivity.
    + destruct (decide (j ∈ l.*1)) as [Hin|Hin].
      * rewrite !bool_decide_eq_true_2; auto. now right.
      * rewrite !bool_decide_eq_false_2; auto.
        intros [E'|E']%elem_of_cons; [congruence | exact (Hin E')].
Qed.

Lemma fill_same c r : same_but_descriptions r (fill c r).
Proof. unfold same_but_descriptions. repeat split. Qed.

Lemma fill_descriptions c r :
  morning_description (fill c r)
  = filled (morning_description r) (c_morning_description c)
  /\ afternoon_description (fill c r)
     = filled (afternoon_description r) (c_afternoon_description c)
  /\ evening_description (fill c r)
     = filled (evening_description r) (c_evening_description c).
Proof. unfold fill. cbn. rewrite !or_else_filled. auto. Qed.

Lemma filled_keeps old s : Py.truthy_opt old = true -> filled old s = old.
Proof. unfold filled. now intros ->. Qed.

(** What generate_itinerary does to the database. *)
Lemma generate_itinerary_spec (db : database) (trip_id : Z) :
  (rows (trips db) !! trip_id = None \/ select_days db trip_id = []) /\
    generate_itinerary db trip_id
    = (Redirect "list_trips" None (Some "Trip not found."), db)
  \/ exists trip db',
      rows (trips db) !! trip_id = Some trip
      /\ generate_itinerary db trip_id
         = (Redirect "trip_detail" (Some trip_id)
              (Some "Sample itinerary generated based on your travel style."),
            db')
      /\ trips db' = trips db /\ budget_items db' = budget_items db
      /\ day_items db' = day_items db /\ trip_stops db' = trip_stops db
      /\ packing_items db' = packing_items db
      /\ forall j, rows (itinerary db') !! j
                   = match rows (itinerary db) !! j with
                     | Some r => Some (if it_trip_id r =? trip_id
                                       then fill (trip_content trip) r else r)
                     | None => None
                     end.
Proof.
  unfold generate_itinerary.
  destruct (rows (trips db) !! trip_id) as [trip|] eqn:Et.
  2:{ left. split; [now left|]. now destruct (select_days db trip_id). }
  destruct (generate_fold (build_ai_style_itinerary trip (select_days db trip_id))
              (trip_content trip) (select_days db trip_id) db
              (select_days_NoDup db trip_id))
    as (db' & E & Ht & Hb & Hi & Hst & Hp & Hl).
  { intros [id r] Hin. split.
    - now apply elem_of_select_days in Hin as [Hr _].
    - rewrite suggestions_lookup.
      rewrite bool_decide_eq_true_2; [reflexivity|].
      apply list_elem_of_fmap. exists (id, r). auto. }
  assert (Hrows : forall j, rows (itinerary db') !! j
                   = match rows (itinerary db) !! j with
                     | Some r => Some (if it_trip_id r =? trip_id
                                       then fill (trip_content trip) r else r)
                     | None => None
                     end).
  { intros j. rewrite Hl.
    destruct (rows (itinerary db) !! j) as [r|] eqn:Er.
    - destruct (Z.eqb_spec (it_trip_id r) trip_id) as [Heq|Hne].
      + rewrite bool_decide_eq_true_2; [reflexivity|].
        apply list_elem_of_fmap. exists (j, r). split; [reflexivity|].
        now apply elem_of_select_days.
      + rewrite bool_decide_eq_false_2; [reflexivity|].
        intros ([j' r'] & -> & Hin)%list_elem_of_fmap.
        apply elem_of_select_days in Hin as [Hr Ht']. cbn in Er. congruence.
    - now destruct (bool_decide _). }
  clear Hl.
  destruct (select_days db trip_id) as [|d0 ds] eqn:Ed.
  { left. split; [now right | reflexivity]. }
  right. exists trip, db'. split; [reflexivity|]. rewrite E.
  split; [reflexivity|]. repeat split; assumption.
Qed.

(** C10: generate_itinerary changes nothing but the three descriptions of
    the trip's days: a description that is already non-empty is left as it
    is, an empty one receives the suggested text, and titles, map links and
    every other column and table are untouched; for a trip id that SQLite
    can bind (an id below 2^63) the handler does not raise. *)
Theorem generate_itinerary_fills_only_empty (db : database) (trip_id : Z) :
  let out := generate_itinerary db trip_id in
  (Sql.is_integer trip_id = true -> forall e, out.1 <> Raised e)
  /\ trips out.2 = trips db /\ budget_items out.2 = budget_items db
  /\ day_items out.2 = day_items db /\ trip_stops out.2 = trip_stops db
  /\ packing_items out.2 = packing_items db
  /\ (forall id, rows (itinerary out.2) !! id = None
                 <-> rows (itinerary db) !! id = None)
  /\ (forall id r, rows (itinerary db) !! id = Some r ->
        exists r', rows (itinerary out.2) !! id = Some r'
          /\ same_but_descriptions r r'
          /\ (Py.truthy_opt (morning_description r) = true ->
              morning_description r' = morning_description r)
          /\ (Py.truthy_opt (afternoon_description r) = true ->
              afternoon_description r' = afternoon_description r)
          /\ (Py.truthy_opt (evening_description r) = true ->
              evening_description r' = evening_description r))
  /\ (forall trip d0 id r,
        rows (trips db) !! trip_id = Some trip ->
        rows (itinerary db) !! id = Some r -> it_trip_id r = trip_id ->
        exists r', rows (itinerary out.2) !! id = Some r'
          /\ morning_description r'
             = filled (morning_description r) (suggested_texts trip).1.1
          /\ afternoon_description r'
             = filled (afternoon_description r) (suggested_texts trip).1.2
          /\ evening_description r'
             = filled (evening_description r) (suggested_texts trip).2
          /\ (d0 = morning_description r' \/ d0 = afternoon_description r'
              \/ d0 = evening_description r' -> d0 <> None)).
Proof.
  cbv zeta.
  destruct (generate_itinerary_spec db trip_id)
    as [[Hno E] | (trip & db' & Et & E & Ht & Hb & Hi & Hst & Hp & Hl)];
    rewrite E; cbn [fst snd].
  - split; [intros _ e; discriminate|]. repeat split; auto.
    + intros id r Hr. exists r. split; [exact Hr|].
      unfold same_but_descriptions. repeat split; auto.
    + intros trip d0 id r Et Hr Hid. exfalso. destruct Hno as [Hn|Hn].
      * congruence.
      * assert (Hin : (id, r) ∈ select_days db trip_id)
          by now apply elem_of_select_days.
        rewrite Hn in Hin. now apply not_elem_of_nil in Hin.
  - split; [intros _ e; discriminate|]. repeat split; auto.
    + rewrite Hl. now destruct (rows (itinerary db) !! id).
    + rewrite Hl. now destruct (rows (itinerary db) !! id).
    + intros id r Hr. rewrite Hl, Hr.
      destruct (it_trip_id r =? trip_id).
      * eexists. split; [reflexivity|]. split; [apply fill_same|].
        destruct (fill_descriptions (trip_content trip) r) as (-> & -> & ->).
        repeat split; apply filled_keeps.
      * exists r. split; [reflexivity|].
        unfold same_but_descriptions. repeat split; auto.
    + intros trip' d0 id r Et' Hr Hid. rewrite Et in Et'. injection Et' as <-.
      rewrite Hl, Hr. apply Z.eqb_eq in Hid. rewrite Hid.
      eexists. split; [reflexivity|].
      destruct (fill_descriptions (trip_content trip) r) as (-> & -> & ->).
      repeat split.
      intros [-> | [-> | ->]]; unfold filled;
        match goal with |- context [Py.truthy_opt ?o] =>
          destruct o as [x|] eqn:Eo; cbn; try discriminate;
          destruct (Py.truthy_opt (Some x)); discriminate
        end.
Qed.

Lemma generate_itinerary_fills_only_empty_witness :
  Sql.is_integer 1 = true
  /\ Sql.is_integer (2 ^ 63 - 1) = true
  /\ Sql.is_integer (2 ^ 63) = false
  /\ (forall e, (generate_itinerary sample_db 1).1 <> Raised e)
  /\ trips (generate_itinerary sample_db 1).2 = trips sample_db.
Proof.
  destruct (generate_itinerary_fills_only_empty sample_db 1)
    as (H1 & H2 & _).
  split; [reflexivity|]. split; [reflexivity|]. split; [reflexivity|].
  split; [apply H1; reflexivity | exact H2].
Defined.


(** * Merging a CSV file into a trip *)

Lemma parse_rows_filter lo hi reader :
  parse_rows (List.filter (keep_in_range lo hi) reader)
  = List.filter (row_in_range lo hi) (parse_rows reader).
Proof.
  unfold parse_rows, keep_in_range.
  induction reader as [|row reader IH]; [reflexivity|].
  cbn [List.filter omap list_omap].
  destruct (parse_row row) as [p|] eqn:Ep.
  - cbn [List.filter]. destruct (row_in_range lo hi p).
    + cbn [omap list_omap]. rewrite Ep. now f_equal.
    + exact IH.
  - exact IH.
Qed.

Lemma filter_idem {A} (P : A -> bool) (l : list A) :
  List.filter P (List.filter P l) = List.filter P l.
Proof.
  induction l as [|x l IH]; [reflexivity|]. cbn [List.filter].
  destruct (P x) eqn:E; [|exact IH]. cbn [List.filter]. now rewrite E, IH.
Qed.

(** The merge of an upload into an existing trip whose stored dates parse. *)
Lemma merge_import_unfold db trip_id trip ts te reader :
  rows (trips db) !! trip_id = Some trip ->
  parse_date (start_date trip) = Some ts ->
  parse_date (end_date trip) = Some te ->
  import_trip_csv_into_trip db trip_id (Some reader)
  = match parse_rows reader with
    | [] =>
        (Render "import_trip_into_existing.html"
           (Some "No valid rows found in CSV. Expected headers: date,time_of_day,category,name,city,meal,selected."),
         db)
    | _ =>
        match List.filter (row_in_range ts te) (parse_rows reader) with
        | [] =>
            (Render "import_trip_into_existing.html"
               (Some "CSV rows are all outside the current trip dates."), db)
        | kept =>
            (Redirect "trip_detail" (Some trip_id)
               (Some "Trip updated from CSV."),
             insert_items
               (day_by_date
                  (Sql.select (fun _ r => it_trip_id r =? trip_id)
                     (itinerary db)))
               kept (insert_stops trip_id (build_city_dates kept) db))
        end
    end.
Proof.
  intros Et Es Ee. unfold import_trip_csv_into_trip. rewrite Et.
  destruct (parse_rows reader) as [|p ps]; [reflexivity|].
  rewrite Es, Ee.
  change (fun r : parsed_row =>
            Date.leb ts (p_date r) && Date.leb (p_date r) te)
    with (row_in_range ts te).
  destruct (List.filter (row_in_range ts te) (p :: ps)); reflexivity.
Qed.

(** C8: in the merge into an existing trip, rows whose parsed date lies
    outside the trip's inclusive range play no part: the database after the
    merge is the one obtained from the upload without them, built from the
    in-range rows alone; and when no parsed row is in range nothing is
    changed and the form is rendered again with an error message. *)
Theorem merge_import_drops_out_of_range (db : database) (trip_id : Z)
    (trip : trip_row) (ts te : Date.date) (reader : list csv_row) :
  rows (trips db) !! trip_id = Some trip ->
  parse_date (start_date trip) = Some ts ->
  parse_date (end_date trip) = Some te ->
  let kept := List.filter (row_in_range ts te) (parse_rows reader) in
  (kept = [] ->
     exists message,
       import_trip_csv_into_trip db trip_id (Some reader)
       = (Render "import_trip_into_existing.html" (Some message), db))
  /\ (import_trip_csv_into_trip db trip_id (Some reader)).2
     = (import_trip_csv_into_trip db trip_id
          (Some (List.filter (keep_in_range ts te) reader))).2
  /\ (kept <> [] ->
      import_trip_csv_into_trip db trip_id (Some reader)
      = (Redirect "trip_detail" (Some trip_id) (Some "Trip updated from CSV."),
         insert_items
           (day_by_date
              (Sql.select (fun _ r => it_trip_id r =? trip_id) (itinerary db)))
           kept (insert_stops trip_id (build_city_dates kept) db))
      /\ import_trip_csv_into_trip db trip_id (Some reader)
         = import_trip_csv_into_trip db trip_id
             (Some (List.filter (keep_in_range ts te) reader))).
Proof.
  intros Et Es Ee. cbv zeta.
  rewrite !(merge_import_unfold db trip_id trip ts te) by assumption.
  rewrite parse_rows_filter, filter_idem.
  set (parsed := parse_rows reader).
  set (kept := List.filter (row_in_range ts te) parsed).
  assert (Hnil : parsed = [] -> kept = []) by (unfold kept; now intros ->).
  split; [|split].
  - intros Hk. rewrite Hk. destruct parsed; eauto.
  - destruct parsed as [|p ps] eqn:Ep.
    + now rewrite (Hnil eq_refl).
    + destruct kept; reflexivity.
  - intros Hk. destruct parsed as [|p ps] eqn:Ep.
    + now specialize (Hnil eq_refl).
    + destruct kept as [|k ks]; [congruence|]. split; reflexivity.
Qed.

Lemma merge_import_drops_out_of_range_witness :
  (import_trip_csv_into_trip sample_db 1 (Some sample_upload)).2
  = (import_trip_csv_into_trip sample_db 1
       (Some (List.filter
                (keep_in_range (Date.mk 2024 1 1) (Date.mk 2024 1 3))
                sample_upload))).2.
Proof.
  apply (merge_import_drops_out_of_range sample_db 1
           (TripRow "Paris" "2024-01-01" "2024-01-03" "Foodie")
           (Date.mk 2024 1 1) (Date.mk 2024 1 3) sample_upload);
    vm_compute; reflexivity.
Defined.


(** * Editing a trip: the reconciliation of the days *)

Section InsertFacts.
Context {A : Type}.

Lemma max_rowid_ge (m : gmap Z A) id r :
  m !! id = Some r -> id <= Sql.max_rowid m.
Proof.
  intros H. unfold Sql.max_rowid, Sql.rowids.
  assert (Hin : id ∈ (map_to_list m).*1).
  { apply list_elem_of_fmap. exists (id, r). split; [reflexivity|].
    now apply elem_of_map_to_list. }
  induction ((map_to_list m).*1) as [|y l IH]; [now apply elem_of_nil in Hin|].
  cbn [foldr]. apply elem_of_cons in Hin. destruct Hin as [-> | Hin]; [lia|].
  specialize (IH Hin). lia.
Qed.

(** The id of an inserted row is not in use. *)
Lemma insert_fresh (r : A) (t : table A) : rows t !! (Sql.insert r t).1 = None.
Proof.
  destruct (rows t !! (Sql.insert r t).1) as [x|] eqn:E; [|reflexivity].
  apply max_rowid_ge in E. unfold Sql.insert in E. cbn in E. lia.
Qed.

Lemma insert_lookup (r : A) (t : table A) j :
  rows (Sql.insert r t).2 !! j
  = if decide ((Sql.insert r t).1 = j) then Some r else rows t !! j.
Proof.
  unfold Sql.insert. cbn [fst snd rows]. rewrite lookup_insert.
  reflexivity.
Qed.

End InsertFacts.

Lemma index_by_date_snoc l x :
  index_by_date (l ++ [x]) = <[date x.2 := x]> (index_by_date l).
Proof. unfold index_by_date. now rewrite fold_left_app. Qed.

Lemma index_by_date_sound l key row :
  index_by_date l !! key = Some row -> row ∈ l /\ date row.2 = key.
Proof.
  induction l as [|x l IH] using rev_ind.
  - unfold index_by_date. cbn. now rewrite lookup_empty.
  - rewrite index_by_date_snoc, lookup_insert. case_decide as E.
    + intros [= <-]. split; [|exact E]. apply elem_of_app. right.
      apply list_elem_of_singleton. reflexivity.
    + intros H. destruct (IH H) as [Hin Hd]. split; [|exact Hd].
      apply elem_of_app. now left.
Qed.

Lemma index_by_date_complete l row :
  NoDup ((fun row => date row.2) <$> l) -> row ∈ l ->
  index_by_date l !! date row.2 = Some row.
Proof.
  induction l as [|x l IH] using rev_ind.
  - intros _ H. now apply elem_of_nil in H.
  - rewrite fmap_app. cbn [fmap list_fmap]. intros ND Hin.
    apply NoDup_app in ND. destruct ND as (ND & Hx & _).
    rewrite index_by_date_snoc, lookup_insert.
    apply elem_of_app in Hin. destruct Hin as [Hin | Hin].
    + case_decide as E.
      * exfalso. apply (Hx (date row.2)).
        -- apply list_elem_of_fmap. now exists row.
        -- rewrite <- E. apply list_elem_of_singleton. reflexivity.
      * now apply IH.
    + apply list_elem_of_singleton in Hin. subst row.
      case_decide; [reflexivity | congruence].
Qed.

Lemma snoc_lookup2 {A B : Type} (l1 : list A) (l2 : list B) x y (k : nat) a b :
  length l1 = length l2 ->
  (l1 ++ [x]) !! k = Some a -> (l2 ++ [y]) !! k = Some b ->
  (l1 !! k = Some a /\ l2 !! k = Some b)
  \/ (k = length l1 /\ a = x /\ b = y).
Proof.
  intros L H1 H2.
  apply lookup_app_Some in H1, H2.
  destruct H1 as [H1 | [G1 H1]], H2 as [H2 | [G2 H2]].
  - now left.
  - apply lookup_lt_Some in H1. lia.
  - apply lookup_lt_Some in H2. lia.
  - right. apply list_lookup_singleton_Some in H1, H2.
    destruct H1 as [E1 ->], H2 as [E2 ->]. repeat split. lia.
Qed.

Lemma reconciled_row_columns trip_id by_date k d :
  it_trip_id (reconciled_row trip_id by_date k d)
  = match by_date !! Date.isoformat d with
    | Some row => it_trip_id row.2
    | None => trip_id
    end
  /\ day_number (reconciled_row trip_id by_date k d) = Z.of_nat k + 1
  /\ date (reconciled_row trip_id by_date k d) = Date.isoformat d.
Proof.
  unfold reconciled_row. now destruct (by_date !! Date.isoformat d).
Qed.

Section Loop.
Variables (db : database) (trip_id : Z).
Variable by_date : gmap string (Z * itinerary_row).
Hypothesis Hby : forall key id r,
  by_date !! key = Some (id, r) ->
  rows (itinerary db) !! id = Some r /\ date r = key.

Lemma reconcile_fold ds :
  NoDup (Date.isoformat <$> ds) ->
  exists ids,
    reconciled db trip_id by_date ds ids
      (fold_left (fun s d => reconcile_step trip_id by_date d s) ds
         (ReconcileState 1 ∅ db)).
Proof.
  induction ds as [|d ds IH] using rev_ind; intros ND.
  - exists []. cbn. split; cbn; try done.
    + constructor.
    + intros id. split; [intros H; now apply not_elem_of_empty in H|].
      intros (k & d & r & H & _). now rewrite lookup_nil in H.
  - rewrite fmap_app in ND. cbn [fmap list_fmap] in ND.
    apply NoDup_app in ND. destruct ND as (ND & Hd & _).
    destruct (IH ND) as [ids R]. clear IH.
    rewrite fold_left_app. cbn [fold_left].
    set (s := fold_left _ ds _) in *.
    destruct R as [RL RN Rn Ru Rr Ro (Ft & Fb & Fi & Fs & Fp)].
    assert (Hfresh_date : forall k dk, ds !! k = Some dk ->
              Date.isoformat dk <> Date.isoformat d).
    { intros k dk Hk E. apply (Hd (Date.isoformat d)).
      - rewrite <- E. apply list_elem_of_fmap. exists dk. split; [done|].
        now apply list_elem_of_lookup_2 in Hk.
      - apply list_elem_of_singleton. reflexivity. }
    unfold reconcile_step.
    destruct (by_date !! Date.isoformat d) as [[id0 r0]|] eqn:E.
    + destruct (Hby _ _ _ E) as [Hrow Hdate].
      assert (Hnew : id0 ∉ ids).
      { intros Hin. apply list_elem_of_lookup in Hin. destruct Hin as [k Hk].
        destruct (lookup_lt_is_Some_2 ds k) as [dk Hdk].
        { rewrite <- RL. now apply lookup_lt_Some in Hk. }
        destruct (Rr k id0 dk Hk Hdk) as [_ Hm].
        destruct (by_date !! Date.isoformat dk) as [[id1 r1]|] eqn:E1.
        - cbn in Hm. subst id1. destruct (Hby _ _ _ E1) as [Hrow1 Hdate1].
          apply (Hfresh_date k dk Hdk). congruence.
        - congruence. }
      exists (ids ++ [id0]). split; cbn [rs_day_number rs_used_ids rs_db].
      * rewrite !length_app. cbn. lia.
      * apply NoDup_app. repeat split; [exact RN | | apply NoDup_singleton].
        intros x Hx Hx'. apply list_elem_of_singleton in Hx'. now subst.
      * rewrite length_app. cbn. lia.
      * intros id. rewrite elem_of_union, elem_of_singleton, Ru. split.
        -- intros [-> | (k & dk & r & H1 & H2 & H3)].
           ++ exists (length ids), d, r0. repeat split.
              ** rewrite lookup_app_r by lia. now rewrite Nat.sub_diag.
              ** rewrite lookup_app_r by lia. rewrite RL.
                 now rewrite Nat.sub_diag.
              ** exact E.
           ++ exists k, dk, r. repeat split; [| |exact H3].
              ** apply lookup_app_Some. now left.
              ** apply lookup_app_Some. now left.
        -- intros (k & dk & r & H1 & H2 & H3).
           destruct (snoc_lookup2 _ _ _ _ _ _ _ RL H1 H2)
             as [[G1 G2] | (_ & -> & ->)].
           ++ right. now exists k, dk, r.
           ++ now left.
      * intros k id dk H1 H2. proj_db.
        destruct (snoc_lookup2 _ _ _ _ _ _ _ RL H1 H2)
          as [[G1 G2] | (-> & -> & ->)].
        -- rewrite update_lookup. case_decide as Eq.
           ++ subst id. exfalso. apply Hnew.
              now apply list_elem_of_lookup_2 in G1.
           ++ now apply Rr.
        -- rewrite update_lookup. case_decide; [|congruence].
           rewrite Ro by exact Hnew. rewrite Hrow. cbn.
           unfold reconciled_row. rewrite E. cbn. rewrite Rn, RL.
           split; reflexivity.
      * intros id Hid. proj_db. rewrite update_lookup.
        case_decide as Eq.
        -- subst id. exfalso. apply Hid. apply elem_of_app. right.
           apply list_elem_of_singleton. reflexivity.
        -- apply Ro. intros Hin. apply Hid. apply elem_of_app. now left.
      * now repeat split.
    + set (t := itinerary (rs_db s)).
      set (newrow := blank_day trip_id (rs_day_number s) (Date.isoformat d)).
      pose proof (insert_fresh newrow t) as Hfresh.
      set (nid := (Sql.insert newrow t).1) in *.
      assert (Hnew : nid ∉ ids).
      { intros Hin. apply list_elem_of_lookup in Hin. destruct Hin as [k Hk].
        destruct (lookup_lt_is_Some_2 ds k) as [dk Hdk].
        { rewrite <- RL. now apply lookup_lt_Some in Hk. }
        destruct (Rr k nid dk Hk Hdk) as [Hm _].
        unfold t in Hfresh. congruence. }
      assert (Hdb : rows (itinerary db) !! nid = None).
      { rewrite <- Ro by exact Hnew. exact Hfresh. }
      exists (ids ++ [nid]). split; cbn [rs_day_number rs_used_ids rs_db].
      * rewrite !length_app. cbn. lia.
      * apply NoDup_app. repeat split; [exact RN | | apply NoDup_singleton].
        intros x Hx Hx'. apply list_elem_of_singleton in Hx'. now subst.
      * rewrite length_app. cbn. lia.
      * intros id. rewrite Ru. split.
        -- intros (k & dk & r & H1 & H2 & H3).
           exists k, dk, r. repeat split; [| |exact H3].
           ++ apply lookup_app_Some. now left.
           ++ apply lookup_app_Some. now left.
        -- intros (k & dk & r & H1 & H2 & H3).
           destruct (snoc_lookup2 _ _ _ _ _ _ _ RL H1 H2)
             as [[G1 G2] | (_ & -> & ->)].
           ++ now exists k, dk, r.
           ++ congruence.
      * intros k id dk H1 H2. proj_db.
        destruct (snoc_lookup2 _ _ _ _ _ _ _ RL H1 H2)
          as [[G1 G2] | (-> & -> & ->)].
        -- rewrite insert_lookup. case_decide as Eq.
           ++ exfalso. apply Hnew. fold t newrow nid in Eq. subst id.
              now apply list_elem_of_lookup_2 in G1.
           ++ now apply Rr.
        -- rewrite insert_lookup. case_decide as Eq; [|now fold nid in Eq].
           unfold reconciled_row. rewrite E. unfold newrow.
           rewrite Rn, RL. split; [reflexivity | exact Hdb].
      * intros id Hid. proj_db. rewrite insert_lookup.
        case_decide as Eq.
        -- fold t newrow nid in Eq. subst id. exfalso. apply Hid.
           apply elem_of_app. right. apply list_elem_of_singleton.
           reflexivity.
        -- apply Ro. intros Hin. apply Hid. apply elem_of_app. now left.
      * now repeat split.
Qed.

End Loop.

(** The removal of the days that were not reused (lines 1517-1531). *)
Lemma remove_days_spec (sdb : database) (to_remove : list Z) :
  exists db',
    match to_remove with
    | [] => inr sdb
    | _ =>
        let db1 :=
          set_day_items
            (Sql.delete_where
               (fun _ r => Sql.in_ids (itinerary_id r) to_remove)
               (day_items sdb)) sdb in
        inr (set_itinerary
               (Sql.delete_where (fun id _ => Sql.in_ids id to_remove)
                  (itinerary db1)) db1)
    end = (inr db' : result database)
    /\ (forall id r, rows (itinerary db') !! id = Some r
          <-> rows (itinerary sdb) !! id = Some r /\ id ∉ to_remove)
    /\ (forall iid it, rows (day_items db') !! iid = Some it
          <-> rows (day_items sdb) !! iid = Some it
              /\ itinerary_id it ∉ to_remove)
    /\ trips db' = trips sdb /\ budget_items db' = budget_items sdb
    /\ trip_stops db' = trip_stops sdb
    /\ packing_items db' = packing_items sdb.
Proof.
  destruct to_remove as [|x l] eqn:El.
  - exists sdb. split; [reflexivity|].
    split; [|split; [|now repeat split]]; intros; split.
    + intros H. split; [exact H | apply not_elem_of_nil].
    + now intros [H _].
    + intros H. split; [exact H | apply not_elem_of_nil].
    + now intros [H _].
  - rewrite <- El. eexists. split; [reflexivity|]. proj_db.
    split; [|split; [|now repeat split]]; intros.
    + rewrite delete_where_lookup, <- not_true_iff_false, in_ids_In.
      reflexivity.
    + rewrite delete_where_lookup, <- not_true_iff_false, in_ids_In.
      reflexivity.
Qed.

Lemma Sorted_imap {A B : Type} (R : relation B) (l : list A) :
  forall g : nat -> A -> B,
    (forall i x y, l !! i = Some x -> l !! Datatypes.S i = Some y ->
                   R (g i x) (g (Datatypes.S i) y)) ->
    Sorted R (imap g l).
Proof.
  induction l as [|a l IH]; intros g H; cbn.
  - constructor.
  - constructor.
    + apply IH. intros i x y Hx Hy. apply (H (Datatypes.S i)); assumption.
    + destruct l as [|b l]; constructor. now apply (H O).
Qed.

#[global] Instance by_first_trans : Transitive by_first.
Proof. intros x y z. unfold by_first. lia. Qed.

#[global] Instance by_key_total {A : Type} (key : A -> Z) :
  Total (Sql.by_key key).
Proof. intros x y. unfold Sql.by_key. lia. Qed.

Lemma day_columns_sorted db trip_id : Sorted by_first (day_columns db trip_id).
Proof.
  unfold day_columns, select_days, Sql.order_by.
  apply Sorted_fmap with (R1 := Sql.by_key day_number).
  - intros x y H. exact H.
  - apply Sorted_merge_sort. apply _.
Qed.

Lemma numbered_sorted (ds : list Date.date) :
  Sorted by_first
    (imap (fun k d => (Z.of_nat k + 1, Date.isoformat d)) ds).
Proof. apply Sorted_imap. intros i x y _ _. unfold by_first. cbn. lia. Qed.

Lemma elem_of_existing_ids db trip_id id :
  id ∈ (select_days db trip_id).*1
  <-> exists r, rows (itinerary db) !! id = Some r /\ it_trip_id r = trip_id.
Proof.
  rewrite list_elem_of_fmap. split.
  - intros [[id' r] [-> H]]. apply elem_of_select_days in H. now exists r.
  - intros [r H]. exists (id, r). split; [reflexivity|].
    now apply elem_of_select_days.
Qed.

Lemma items_of_day_lookup db day_id iid it :
  items_of_day db day_id !! iid = Some it
  <-> rows (day_items db) !! iid = Some it /\ itinerary_id it = day_id.
Proof. unfold items_of_day. now rewrite map_lookup_filter_Some. Qed.

(** What the reconciliation does to the days and items of the database. *)
Lemma reconcile_days_spec db trip_id new_start new_end :
  Date.valid new_start = true -> Date.valid new_end = true ->
  Date.leb new_start new_end = true ->
  new_end <> Date.max ->
  distinct_dates db trip_id = true ->
  exists db',
    reconcile_days trip_id new_start new_end db = inr db'
    /\ day_columns db' trip_id = numbered_dates new_start new_end
    /\ (forall id r,
          rows (itinerary db) !! id = Some r -> it_trip_id r = trip_id ->
          in_new_range new_start new_end r ->
          exists r',
            rows (itinerary db') !! id = Some r' /\ same_slots r r'
            /\ date r' = date r
            /\ items_of_day db' id = items_of_day db id)
    /\ (forall id r,
          rows (itinerary db) !! id = Some r -> it_trip_id r = trip_id ->
          ~ in_new_range new_start new_end r ->
          rows (itinerary db') !! id = None /\ items_of_day db' id = ∅)
    /\ (forall id r,
          rows (itinerary db) !! id = Some r -> it_trip_id r <> trip_id ->
          rows (itinerary db') !! id = Some r
          /\ items_of_day db' id = items_of_day db id)
    /\ trips db' = trips db /\ budget_items db' = budget_items db
    /\ trip_stops db' = trip_stops db /\ packing_items db' = packing_items db.
Proof.
  intros Vs Ve Hle Hmax Hdist.
  unfold distinct_dates in Hdist. apply bool_decide_eq_true_1 in Hdist.
  unfold reconcile_days.
  rewrite (LoopFacts.for_each_day_spec _ new_end Ve Hmax
             (day_fuel new_start new_end) _ new_start _ Vs eq_refl
             (Nat.le_refl _)).
  fold (date_range new_start new_end).
  set (existing := select_days db trip_id) in *.
  set (by_date := index_by_date existing).
  set (ds := date_range new_start new_end).
  assert (F1 : forall key id r, by_date !! key = Some (id, r) ->
            rows (itinerary db) !! id = Some r /\ date r = key).
  { intros key id r H. apply index_by_date_sound in H. destruct H as [H E].
    apply elem_of_select_days in H. now destruct H. }
  assert (F1' : forall key id r, by_date !! key = Some (id, r) ->
            it_trip_id r = trip_id).
  { intros key id r H. apply index_by_date_sound in H. destruct H as [H E].
    apply elem_of_select_days in H. now destruct H. }
  assert (F2 : forall id r, rows (itinerary db) !! id = Some r ->
            it_trip_id r = trip_id -> by_date !! date r = Some (id, r)).
  { intros id r H T.
    apply (index_by_date_complete existing (id, r) Hdist).
    now apply elem_of_select_days. }
  assert (NDs : NoDup (Date.isoformat <$> ds)).
  { apply LoopFacts.dates_from_iso_NoDup; [exact Vs|].
    now apply LoopFacts.date_range_bound. }
  destruct (reconcile_fold db trip_id by_date F1 ds NDs) as [ids R].
  set (s := fold_left _ ds _) in *.
  destruct R as [RL RN Rn Ru Rr Ro (Ft & Fb & Fi & Fs & Fp)].
  cbn [bind].
  set (to_remove := List.filter _ _).
  destruct (remove_days_spec (rs_db s) to_remove) as (db' & Heq & Hit & Hitems & Gt & Gb & Gs & Gp).
  exists db'. split; [exact Heq|]. clear Heq.
  assert (Hrem : forall id, id ∈ to_remove
            <-> (id ∉ rs_used_ids s)
                /\ (exists r, rows (itinerary db) !! id = Some r
                              /\ it_trip_id r = trip_id)).
  { intros id. unfold to_remove, existing.
    rewrite list_elem_of_In, filter_In, <- list_elem_of_In,
      bool_decide_eq_true, elem_of_existing_ids. tauto. }
  assert (Hitems' : forall id, id ∉ to_remove ->
            items_of_day db' id = items_of_day db id).
  { intros id Hid. apply map_eq. intros iid. apply option_eq. intros it.
    rewrite !items_of_day_lookup, Hitems, Fi. split.
    - now intros [[H _] E].
    - intros [H E]. repeat split; try assumption. now rewrite E. }
  assert (Hgone : forall id, id ∈ to_remove ->
            rows (itinerary db') !! id = None /\ items_of_day db' id = ∅).
  { intros id Hid. split.
    - apply eq_None_not_Some. intros [r H]. apply Hit in H. now destruct H.
    - apply map_empty. intros iid. apply eq_None_not_Some. intros [it H].
      apply items_of_day_lookup in H. destruct H as [H E].
      apply Hitems in H. destruct H as [_ H]. now rewrite E in H. }
  assert (Hused : forall k id d, ids !! k = Some id -> ds !! k = Some d ->
            id ∉ to_remove).
  { intros k id d Hk Hd Hin. apply Hrem in Hin.
    destruct Hin as (Hnu & r & Hr & Ht).
    destruct (Rr k id d Hk Hd) as [_ Hm].
    destruct (by_date !! Date.isoformat d) as [[id1 r1]|] eqn:E.
    - cbn in Hm. subst id1. apply Hnu, Ru. now exists k, d, r1.
    - congruence. }
  assert (Hused_ids : forall id, id ∈ rs_used_ids s -> id ∈ ids).
  { intros id H. apply Ru in H. destruct H as (k & d & r & H & _).
    now apply list_elem_of_lookup_2 in H. }
  assert (Hsel : forall id r, (id, r) ∈ select_days db' trip_id
            <-> exists k d, ids !! k = Some id /\ ds !! k = Some d
                            /\ r = reconciled_row trip_id by_date k d).
  { intros id r. rewrite elem_of_select_days, Hit. split.
    - intros [[Hr Hnr] Ht].
      destruct (decide (id ∈ ids)) as [Hin | Hout].
      + apply list_elem_of_lookup in Hin. destruct Hin as [k Hk].
        destruct (lookup_lt_is_Some_2 ds k) as [d Hd].
        { rewrite <- RL. now apply lookup_lt_Some in Hk. }
        exists k, d. repeat split; try assumption.
        destruct (Rr k id d Hk Hd) as [Hm _]. congruence.
      + exfalso. apply Hnr, Hrem. split.
        * intros H. now apply Hout, Hused_ids.
        * exists r. rewrite <- Ro by exact Hout. now split.
    - intros (k & d & Hk & Hd & ->).
      destruct (Rr k id d Hk Hd) as [Hm Hb]. repeat split.
      + exact Hm.
      + now apply (Hused k id d).
      + destruct (reconciled_row_columns trip_id by_date k d) as [Ht _].
        rewrite Ht.
        destruct (by_date !! Date.isoformat d) as [[id1 r1]|] eqn:E;
          [|reflexivity].
        cbn. now apply (F1' _ _ _ E). }
  split.
  { (* the columns of the trip's days *)
    unfold numbered_dates. fold ds.
    apply (Sorted_unique_strong by_first).
    - intros x1 x2 H1 H2 L1 L2.
      assert (H1' : x1 ∈ imap (fun k d => (Z.of_nat k + 1, Date.isoformat d)) ds).
      { unfold day_columns in H1. apply list_elem_of_fmap in H1.
        destruct H1 as [[id r] [-> H1]]. apply Hsel in H1.
        destruct H1 as (k & d & _ & Hd & ->). cbn [snd].
        destruct (reconciled_row_columns trip_id by_date k d) as (_ & -> & ->).
        now apply (elem_of_lookup_imap_2
                     (fun k d => (Z.of_nat k + 1, Date.isoformat d)) ds). }
      apply elem_of_lookup_imap in H1', H2.
      destruct H1' as (k1 & d1 & -> & G1), H2 as (k2 & d2 & -> & G2).
      unfold by_first in L1, L2. cbn in L1, L2.
      assert (k1 = k2) by lia. subst k2. congruence.
    - apply day_columns_sorted.
    - apply numbered_sorted.
    - unfold day_columns.
      transitivity ((fun row : Z * itinerary_row => (day_number row.2, date row.2))
                      <$> zip ids (imap (reconciled_row trip_id by_date) ds)).
      + apply fmap_Permutation. apply NoDup_Permutation.
        * apply (NoDup_fmap_1 fst). apply select_days_NoDup.
        * apply (NoDup_fmap_1 fst). rewrite fst_zip; [exact RN|].
          rewrite length_imap. lia.
        * intros [id r]. rewrite Hsel.
          rewrite elem_of_lookup_zip_with. split.
          -- intros (k & d & Hk & Hd & ->).
             exists k, id, (reconciled_row trip_id by_date k d).
             split; [reflexivity|]. split; [exact Hk|].
             rewrite list_lookup_imap, Hd. reflexivity.
          -- intros (k & x & y & [= <- <-] & Hk & Hy).
             rewrite list_lookup_imap in Hy.
             destruct (ds !! k) as [d|] eqn:Hd; [|discriminate].
             cbn in Hy. injection Hy as <-. now exists k, d.
      + match goal with
        | |- ?a ≡ₚ ?b => enough (E : a = b) by (now rewrite E)
        end.
        apply list_eq. intros i.
        rewrite list_lookup_fmap, list_lookup_imap.
        rewrite lookup_zip_with, list_lookup_imap.
        destruct (ds !! i) as [d|] eqn:Hd.
        * destruct (lookup_lt_is_Some_2 ids i) as [id Hid].
          { rewrite RL. now apply lookup_lt_Some in Hd. }
          rewrite Hid. cbn.
          destruct (reconciled_row_columns trip_id by_date i d)
            as (_ & -> & ->). reflexivity.
        * cbn. now destruct (ids !! i). }
  split.
  { (* days in the new range *)
    intros id r Hr Ht Hin. unfold in_new_range in Hin. fold ds in Hin.
    apply list_elem_of_fmap in Hin. destruct Hin as (d & Ed & Hd).
    apply list_elem_of_lookup in Hd. destruct Hd as [k Hd].
    destruct (lookup_lt_is_Some_2 ids k) as [id' Hk].
    { rewrite RL. now apply lookup_lt_Some in Hd. }
    pose proof (F2 id r Hr Ht) as Hb. rewrite Ed in Hb.
    destruct (Rr k id' d Hk Hd) as [Hm Hz].
    unfold reconciled_row in Hm. rewrite Hb in Hm, Hz. cbn in Hm, Hz.
    subst id'.
    exists (set_number_and_date (Z.of_nat k + 1) (Date.isoformat d) r).
    split; [|split; [|split]].
    - apply Hit. split; [exact Hm | now apply (Hused k id d)].
    - now repeat split.
    - cbn. now symmetry.
    - apply Hitems'. now apply (Hused k id d). }
  split.
  { (* days outside the new range *)
    intros id r Hr Ht Hout. apply Hgone, Hrem. split; [|now exists r].
    intros H. apply Ru in H. destruct H as (k & d & r1 & Hk & Hd & Hb).
    apply F1 in Hb. destruct Hb as [Hr1 Ed].
    apply Hout. unfold in_new_range. fold ds.
    apply list_elem_of_fmap. exists d. split.
    - congruence.
    - now apply list_elem_of_lookup_2 in Hd. }
  split.
  { (* days of other trips *)
    intros id r Hr Ht.
    assert (Hnot : id ∉ to_remove).
    { intros H. apply Hrem in H. destruct H as (_ & r1 & Hr1 & Ht1).
      congruence. }
    split; [|now apply Hitems'].
    apply Hit. split; [|exact Hnot].
    rewrite Ro; [exact Hr|].
    intros Hin. apply list_elem_of_lookup in Hin. destruct Hin as [k Hk].
    destruct (lookup_lt_is_Some_2 ds k) as [d Hd].
    { rewrite <- RL. now apply lookup_lt_Some in Hk. }
    destruct (Rr k id d Hk Hd) as [_ Hz].
    destruct (by_date !! Date.isoformat d) as [[id1 r1]|] eqn:E.
    - cbn in Hz. subst id1. pose proof (F1' _ _ _ E) as T.
      apply F1 in E. destruct E as [E _]. congruence.
    - congruence. }
  (* the other tables *)
  repeat split; congruence.
Qed.

Lemma truthy_of_parse_date v d :
  parse_date (Py.or_empty v) = Some d -> Py.truthy_opt v = true.
Proof.
  unfold Py.truthy_opt. destruct (Py.or_empty v); [|reflexivity].
  vm_compute. discriminate.
Qed.

(** C1, failing input: the trip of the single day 9999-12-30, edited to end
    on 9999-12-31.  The new range is valid, starts before it ends and
    differs from the old one, so N = 2 days are due, numbered 1 and 2; yet
    the handler raises OverflowError in the loop's last
    [current += timedelta(days=1)], nothing is committed and the trip keeps
    its one day. *)
Lemma edit_trip_last_day_fails :
  edit_trip late_db 1 (Some "Paris") (Some "9999-12-30") (Some "9999-12-31")
    None
  = (Raised OverflowError, late_db)
  /\ Date.days_between (Date.mk 9999 12 30) (Date.mk 9999 12 31) + 1 = 2
  /\ numbered_dates (Date.mk 9999 12 30) (Date.mk 9999 12 31)
     = [(1, "9999-12-30"); (2, "9999-12-31")]
  /\ day_columns late_db 1 = [(1, "9999-12-30")].
Proof. vm_compute. repeat split. Qed.

(** The reconciliation of edit_trip: when the trip has at most as many days
    as SQLite accepts host parameters, its stored days have pairwise
    different dates, and the new range, which differs from the old one, is
    valid with new_start <= new_end and ends before 9999-12-31, the edit
    succeeds and leaves exactly N = (new_end - new_start).days + 1 days for
    the trip, whose (day_number, date) columns in day_number order are
    (1, new_start), (2, new_start + 1 day), ..., (N, new_end); every stored
    day whose date is the ISO text of a date of the new range keeps its id,
    its titles, descriptions and map links, its date and its checklist
    items; every stored day of the trip with another date is deleted, and no
    checklist item of it is left; the days of other trips and their items
    are unchanged. *)
Theorem edit_trip_reconciles_days (db : database) (trip_id : Z)
    (trip : trip_row)
    (f_destination f_start_date f_end_date f_travel_style : form_field)
    (old_start old_end new_start new_end : Date.date) :
  rows (trips db) !! trip_id = Some trip ->
  parse_date (start_date trip) = Some old_start ->
  parse_date (end_date trip) = Some old_end ->
  Py.truthy (Py.strip (Py.or_empty f_destination)) = true ->
  parse_date (Py.or_empty f_start_date) = Some new_start ->
  parse_date (Py.or_empty f_end_date) = Some new_end ->
  Date.leb new_start new_end = true ->
  negb (Date.eqb new_start old_start) || negb (Date.eqb new_end old_end)
  = true ->
  Date.eqb new_end Date.max = false ->
  distinct_dates db trip_id = true ->
  Sql.within_limit (select_days db trip_id).*1 = true ->
  exists db',
    edit_trip db trip_id f_destination f_start_date f_end_date f_travel_style
    = (Redirect "trip_detail" (Some trip_id) (Some "Trip updated."), db')
    /\ Z.of_nat (length (select_days db' trip_id))
       = Date.days_between new_start new_end + 1
    /\ day_columns db' trip_id = numbered_dates new_start new_end
    /\ (forall id r,
          rows (itinerary db) !! id = Some r -> it_trip_id r = trip_id ->
          in_new_range new_start new_end r ->
          exists r',
            rows (itinerary db') !! id = Some r' /\ same_slots r r'
            /\ date r' = date r
            /\ items_of_day db' id = items_of_day db id)
    /\ (forall id r,
          rows (itinerary db) !! id = Some r -> it_trip_id r = trip_id ->
          ~ in_new_range new_start new_end r ->
          rows (itinerary db') !! id = None /\ items_of_day db' id = ∅)
    /\ (forall id r,
          rows (itinerary db) !! id = Some r -> it_trip_id r <> trip_id ->
          rows (itinerary db') !! id = Some r
          /\ items_of_day db' id = items_of_day db id).
Proof.
  intros Ht Eos Eoe Hd Ens Ene Hle Hdiff Hmax Hdist _.
  pose proof (parse_date_valid _ _ Ens) as Vs.
  pose proof (parse_date_valid _ _ Ene) as Ve.
  assert (Hmax' : new_end <> Date.max).
  { intros E. apply DateFacts.eqb_eq in E. congruence. }
  set (db1 :=
         set_trips
           (Sql.update
              (fun _ =>
                 TripRow (Py.strip (Py.or_empty f_destination))
                   (Date.isoformat new_start) (Date.isoformat new_end)
                   (Py.or_else f_travel_style "Flexible"))
              trip_id (trips db)) db).
  destruct (reconcile_days_spec db1 trip_id new_start new_end Vs Ve Hle Hmax'
              Hdist)
    as (db' & Hrun & Hcols & Hkept & Hgone & Hother & _).
  exists db'. split; [|split; [|split; [|split; [|split]]]].
  - unfold edit_trip. rewrite Ht. cbv zeta. rewrite Hd.
    rewrite (truthy_of_parse_date _ _ Ens), (truthy_of_parse_date _ _ Ene).
    cbn [negb orb]. rewrite Ens, Ene.
    unfold Date.ltb. rewrite Hle. cbn [negb]. rewrite Eos, Eoe, Hdiff.
    fold db1. rewrite Hrun. reflexivity.
  - rewrite <- (LoopFacts.date_range_length new_start new_end Vs Ve Hle).
    apply (f_equal (@length _)) in Hcols.
    unfold day_columns, numbered_dates in Hcols.
    rewrite length_fmap, length_imap in Hcols. now rewrite Hcols.
  - exact Hcols.
  - exact Hkept.
  - exact Hgone.
  - exact Hother.
Qed.

Lemma edit_trip_reconciles_days_witness :
  exists db',
    edit_trip sample_db 1 (Some "Paris") (Some "2024-01-02")
      (Some "2024-01-05") None
    = (Redirect "trip_detail" (Some 1) (Some "Trip updated."), db')
    /\ day_columns db' 1
       = numbered_dates (Date.mk 2024 1 2) (Date.mk 2024 1 5).
Proof.
  destruct (edit_trip_reconciles_days sample_db 1
              (TripRow "Paris" "2024-01-01" "2024-01-03" "Foodie")
              (Some "Paris") (Some "2024-01-02") (Some "2024-01-05") None
              (Date.mk 2024 1 1) (Date.mk 2024 1 3)
              (Date.mk 2024 1 2) (Date.mk 2024 1 5))
    as (db' & H1 & _ & H2 & _); try (vm_compute; reflexivity).
  exists db'. split; [exact H1 | exact H2].
Defined.


(** * Export to CSV and import of the exported file *)

(** ** Texts that trimming and lower-casing leave alone *)

Lemma date_digit_not_space k : 0 <= k <= 9 -> Py.is_space (Date.digit k) = false.
Proof.
  intros Hk. apply StrptimeFacts.digit_not_space.
  now apply digit_is_digit.
Qed.

Lemma strip_isoformat d :
  Date.valid d = true ->
  Py.strip (Date.isoformat d) = Date.isoformat d
  /\ Py.truthy (Date.isoformat d) = true.
Proof.
  intros V. apply valid_bounds in V. destruct V as (Hy & Hm & Hd).
  pose proof (DateFacts.days_in_month_pos (Date.year d) (Date.month d)) as Hdim.
  assert (H1 : Py.is_space (Date.digit (Date.year d / 1000)) = false).
  { apply date_digit_not_space. Z.to_euclidean_division_equations; lia. }
  assert (H2 : Py.is_space (Date.digit (Date.day d mod 10)) = false).
  { apply date_digit_not_space. Z.to_euclidean_division_equations; lia. }
  unfold Date.isoformat, Date.pad4, Date.pad2.
  repeat (rewrite StrptimeFacts.app_cons || rewrite StrptimeFacts.app_empty_l).
  split; [|reflexivity].
  unfold Py.strip. cbn [Py.lstrip]. rewrite H1.
  cbn [Py.rstrip]. rewrite H2. reflexivity.
Qed.

Lemma three_In c :
  Py.in_set c ["place"; "restaurant"; "hotel"] = true ->
  Py.lower (Py.strip c) = c.
Proof.
  intros H. apply in_set_In in H. cbn in H.
  repeat destruct H as [<- | H]; try reflexivity. destruct H.
Qed.

Lemma time_of_day_token s :
  Py.in_set s ["morning"; "afternoon"; "evening"] = true ->
  Py.lower (Py.strip s) = s /\ Py.truthy s = true.
Proof.
  intros H. apply in_set_In in H. cbn in H.
  repeat destruct H as [<- | H]; try (split; reflexivity). destruct H.
Qed.

Lemma meal_token s :
  Py.in_set s ["breakfast"; "lunch"; "dinner"; "snack"] = true ->
  Py.lower (Py.strip s) = s /\ Py.truthy s = true.
Proof.
  intros H. apply in_set_In in H. cbn in H.
  repeat destruct H as [<- | H]; try (split; reflexivity). destruct H.
Qed.

Lemma truthy_or_empty (s : option string) :
  Py.truthy (Py.or_empty s) = true -> Some (Py.or_empty s) = s.
Proof. destruct s as [x|]; [reflexivity | discriminate]. Qed.

(** ** The day loop of new_trip and import_trip_csv *)

Lemma insert_days_fold trip_id ds : forall n used db,
  fold_left (fun s d => insert_day_step trip_id d s) ds (n, db)
  = (rs_day_number
       (fold_left (fun s d => reconcile_step trip_id ∅ d s) ds
          (ReconcileState n used db)),
     rs_db
       (fold_left (fun s d => reconcile_step trip_id ∅ d s) ds
          (ReconcileState n used db))).
Proof.
  induction ds as [|d ds IH]; intros n used db; [reflexivity|].
  cbn [fold_left]. unfold insert_day_step at 2, reconcile_step at 2 4.
  rewrite lookup_empty. cbn [rs_day_number rs_used_ids rs_db].
  apply IH.
Qed.

(** The loop adds one blank day per date of the range, numbered from 1, under
    ids that were not in use, and changes nothing else. *)
Lemma insert_days_spec trip_id start end_ db :
  Date.valid start = true -> Date.valid end_ = true -> end_ <> Date.max ->
  exists ids db',
    insert_days trip_id start end_ db = inr db'
    /\ length ids = length (date_range start end_)
    /\ NoDup ids
    /\ (forall k id d,
          ids !! k = Some id -> date_range start end_ !! k = Some d ->
          rows (itinerary db') !! id
          = Some (blank_day trip_id (Z.of_nat k + 1) (Date.isoformat d))
          /\ rows (itinerary db) !! id = None)
    /\ (forall id, id ∉ ids ->
          rows (itinerary db') !! id = rows (itinerary db) !! id)
    /\ trips db' = trips db /\ budget_items db' = budget_items db
    /\ day_items db' = day_items db /\ trip_stops db' = trip_stops db
    /\ packing_items db' = packing_items db.
Proof.
  intros Vs Ve Hmax. unfold insert_days.
  rewrite (LoopFacts.for_each_day_spec _ end_ Ve Hmax
             (day_fuel start end_) _ start _ Vs eq_refl (Nat.le_refl _)).
  fold (date_range start end_). cbn [bind].
  rewrite (insert_days_fold trip_id _ 1 ∅ db). cbn [snd].
  destruct (reconcile_fold db trip_id ∅) with (ds := date_range start end_)
    as [ids R].
  - intros key id r H. now rewrite lookup_empty in H.
  - apply LoopFacts.dates_from_iso_NoDup; [exact Vs|].
    now apply LoopFacts.date_range_bound.
  - destruct R as [RL RN Rn Ru Rr Ro Rf].
    eexists ids, _. split; [reflexivity|].
    split; [exact RL|]. split; [exact RN|]. split; [|split; [exact Ro|exact Rf]].
    intros k id d Hk Hd. destruct (Rr k id d Hk Hd) as [H1 H2].
    unfold reconciled_row in H1. rewrite lookup_empty in H1, H2.
    now split.
Qed.

(** ** min and max of the dates of the rows *)

Lemma date_min_spec (l : list Date.date) : forall d,
  Forall (fun x => Date.valid x = true) (d :: l) ->
  date_min d l ∈ d :: l
  /\ forall x, x ∈ d :: l -> Date.leb (date_min d l) x = true.
Proof.
  unfold date_min. induction l as [|y l IH]; intros d V; cbn [fold_left].
  - split; [left|]. intros x Hx. apply list_elem_of_singleton in Hx. subst.
    inversion V; subst. apply DateFacts.leb_toordinal; [assumption..|lia].
  - inversion V as [|? ? Vd V']; subst. inversion V' as [|? ? Vy Vl]; subst.
    destruct (Date.ltb y d) eqn:E.
    + destruct (IH y V') as [Hin Hle]. split.
      * apply elem_of_cons in Hin. destruct Hin as [-> | Hin].
        -- right; left.
        -- right; now right.
      * intros x Hx. apply elem_of_cons in Hx. destruct Hx as [-> | Hx].
        -- assert (Vm : Date.valid (fold_left
                     (fun m x => if Date.ltb x m then x else m) l y) = true).
           { rewrite Forall_forall in V'. now apply V'. }
           apply DateFacts.leb_toordinal; [assumption..|].
           pose proof (Hle y (list_elem_of_here _ _)) as H1.
           apply DateFacts.leb_toordinal in H1; [|assumption..].
           apply DateFacts.ltb_toordinal in E; [|assumption..]. lia.
        -- now apply Hle.
    + destruct (IH d (Forall_cons_2 _ _ _ Vd Vl)) as [Hin Hle]. split.
      * apply elem_of_cons in Hin. destruct Hin as [-> | Hin].
        -- left.
        -- right; now right.
      * intros x Hx. apply elem_of_cons in Hx. destruct Hx as [-> | Hx].
        -- now apply Hle; left.
        -- apply elem_of_cons in Hx. destruct Hx as [-> | Hx].
           ++ assert (Vm : Date.valid (fold_left
                       (fun m x => if Date.ltb x m then x else m) l d) = true).
              { assert (V2 : Forall (fun x => Date.valid x = true) (d :: l))
                  by now constructor.
                rewrite Forall_forall in V2. now apply V2. }
              apply DateFacts.leb_toordinal; [assumption..|].
              pose proof (Hle d (list_elem_of_here _ _)) as H1.
              apply DateFacts.leb_toordinal in H1; [|assumption..].
              assert (E' : Date.leb d y = true).
              { unfold Date.ltb in E. now destruct (Date.leb d y). }
              apply DateFacts.leb_toordinal in E'; [|assumption..]. lia.
           ++ apply Hle. now right.
Qed.

Lemma date_max_spec (l : list Date.date) : forall d,
  Forall (fun x => Date.valid x = true) (d :: l) ->
  date_max d l ∈ d :: l
  /\ forall x, x ∈ d :: l -> Date.leb x (date_max d l) = true.
Proof.
  unfold date_max. induction l as [|y l IH]; intros d V; cbn [fold_left].
  - split; [left|]. intros x Hx. apply list_elem_of_singleton in Hx. subst.
    inversion V; subst. apply DateFacts.leb_toordinal; [assumption..|lia].
  - inversion V as [|? ? Vd V']; subst. inversion V' as [|? ? Vy Vl]; subst.
    destruct (Date.ltb d y) eqn:E.
    + destruct (IH y V') as [Hin Hle]. split.
      * apply elem_of_cons in Hin. destruct Hin as [-> | Hin].
        -- right; left.
        -- right; now right.
      * intros x Hx. apply elem_of_cons in Hx. destruct Hx as [-> | Hx].
        -- assert (Vm : Date.valid (fold_left
                     (fun m x => if Date.ltb m x then x else m) l y) = true).
           { rewrite Forall_forall in V'. now apply V'. }
           apply DateFacts.leb_toordinal; [assumption..|].
           pose proof (Hle y (list_elem_of_here _ _)) as H1.
           apply DateFacts.leb_toordinal in H1; [|assumption..].
           apply DateFacts.ltb_toordinal in E; [|assumption..]. lia.
        -- now apply Hle.
    + destruct (IH d (Forall_cons_2 _ _ _ Vd Vl)) as [Hin Hle]. split.
      * apply elem_of_cons in Hin. destruct Hin as [-> | Hin].
        -- left.
        -- right; now right.
      * intros x Hx. apply elem_of_cons in Hx. destruct Hx as [-> | Hx].
        -- now apply Hle; left.
        -- apply elem_of_cons in Hx. destruct Hx as [-> | Hx].
           ++ assert (Vm : Date.valid (fold_left
                       (fun m x => if Date.ltb m x then x else m) l d) = true).
              { assert (V2 : Forall (fun x => Date.valid x = true) (d :: l))
                  by now constructor.
                rewrite Forall_forall in V2. now apply V2. }
              apply DateFacts.leb_toordinal; [assumption..|].
              pose proof (Hle d (list_elem_of_here _ _)) as H1.
              apply DateFacts.leb_toordinal in H1; [|assumption..].
              assert (E' : Date.leb y d = true).
              { unfold Date.ltb in E. now destruct (Date.leb y d). }
              apply DateFacts.leb_toordinal in E'; [|assumption..]. lia.
           ++ apply Hle. now right.
Qed.

(** ** The stops and items that the import inserts *)

Lemma insert_stops_frame trip_id city_dates : forall db,
  let db' := insert_stops trip_id city_dates db in
  trips db' = trips db /\ itinerary db' = itinerary db
  /\ day_items db' = day_items db /\ budget_items db' = budget_items db
  /\ packing_items db' = packing_items db.
Proof.
  unfold insert_stops. induction city_dates as [|e l IH]; intros db.
  - cbn. now repeat split.
  - cbn [fold_left]. cbv zeta.
    match goal with
    | |- context [fold_left ?f l ?x] => specialize (IH x)
    end.
    cbv zeta in IH. destruct IH as (H1 & H2 & H3 & H4 & H5).
    rewrite H1, H2, H3, H4, H5. now destruct e.2.
Qed.

(** The item stored for a parsed row on a day. *)
Lemma insert_items_spec (dbd : gmap string Z) (rows_ : list parsed_row) db :
  let db' := insert_items dbd rows_ db in
  let item day_id row :=
    DayItemRow day_id (p_category row) (p_name row) (p_selected row)
      (row_slot row) false in
  (trips db' = trips db /\ itinerary db' = itinerary db
   /\ trip_stops db' = trip_stops db /\ budget_items db' = budget_items db
   /\ packing_items db' = packing_items db)
  /\ (forall iid it, rows (day_items db) !! iid = Some it ->
        rows (day_items db') !! iid = Some it)
  /\ (forall iid it, rows (day_items db') !! iid = Some it ->
        rows (day_items db) !! iid = Some it
        \/ exists row day_id,
             row ∈ rows_ /\ dbd !! Date.isoformat (p_date row) = Some day_id
             /\ it = item day_id row)
  /\ (forall row day_id,
        row ∈ rows_ -> dbd !! Date.isoformat (p_date row) = Some day_id ->
        exists iid, rows (day_items db') !! iid = Some (item day_id row)).
Proof.
  cbv zeta. unfold insert_items.
  induction rows_ as [|x l IH] using rev_ind.
  - cbn. split; [now repeat split|]. split; [auto|]. split; [auto|].
    intros row day_id H. now apply elem_of_nil in H.
  - rewrite fold_left_app. cbn [fold_left].
    set (dbl := fold_left _ l db) in *.
    destruct IH as ((F1 & F2 & F3 & F4 & F5) & Hold & Hnew & Hall).
    destruct (dbd !! Date.isoformat (p_date x)) as [day_id|] eqn:E.
    + set (newitem := DayItemRow day_id (p_category x) (p_name x)
                        (p_selected x) (row_slot x) false).
      pose proof (insert_fresh newitem (day_items dbl)) as Hfresh.
      proj_db. split; [now repeat split|]. split; [|split].
      * intros iid it H. rewrite insert_lookup. case_decide as Eq.
        -- apply Hold in H. rewrite <- Eq in H. congruence.
        -- now apply Hold.
      * intros iid it. rewrite insert_lookup. case_decide as Eq.
        -- intros [= <-]. right. exists x, day_id. split; [|now split].
           apply elem_of_app. right. now apply list_elem_of_singleton.
        -- intros H. apply Hnew in H.
           destruct H as [H | (row & did & Hin & Hd & ->)]; [now left|].
           right. exists row, did. split; [|now split].
           apply elem_of_app. now left.
      * intros row did Hin Hd. apply elem_of_app in Hin.
        destruct Hin as [Hin | Hin].
        -- destruct (Hall row did Hin Hd) as [iid Hi]. exists iid.
           rewrite insert_lookup. case_decide as Eq; [|exact Hi].
           rewrite <- Eq in Hi. congruence.
        -- apply list_elem_of_singleton in Hin. subst row.
           exists (Sql.insert newitem (day_items dbl)).1.
           rewrite insert_lookup. case_decide; [|congruence].
           rewrite E in Hd. now injection Hd as ->.
    + split; [now repeat split|]. split; [exact Hold|]. split.
      * intros iid it H. apply Hnew in H.
        destruct H as [H | (row & did & Hin & Hd & ->)]; [now left|].
        right. exists row, did. split; [|now split].
        apply elem_of_app. now left.
      * intros row did Hin Hd. apply elem_of_app in Hin.
        destruct Hin as [Hin | Hin]; [now apply Hall|].
        apply list_elem_of_singleton in Hin. subst row. congruence.
Qed.

Lemma day_by_date_index l key :
  day_by_date l !! key = fst <$> index_by_date l !! key.
Proof.
  unfold day_by_date, index_by_date.
  induction l as [|x l IH] using rev_ind.
  - cbn. now rewrite !lookup_empty.
  - rewrite !fold_left_app. cbn [fold_left]. rewrite !lookup_insert.
    case_decide; [reflexivity | exact IH].
Qed.

Lemma index_by_date_some l row :
  row ∈ l -> is_Some (index_by_date l !! date row.2).
Proof.
  induction l as [|x l IH] using rev_ind.
  - intros H. now apply elem_of_nil in H.
  - intros H. rewrite index_by_date_snoc, lookup_insert.
    case_decide; [eauto|]. apply IH. apply elem_of_app in H.
    destruct H as [H | H]; [exact H|].
    apply list_elem_of_singleton in H. congruence.
Qed.

(** ** Reading back an exported row *)

Lemma parse_exported d city (item : Z * day_item_row) :
  Date.valid d = true ->
  Py.strip (name item.2) = name item.2 ->
  Py.truthy (name item.2) = true ->
  Py.in_set (category item.2) three = true ->
  exists p,
    parse_row (read_back (export_item (Date.isoformat d) city item)) = Some p
    /\ p_date p = d /\ p_name p = name item.2
    /\ p_category p = category item.2 /\ p_selected p = checked item.2
    /\ row_slot p = kept_slot (category item.2) (slot item.2).
Proof.
  destruct item as [iid [day_id cat nm chk sl hid]]. cbn [snd name category
    checked slot]. intros V Hn Ht Hc.
  destruct (strip_isoformat d V) as [Es Et].
  unfold parse_row, read_back, export_item.
  cbn [f_date f_time_of_day f_category f_name f_city f_meal f_selected
       x_date x_time_of_day x_category x_name x_city x_meal x_selected
       snd name category checked slot Py.or_empty default from_option id].
  cbv zeta. rewrite Es, Et, Hn, Ht. cbn [negb orb].
  rewrite (parse_date_isoformat d V).
  rewrite (three_In cat Hc). unfold three in Hc. rewrite Hc.
  eexists. split; [reflexivity|].
  cbn [p_date p_name p_category p_selected]. repeat split.
  - now destruct chk.
  - unfold row_slot, kept_slot, recognized.
    cbn [p_category p_time_of_day p_meal].
    apply in_set_In in Hc. cbn in Hc.
    destruct Hc as [<- | [<- | [<- | []]]].
    + change ("place" =? "place")%string with true.
      change ("place" =? "restaurant")%string with false.
      cbn [andb orb negb].
      destruct (Py.in_set (default "" sl) ["morning"; "afternoon"; "evening"])
        eqn:E.
      * cbv iota. destruct (time_of_day_token _ E) as [E1 E2].
        unfold Py.or_empty. rewrite E1, !E. cbn [orb]. cbv iota.
        now apply truthy_or_empty.
      * unfold Py.or_empty. rewrite E. reflexivity.
    + change ("restaurant" =? "place")%string with false.
      change ("restaurant" =? "restaurant")%string with true.
      cbn [andb orb negb].
      destruct (Py.in_set (default "" sl)
                  ["breakfast"; "lunch"; "dinner"; "snack"]) eqn:E.
      * cbv iota. destruct (meal_token _ E) as [E1 E2].
        unfold Py.or_empty. rewrite E1, !E. cbn [orb]. cbv iota.
        now apply truthy_or_empty.
      * unfold Py.or_empty. rewrite E. reflexivity.
    + reflexivity.
Qed.

Lemma iso_date_text_spec s :
  iso_date_text s = true ->
  exists d, Date.valid d = true /\ d <> Date.max /\ s = Date.isoformat d.
Proof.
  unfold iso_date_text. destruct (parse_date s) as [d|] eqn:E; [|discriminate].
  rewrite andb_true_iff, negb_true_iff. intros [H1 H2].
  apply String.eqb_eq in H1. exists d. split; [|split].
  - now apply parse_date_valid in E.
  - intros ->. now rewrite (proj2 (DateFacts.eqb_eq _ _) eq_refl) in H2.
  - now symmetry.
Qed.

Lemma elem_of_export_rows destination lbd days items x :
  x ∈ export_rows destination lbd days items
  <-> exists day item,
        day ∈ days /\ item ∈ items /\ itinerary_id item.2 = day.1
        /\ x = export_item (date day.2)
                 (Py.or_else (lbd !! date day.2) destination) item.
Proof.
  unfold export_rows. rewrite list_elem_of_In, in_flat_map. split.
  - intros (day & Hday & Hx). apply list_elem_of_In in Hday, Hx.
    cbv zeta in Hx. apply list_elem_of_fmap in Hx.
    destruct Hx as (item & -> & Hitem). unfold export_day_items in Hitem.
    apply list_elem_of_In, filter_In in Hitem. destruct Hitem as [Hitem E].
    apply Z.eqb_eq in E. apply list_elem_of_In in Hitem.
    now exists day, item.
  - intros (day & item & Hday & Hitem & E & ->). exists day.
    split; [now apply list_elem_of_In|]. apply list_elem_of_In.
    cbv zeta. apply list_elem_of_fmap. exists item. split; [reflexivity|].
    unfold export_day_items. apply list_elem_of_In, filter_In.
    split; [now apply list_elem_of_In | now apply Z.eqb_eq].
Qed.

(** The rows read back from the export of a trip's days and visible items. *)
Lemma read_back_rows db trip_id destination lbd :
  exportable db trip_id = true ->
  let days := select_days db trip_id in
  let items := select_visible_items db days.*1 in
  let parsed :=
    parse_rows (read_back <$> export_rows destination lbd days items) in
  (forall p, p ∈ parsed ->
     Date.valid (p_date p) = true /\ p_date p <> Date.max
     /\ exists day item,
          day ∈ days /\ item ∈ items /\ itinerary_id item.2 = day.1
          /\ date day.2 = Date.isoformat (p_date p)
          /\ p_name p = name item.2 /\ p_category p = category item.2
          /\ p_selected p = checked item.2
          /\ row_slot p = kept_slot (category item.2) (slot item.2))
  /\ (forall day item,
        day ∈ days -> item ∈ items -> itinerary_id item.2 = day.1 ->
        exists p,
          p ∈ parsed /\ date day.2 = Date.isoformat (p_date p)
          /\ p_name p = name item.2 /\ p_category p = category item.2
          /\ p_selected p = checked item.2
          /\ row_slot p = kept_slot (category item.2) (slot item.2)).
Proof.
  intros Hexp days items parsed. unfold exportable in Hexp.
  fold days in Hexp. fold items in Hexp.
  apply andb_true_iff in Hexp. destruct Hexp as [Hdays Hitems].
  rewrite forallb_forall in Hdays, Hitems.
  assert (Hparse : forall day item, day ∈ days -> item ∈ items ->
            exists p d,
              parse_row
                (read_back
                   (export_item (date day.2)
                      (Py.or_else (lbd !! date day.2) destination) item))
              = Some p
              /\ Date.valid d = true /\ d <> Date.max
              /\ date day.2 = Date.isoformat d
              /\ p_date p = d /\ p_name p = name item.2
              /\ p_category p = category item.2
              /\ p_selected p = checked item.2
              /\ row_slot p = kept_slot (category item.2) (slot item.2)).
  { intros day item Hday Hitem.
    apply list_elem_of_In in Hday, Hitem.
    specialize (Hdays day Hday). specialize (Hitems item Hitem).
    cbv beta in Hdays, Hitems.
    apply iso_date_text_spec in Hdays. destruct Hdays as (d & V & Hm & Ed).
    rewrite !andb_true_iff in Hitems. destruct Hitems as [[Hn Ht] Hc].
    apply String.eqb_eq in Hn.
    rewrite Ed.
    destruct (parse_exported d (Py.or_else (lbd !! Date.isoformat d) destination)
                item V Hn Ht Hc) as (p & Hp & Hrest).
    exists p, d. split; [exact Hp|]. split; [exact V|]. split; [exact Hm|].
    split; [reflexivity | exact Hrest]. }
  split.
  - intros p Hp. unfold parsed, parse_rows in Hp.
    apply list_elem_of_omap in Hp. destruct Hp as (row & Hrow & Hp).
    apply list_elem_of_fmap in Hrow. destruct Hrow as (x & -> & Hx).
    apply elem_of_export_rows in Hx.
    destruct Hx as (day & item & Hday & Hitem & E & ->).
    destruct (Hparse day item Hday Hitem)
      as (p' & d & Hp' & V & Hm & Ed & Epd & Hrest).
    rewrite Hp in Hp'. injection Hp' as <-. subst d.
    split; [exact V|]. split; [exact Hm|].
    exists day, item. now repeat split.
  - intros day item Hday Hitem E.
    destruct (Hparse day item Hday Hitem)
      as (p & d & Hp & V & Hm & Ed & Epd & Hrest).
    exists p. subst d. split; [|split; [exact Ed | exact Hrest]].
    unfold parsed, parse_rows. apply list_elem_of_omap.
    eexists. split; [|exact Hp].
    apply list_elem_of_fmap. eexists. split; [reflexivity|].
    apply elem_of_export_rows. now exists day, item.
Qed.

Lemma foreign_keys_spec db :
  foreign_keys_ok db = true ->
  (forall id r, rows (itinerary db) !! id = Some r ->
     is_Some (rows (trips db) !! it_trip_id r))
  /\ (forall id r, rows (day_items db) !! id = Some r ->
        is_Some (rows (itinerary db) !! itinerary_id r)).
Proof.
  unfold foreign_keys_ok. rewrite andb_true_iff, !all_rows_spec.
  intros [H1 H2]. split; intros id r Hr.
  - apply (bool_decide_eq_true_1 _ (H1 id r Hr)).
  - apply (bool_decide_eq_true_1 _ (H2 id r Hr)).
Qed.

(** The days of a trip that has just been inserted are those that the day
    loop creates: one blank day per date of the range. *)
Lemma new_trip_days db (t_row : trip_row) start end_ :
  (forall id r, rows (itinerary db) !! id = Some r ->
     is_Some (rows (trips db) !! it_trip_id r)) ->
  Date.valid start = true -> Date.valid end_ = true -> end_ <> Date.max ->
  let new_id := (Sql.insert t_row (trips db)).1 in
  let t := (Sql.insert t_row (trips db)).2 in
  exists ids db1,
    insert_days new_id start end_ (set_trips t db) = inr db1
    /\ length ids = length (date_range start end_)
    /\ NoDup ids
    /\ (forall id r,
          rows (itinerary db1) !! id = Some r /\ it_trip_id r = new_id
          <-> exists k d,
                ids !! k = Some id /\ date_range start end_ !! k = Some d
                /\ r = blank_day new_id (Z.of_nat k + 1) (Date.isoformat d))
    /\ (forall id, id ∈ ids -> rows (itinerary db) !! id = None)
    /\ (forall id, id ∉ ids ->
          rows (itinerary db1) !! id = rows (itinerary db) !! id)
    /\ trips db1 = t /\ budget_items db1 = budget_items db
    /\ day_items db1 = day_items db /\ trip_stops db1 = trip_stops db
    /\ packing_items db1 = packing_items db.
Proof.
  intros Hfk Vs Ve Hmax new_id t.
  destruct (insert_days_spec new_id start end_ (set_trips t db) Vs Ve Hmax)
    as (ids & db1 & Hrun & HL & HN & Hrows & Hother & Ft & Fb & Fi & Fs & Fp).
  proj_db. exists ids, db1. split; [exact Hrun|]. split; [exact HL|].
  split; [exact HN|]. split; [|split; [|now repeat split]].
  - intros id r. split.
    + intros [Hr Ht]. destruct (decide (id ∈ ids)) as [Hin | Hout].
      * apply list_elem_of_lookup in Hin. destruct Hin as [k Hk].
        destruct (lookup_lt_is_Some_2 (date_range start end_) k) as [d Hd].
        { rewrite <- HL. now apply lookup_lt_Some in Hk. }
        exists k, d. split; [exact Hk|]. split; [exact Hd|].
        destruct (Hrows k id d Hk Hd) as [H1 _]. congruence.
      * exfalso. rewrite (Hother id Hout) in Hr.
        destruct (Hfk id r Hr) as [x Hx]. rewrite Ht in Hx.
        pose proof (insert_fresh t_row (trips db)) as Hf.
        fold new_id in Hf. congruence.
    + intros (k & d & Hk & Hd & ->).
      destruct (Hrows k id d Hk Hd) as [H1 _]. now split.
  - intros id Hin. apply list_elem_of_lookup in Hin. destruct Hin as [k Hk].
    destruct (lookup_lt_is_Some_2 (date_range start end_) k) as [d Hd].
    { rewrite <- HL. now apply lookup_lt_Some in Hk. }
    now destruct (Hrows k id d Hk Hd).
Qed.

(** C9, counterexamples: a trip without visible checklist items exports the
    header alone, and the import of that file creates no trip: it renders
    the form again with "No valid rows found"; and an item whose stored name
    ends in a space ("Cafe ") comes back from the import with the name
    trimmed ("Cafe"), so the tuple is not reproduced. *)
Lemma export_import_counterexample :
  (export_trip_csv bare_db 1 = ExportCsv []
   /\ import_trip_csv bare_db (Some "Paris") None (Some (read_back <$> []))
      = (Render "import_trip.html"
           (Some "No valid rows found in CSV. Expected headers: date,time_of_day,category,name,city,meal."),
         bare_db))
  /\ (export_trip_csv cafe_db 1
      = ExportCsv [ExportRow "2024-01-01" "" "place" "Cafe " "Paris" "" "1"]
      /\ export_trip_csv
           (import_trip_csv cafe_db (Some "Paris") None
              (Some [read_back
                       (ExportRow "2024-01-01" "" "place" "Cafe " "Paris" ""
                          "1")])).2 2
         = ExportCsv [ExportRow "2024-01-01" "" "place" "Cafe" "Paris" "" "1"]).
Proof. vm_compute. repeat split. Qed.

(** The import of the rows of an export that has at least one row. *)
Lemma round_trip_of_export (db : database) (trip_id : Z)
    (trip : trip_row) (first : export_row) (rest : list export_row)
    (f_destination f_travel_style : form_field) :
  rows (trips db) !! trip_id = Some trip ->
  export_trip_csv db trip_id = ExportCsv (first :: rest) ->
  Py.truthy (Py.strip (Py.or_empty f_destination)) = true ->
  foreign_keys_ok db = true ->
  exportable db trip_id = true ->
  exists new_id db',
    import_trip_csv db f_destination f_travel_style
      (Some (read_back <$> first :: rest))
    = (Redirect "trip_detail" (Some new_id) (Some "Trip imported from CSV."),
       db')
    /\ rows (trips db) !! new_id = None
    /\ (forall d c n k s,
          visible_item db' new_id d c n k s
          <-> exists s0,
                visible_item db trip_id d c n k s0 /\ s = kept_slot c s0)
    /\ (forall d c n k s0,
          visible_item db trip_id d c n k s0 -> recognized c s0 = true ->
          visible_item db' new_id d c n k s0).
Proof.
  intros Ht Hx Hd Hfk Hexp.
  destruct (foreign_keys_spec db Hfk) as [Hfk1 Hfk2].
  unfold export_trip_csv in Hx. rewrite Ht in Hx. cbv zeta in Hx.
  destruct (build_location_by_date (select_stops db trip_id)) as [e|lbd];
    [discriminate|].
  injection Hx as Hx.
  destruct (read_back_rows db trip_id (destination trip) lbd Hexp)
    as [Hfrom Hto].
  set (days := select_days db trip_id) in *.
  set (items := select_visible_items db days.*1) in *.
  rewrite Hx in Hfrom, Hto.
  set (parsed := parse_rows (read_back <$> first :: rest)) in *.
  (* the file has a valid row *)
  assert (Hfirst : first ∈ export_rows (destination trip) lbd days items).
  { rewrite Hx. left. }
  apply elem_of_export_rows in Hfirst.
  destruct Hfirst as (day1 & item1 & Hday1 & Hitem1 & E1 & _).
  destruct (Hto day1 item1 Hday1 Hitem1 E1) as (p1 & Hp1 & _).
  destruct parsed as [|r rs] eqn:Eparsed; [now apply elem_of_nil in Hp1|].
  clear p1 Hp1 day1 item1 Hday1 Hitem1 E1.
  (* the range of the new trip *)
  assert (Vall : Forall (fun x => Date.valid x = true)
                   (p_date r :: (p_date <$> rs))).
  { change (p_date r :: (p_date <$> rs)) with (p_date <$> r :: rs).
    apply Forall_fmap, Forall_forall. intros p Hp. now apply Hfrom. }
  destruct (date_min_spec (p_date <$> rs) (p_date r) Vall) as [Hmin_in Hmin].
  destruct (date_max_spec (p_date <$> rs) (p_date r) Vall) as [Hmax_in Hmax].
  set (start_date := date_min (p_date r) (p_date <$> rs)) in *.
  set (end_date := date_max (p_date r) (p_date <$> rs)) in *.
  assert (Hdates : forall x, x ∈ p_date r :: (p_date <$> rs)
            <-> exists p, p ∈ r :: rs /\ x = p_date p).
  { intros x. change (p_date r :: (p_date <$> rs)) with (p_date <$> r :: rs).
    rewrite list_elem_of_fmap. split; intros (p & H1 & H2); exists p; auto. }
  assert (Vs : Date.valid start_date = true).
  { apply Hdates in Hmin_in. destruct Hmin_in as (p & Hp & ->).
    now apply Hfrom. }
  assert (Ve : Date.valid end_date = true).
  { apply Hdates in Hmax_in. destruct Hmax_in as (p & Hp & ->).
    now apply Hfrom. }
  assert (Hnotmax : end_date <> Date.max).
  { apply Hdates in Hmax_in. destruct Hmax_in as (p & Hp & ->).
    now apply Hfrom. }
  set (t_row := TripRow (Py.strip (Py.or_empty f_destination))
                  (Date.isoformat start_date) (Date.isoformat end_date)
                  (Py.or_else f_travel_style "Flexible")).
  destruct (new_trip_days db t_row start_date end_date Hfk1 Vs Ve Hnotmax)
    as (ids & db1 & Hrun & HL & HN & Hnew & Hfresh & Hother
        & Ft & Fb & Fi & Fs & Fp).
  set (new_id := (Sql.insert t_row (trips db)).1) in *.
  set (ds := date_range start_date end_date) in *.
  set (days' := Sql.select (fun _ r => it_trip_id r =? new_id) (itinerary db1)).
  set (db2 := insert_stops new_id (build_city_dates (r :: rs)) db1).
  set (db3 := insert_items (day_by_date days') (r :: rs) db2).
  exists new_id, db3. split.
  { unfold import_trip_csv. cbv zeta. rewrite Hd. cbn [negb].
    fold parsed. rewrite Eparsed.
    fold start_date end_date t_row.
    unfold Sql.insert at 1. cbv zeta.
    change (Z.max (sequence (trips db)) (Sql.max_rowid (rows (trips db))) + 1)
      with new_id.
    change (Table (<[new_id := t_row]> (rows (trips db))) new_id)
      with (Sql.insert t_row (trips db)).2.
    rewrite Hrun. reflexivity. }
  split; [apply insert_fresh|].
  (* the days and the index of the new trip *)
  assert (Hdays' : forall id r0, (id, r0) ∈ days'
            <-> exists k d, ids !! k = Some id /\ ds !! k = Some d
                  /\ r0 = blank_day new_id (Z.of_nat k + 1) (Date.isoformat d)).
  { intros id r0. unfold days'. rewrite elem_of_select, Z.eqb_eq.
    apply Hnew. }
  assert (Vds : forall k d, ds !! k = Some d -> Date.valid d = true).
  { intros k d H. apply (LoopFacts.dates_from_valid
                           (day_fuel start_date end_date) start_date d Vs).
    - now apply LoopFacts.date_range_bound.
    - now apply list_elem_of_lookup_2 in H. }
  assert (NDds : NoDup ds).
  { apply LoopFacts.dates_from_NoDup; [exact Vs|].
    now apply LoopFacts.date_range_bound. }
  assert (Hindex : forall d id, Date.valid d = true ->
            (day_by_date days' !! Date.isoformat d = Some id
             <-> exists k, ds !! k = Some d /\ ids !! k = Some id)).
  { intros d id V. rewrite day_by_date_index. split.
    - intros H. destruct (index_by_date days' !! Date.isoformat d)
        as [[id' r0]|] eqn:E; [|discriminate].
      cbn in H. injection H as ->.
      apply index_by_date_sound in E. destruct E as [Hin Ed].
      apply Hdays' in Hin. destruct Hin as (k & d' & Hk & Hd' & ->).
      cbn in Ed. apply isoformat_inj in Ed; [|now apply (Vds k)|exact V].
      subst d'. now exists k.
    - intros (k & Hk & Hid).
      assert (Hin : (id, blank_day new_id (Z.of_nat k + 1) (Date.isoformat d))
                    ∈ days').
      { apply Hdays'. now exists k, d. }
      destruct (index_by_date_some days' _ Hin) as [[id' r0] E].
      cbn [snd date blank_day] in E. rewrite E. cbn. f_equal.
      apply index_by_date_sound in E. destruct E as [Hin' Ed].
      apply Hdays' in Hin'. destruct Hin' as (k' & d' & Hk' & Hd' & ->).
      cbn in Ed. apply isoformat_inj in Ed; [|now apply (Vds k')|exact V].
      subst d'.
      assert (k' = k) by (eapply NoDup_lookup; eauto). subst k'. congruence. }
  (* the tables after the import *)
  destruct (insert_stops_frame new_id (build_city_dates (r :: rs)) db1)
    as (S1 & S2 & S3 & S4 & S5).
  fold db2 in S1, S2, S3, S4, S5.
  destruct (insert_items_spec (day_by_date days') (r :: rs) db2)
    as ((I1 & I2 & I3 & I4 & I5) & Hold & Hitems & Hall).
  fold db3 in I1, I2, I3, I4, I5, Hold, Hitems, Hall.
  cbv zeta in Hitems, Hall.
  rewrite S3, Fi in Hold, Hitems.
  assert (Hit3 : itinerary db3 = itinerary db1) by congruence.
  assert (Hmain : forall d c n k s,
            visible_item db3 new_id d c n k s
            <-> exists s0,
                  visible_item db trip_id d c n k s0 /\ s = kept_slot c s0).
  { intros d c n k s. split.
    - intros (day_id & day & iid & it & Hday & Htrip & Hit & Hid & Hhid
              & <- & <- & <- & <- & <-).
      rewrite Hit3 in Hday.
      destruct (proj1 (Hnew day_id day) (conj Hday Htrip))
        as (k0 & d0 & Hk0 & Hd0 & ->).
      apply Hitems in Hit.
      destruct Hit as [Hit | (p & did & Hp & Hlook & ->)].
      + exfalso. destruct (Hfk2 iid it Hit) as [x Hx']. rewrite Hid in Hx'.
        rewrite (Hfresh day_id) in Hx'; [discriminate|].
        now apply list_elem_of_lookup_2 in Hk0.
      + cbn in Hid. subst did.
        destruct (Hfrom p Hp) as (Vp & _ & day0 & item0 & Hday0 & Hitem0 & E0
                                  & Edate & En & Ec & Ek & Eslot).
        apply Hindex in Hlook; [|exact Vp].
        destruct Hlook as (k' & Hk' & Hid').
        assert (k' = k0) by exact (NoDup_lookup ids k' k0 day_id HN Hid' Hk0).
        subst k'.
        assert (d0 = p_date p) by congruence. subst d0.
        destruct day0 as [day_id0 day0], item0 as [iid0 it0].
        cbn [fst snd] in *.
        apply elem_of_select_days in Hday0. destruct Hday0 as [Hr0 Ht0].
        apply elem_of_select_visible in Hitem0.
        destruct Hitem0 as (Hi0 & _ & Hh0).
        exists (slot it0). split.
        * exists day_id0, day0, iid0, it0. cbn.
          repeat split; congruence.
        * cbn. congruence.
    - intros (s0 & (day_id0 & day0 & iid0 & it0 & Hr0 & Ht0 & Hi0 & Hid0 & Hh0
                    & <- & <- & <- & <- & <-) & ->).
      assert (Hday0 : (day_id0, day0) ∈ days)
        by now apply elem_of_select_days.
      assert (Hitem0 : (iid0, it0) ∈ items).
      { apply elem_of_select_visible. split; [exact Hi0|]. split; [|exact Hh0].
        rewrite Hid0. apply list_elem_of_fmap. now exists (day_id0, day0). }
      destruct (Hto (day_id0, day0) (iid0, it0) Hday0 Hitem0 Hid0)
        as (p & Hp & Edate & En & Ec & Ek & Eslot).
      cbn [fst snd] in *.
      destruct (Hfrom p Hp) as (Vp & _).
      assert (Hrange : p_date p ∈ ds).
      { apply LoopFacts.date_range_elem; [assumption..|]. split.
        - apply Hmin. apply Hdates. now exists p.
        - apply Hmax. apply Hdates. now exists p. }
      apply list_elem_of_lookup in Hrange. destruct Hrange as [k0 Hk0].
      destruct (lookup_lt_is_Some_2 ids k0) as [day_id Hday_id].
      { rewrite HL. now apply lookup_lt_Some in Hk0. }
      assert (Hlook : day_by_date days' !! Date.isoformat (p_date p)
                      = Some day_id).
      { apply Hindex; [exact Vp|]. now exists k0. }
      destruct (Hall p day_id Hp Hlook) as [iid Hiid].
      exists day_id,
        (blank_day new_id (Z.of_nat k0 + 1) (Date.isoformat (p_date p))),
        iid,
        (DayItemRow day_id (p_category p) (p_name p) (p_selected p)
           (row_slot p) false).
      split.
      { rewrite Hit3. apply (Hnew day_id). now exists k0, (p_date p). }
      split; [reflexivity|]. split; [exact Hiid|]. cbn.
      repeat split; congruence. }
  split; [exact Hmain|].
  intros d c n k s0 Hv Hrec. apply Hmain. exists s0. split; [exact Hv|].
  unfold kept_slot. now rewrite Hrec.
Qed.



(** * The day loop of trip_detail *)

Lemma day_completion_total (day : itinerary_row) (per_day : item_groups) :
  exists c, day_completion day per_day = Some c.
Proof.
  unfold day_completion.
  change initial_meal_flags with (flags3 false false false).
  rewrite meal_flags_fold, count_true_flags3. cbn [orb].
  set (items := items_of per_day "restaurant").
  set (sf := count_slots_filled day).
  set (mp := (if existsb (meal_hit "breakfast") items then 1 else 0)
             + (if existsb (meal_hit "lunch") items then 1 else 0)
             + (if existsb (meal_hit "dinner") items then 1 else 0)).
  assert (Hsf : 0 <= sf <= 3).
  { unfold sf, count_slots_filled.
    destruct (nonblank _), (nonblank _), (nonblank _); lia. }
  assert (Hmp : 0 <= mp <= 3).
  { unfold mp. destruct (existsb _ _), (existsb _ _), (existsb _ _); lia. }
  change (3 + 3 =? 0) with false. cbv iota. change (3 + 3) with 6.
  rewrite float_percent by lia. cbn [mbind option_bind]. eauto.
Qed.

(** The loop over the days records, under each day's id, the city for the
    day, the completion computed from that day's row and items, and the
    hotels of that day filtered by the location found under that day's
    date. *)
Lemma detail_fold (trip : trip_row) (location_by_date : gmap string string)
    (items_by_day : gmap Z item_groups) (l : list (Z * itinerary_row)) :
  NoDup l.*1 ->
  forall s,
  exists s',
    fold_left (detail_day_step trip location_by_date items_by_day) l (inr s)
    = inr s'
    /\ (forall id day, (id, day) ∈ l ->
          m_city s' !! id
          = Some (Py.or_else (location_name location_by_date (date day))
                    (destination trip))
          /\ m_completion s' !! id
             = day_completion day (per_day_items items_by_day id)
          /\ m_hotels s' !! id
             = Some (hotels_filtered (per_day_items items_by_day id)
                       (location_name location_by_date (date day))))
    /\ (forall id, id ∉ l.*1 ->
          m_city s' !! id = m_city s !! id
          /\ m_completion s' !! id = m_completion s !! id
          /\ m_hotels s' !! id = m_hotels s !! id).
Proof.
  induction l as [|[id day] l IH]; intros ND s.
  - exists s. split; [reflexivity|]. split; [|auto].
    intros id day H. now apply elem_of_nil in H.
  - cbn [fmap list_fmap fst] in ND. apply NoDup_cons in ND.
    destruct ND as [Hid ND].
    destruct (day_completion_total day (per_day_items items_by_day id))
      as [c Ec].
    cbn [fold_left]. unfold detail_day_step at 2. cbn [bind fst snd].
    cbv zeta. rewrite Ec.
    match goal with
    | |- context [fold_left _ l (inr ?x)] =>
        destruct (IH ND x) as (s' & E & Hin & Hout)
    end.
    exists s'. split; [exact E|]. split.
    + intros id' day' H. apply elem_of_cons in H.
      destruct H as [[= -> ->] | H]; [|now apply Hin].
      destruct (Hout id Hid) as (H1 & H2 & H3).
      rewrite H1, H2, H3. cbn [m_city m_completion m_hotels].
      rewrite !lookup_insert_eq. now rewrite Ec.
    + intros id' H. cbn [fmap list_fmap fst] in H.
      apply not_elem_of_cons in H. destruct H as [Hne H].
      destruct (Hout id' H) as (H1 & H2 & H3).
      rewrite H1, H2, H3. cbn [m_city m_completion m_hotels].
      rewrite !lookup_insert_ne by congruence. now repeat split.
Qed.

Lemma stops_ok_Forall db trip_id :
  stops_ok db trip_id = true ->
  Forall (fun stop : Z * stop_row => stop_dates_ok stop.2 = true)
    (select_stops db trip_id).
Proof.
  unfold stops_ok. rewrite forallb_forall. intros H.
  apply Forall_forall. intros x Hx. apply H. now apply list_elem_of_In.
Qed.

(** The per-day part of trip_detail for a trip whose stops have dates that
    parse and whose items have one of the three categories. *)
Lemma trip_detail_days_spec db trip_id trip :
  rows (trips db) !! trip_id = Some trip ->
  stops_ok db trip_id = true ->
  categories_ok db = true ->
  exists view,
    trip_detail_days db trip_id = Some (inr view)
    /\ v_days view = select_days db trip_id
    /\ build_location_by_date (select_stops db trip_id)
       = inr (v_location_by_date view)
    /\ build_items_by_day db (select_days db trip_id).*1
       = inr (v_items_by_day view)
    /\ forall id day, (id, day) ∈ select_days db trip_id ->
         v_city_by_day view !! id
         = Some (Py.or_else
                   (location_name (v_location_by_date view) (date day))
                   (destination trip))
         /\ v_completion_by_day view !! id
            = day_completion day (per_day_items (v_items_by_day view) id)
         /\ v_hotels_filtered_by_day view !! id
            = Some (hotels_filtered (per_day_items (v_items_by_day view) id)
                      (location_name (v_location_by_date view) (date day))).
Proof.
  intros Ht Hs Hc.
  destruct (build_location_by_date_spec (select_stops db trip_id)
              (stops_ok_Forall db trip_id Hs)) as (lbd & El & _).
  destruct (build_items_by_day_spec db (select_days db trip_id).*1 Hc)
    as (ibd & Ei & _).
  destruct (detail_fold trip lbd ibd (select_days db trip_id)
              (select_days_NoDup db trip_id) (DayMaps ∅ ∅ ∅))
    as (s' & Ef & Hin & _).
  exists (DetailView (select_days db trip_id) lbd ibd (m_city s')
            (m_completion s') (m_hotels s')).
  split.
  - unfold trip_detail_days. rewrite Ht. cbv zeta.
    rewrite El. cbn [bind]. rewrite Ei. cbn [bind]. rewrite Ef.
    reflexivity.
  - cbn. repeat split; try assumption; now apply Hin.
Qed.

(** ** The stops in the order of the query *)

#[global] Instance by_text_total {A : Type} (key : A -> string) :
  Total (Sql.by_text key).
Proof. intros x y. unfold Sql.by_text. apply String.leb_total. Qed.

Lemma select_stops_spec db trip_id :
  (forall id r, (id, r) ∈ select_stops db trip_id
     <-> rows (trip_stops db) !! id = Some r /\ st_trip_id r = trip_id)
  /\ NoDup (select_stops db trip_id).*1
  /\ Sorted (fun a b : Z * stop_row =>
               String.leb (st_start_date a.2) (st_start_date b.2) = true)
       (select_stops db trip_id).
Proof.
  unfold select_stops. split; [|split].
  - intros id r. rewrite elem_of_order_by_text, elem_of_select, Z.eqb_eq.
    reflexivity.
  - unfold Sql.order_by_text. rewrite merge_sort_Permutation.
    apply select_NoDup.
  - unfold Sql.order_by_text.
    apply (Sorted_merge_sort (Sql.by_text st_start_date)).
Qed.

(** * The three properties of the page *)

(** The view of trip_detail is the one that [trip_detail_days_spec]
    describes. *)
Lemma trip_detail_days_view db trip_id trip view :
  rows (trips db) !! trip_id = Some trip ->
  stops_ok db trip_id = true ->
  categories_ok db = true ->
  trip_detail_days db trip_id = Some (inr view) ->
  v_days view = select_days db trip_id
  /\ build_location_by_date (select_stops db trip_id)
     = inr (v_location_by_date view)
  /\ build_items_by_day db (select_days db trip_id).*1
     = inr (v_items_by_day view)
  /\ forall id day, (id, day) ∈ select_days db trip_id ->
       v_city_by_day view !! id
       = Some (Py.or_else
                 (location_name (v_location_by_date view) (date day))
                 (destination trip))
       /\ v_completion_by_day view !! id
          = day_completion day (per_day_items (v_items_by_day view) id)
       /\ v_hotels_filtered_by_day view !! id
          = Some (hotels_filtered (per_day_items (v_items_by_day view) id)
                    (location_name (v_location_by_date view) (date day))).
Proof.
  intros Ht Hs Hc E.
  destruct (trip_detail_days_spec db trip_id trip Ht Hs Hc)
    as (view' & E' & H).
  assert (view' = view) by congruence. subst view'. exact H.
Qed.

(** C7: trip_detail builds the stop-to-date mapping from the trip's stored
    stops, each once, in the order of their start_date texts: every stop
    writes its name under each date of its inclusive range, in that order,
    so the lookup of a date gives the name of the last stop of the list
    that covers it, and a date that no stop covers is absent; for each day
    of the trip the loop looks its date up in that mapping, takes the
    trip's destination as the city when the lookup gives nothing, and
    filters the day's hotels by the name it found.  The page is computed
    when the trip has no more days than SQLite accepts host parameters in
    one statement. *)
Theorem location_by_date_last_stop_wins (db : database) (trip_id : Z)
    (trip : trip_row) :
  rows (trips db) !! trip_id = Some trip ->
  stops_ok db trip_id = true ->
  categories_ok db = true ->
  (forall id r, (id, r) ∈ select_stops db trip_id
     <-> rows (trip_stops db) !! id = Some r /\ st_trip_id r = trip_id)
  /\ NoDup (select_stops db trip_id).*1
  /\ Sorted (fun a b : Z * stop_row =>
               String.leb (st_start_date a.2) (st_start_date b.2) = true)
       (select_stops db trip_id)
  /\ (Sql.within_limit (select_days db trip_id).*1 = true ->
      exists view, trip_detail_days db trip_id = Some (inr view))
  /\ forall view,
       trip_detail_days db trip_id = Some (inr view) ->
       build_location_by_date (select_stops db trip_id)
       = inr (v_location_by_date view)
       /\ (forall d, Date.valid d = true ->
             location_name (v_location_by_date view) (Date.isoformat d)
             = (fun stop : Z * stop_row => st_name stop.2)
                 <$> last (List.filter (stop_covers d)
                             (select_stops db trip_id)))
       /\ (forall d, Date.valid d = true ->
             List.filter (stop_covers d) (select_stops db trip_id) = [] ->
             location_name (v_location_by_date view) (Date.isoformat d)
             = None)
       /\ (forall id day, (id, day) ∈ select_days db trip_id ->
             v_city_by_day view !! id
             = Some (match location_name (v_location_by_date view) (date day)
                     with
                     | Some n => if Py.truthy n then n else destination trip
                     | None => destination trip
                     end)
             /\ v_hotels_filtered_by_day view !! id
                = Some (hotels_filtered
                          (per_day_items (v_items_by_day view) id)
                          (location_name (v_location_by_date view)
                             (date day)))).
Proof.
  intros Ht Hs Hc.
  destruct (select_stops_spec db trip_id) as (S1 & S2 & S3).
  split; [exact S1|]. split; [exact S2|]. split; [exact S3|].
  split.
  { intros _.
    destruct (trip_detail_days_spec db trip_id trip Ht Hs Hc)
      as (view & E & _).
    now exists view. }
  intros view E.
  destruct (trip_detail_days_view db trip_id trip view Ht Hs Hc E)
    as (_ & El & _ & Hdays).
  split; [exact El|].
  destruct (build_location_by_date_spec (select_stops db trip_id)
              (stops_ok_Forall db trip_id Hs)) as (lbd & El' & A & B).
  assert (lbd = v_location_by_date view) by congruence. subst lbd.
  split; [exact A|]. split; [exact B|].
  intros id day Hin. destruct (Hdays id day Hin) as (H1 & _ & H3).
  split; [|exact H3]. rewrite H1. f_equal.
  unfold Py.or_else, Py.truthy_opt, Py.or_empty.
  now destruct (location_name (v_location_by_date view) (date day)).
Qed.

Lemma location_by_date_last_stop_wins_witness :
  select_stops ab_db 7
  = [(2, StopRow 7 "A" "2024-01-01" "2024-01-03");
     (1, StopRow 7 "B" "2024-01-03" "2024-01-05")]
  /\ exists view,
       trip_detail_days ab_db 7 = Some (inr view)
       /\ location_name (v_location_by_date view) "2024-01-03" = Some "B"
       /\ location_name (v_location_by_date view) "2024-01-02" = Some "A"
       /\ location_name (v_location_by_date view) "2024-01-06" = None
       /\ v_city_by_day view !! 1 = Some "B".
Proof.
  split; [vm_compute; reflexivity|].
  destruct (location_by_date_last_stop_wins ab_db 7
              (TripRow "Lyon" "2024-01-01" "2024-01-05" "Flexible"))
    as (_ & _ & _ & Hex & Hview); try (vm_compute; reflexivity).
  destruct Hex as [view E]; [vm_compute; reflexivity|].
  destruct (Hview view E) as (_ & A & _ & D).
  exists view. split; [exact E|].
  pose proof (A (Date.mk 2024 1 3) eq_refl) as A3.
  pose proof (A (Date.mk 2024 1 2) eq_refl) as A2.
  pose proof (A (Date.mk 2024 1 6) eq_refl) as A6.
  split; [exact A3|]. split; [exact A2|]. split; [exact A6|].
  destruct (D 1 (ItineraryRow 7 1 "2024-01-03" None None None None None None
                   None None None)) as [D1 _].
  { vm_compute. left. }
  rewrite D1. cbn [date].
  change (location_name (v_location_by_date view) "2024-01-03")
    with (location_name (v_location_by_date view)
            (Date.isoformat (Date.mk 2024 1 3))).
  rewrite (A (Date.mk 2024 1 3) eq_refl). vm_compute. reflexivity.
Defined.

(** C2 (amended): for every day of the trip, the hotel list that trip_detail
    retains for display is computed from the day's visible (non-hidden)
    hotel items, checked or not, in id order: when the stop-to-date mapping
    gives a non-empty location name for the day's date, exactly those whose
    name contains it as a case-insensitive substring are retained; when it
    gives none, all of them are.  The page is computed when the trip has no
    more days than SQLite accepts host parameters in one statement. *)
Theorem hotels_filtered_visible_hotels (db : database) (trip_id : Z)
    (trip : trip_row) :
  rows (trips db) !! trip_id = Some trip ->
  stops_ok db trip_id = true ->
  categories_ok db = true ->
  (Sql.within_limit (select_days db trip_id).*1 = true ->
   exists view, trip_detail_days db trip_id = Some (inr view))
  /\ forall view,
       trip_detail_days db trip_id = Some (inr view) ->
       build_location_by_date (select_stops db trip_id)
       = inr (v_location_by_date view)
       /\ forall day_id day, (day_id, day) ∈ select_days db trip_id ->
            exists hotels,
              v_hotels_filtered_by_day view !! day_id = Some hotels
              /\ hotels
                 = List.filter
                     (at_location
                        (location_name (v_location_by_date view) (date day)))
                     (List.filter (item_matches day_id "hotel")
                        (select_visible_items db
                           (select_days db trip_id).*1))
              /\ (forall id r,
                    (id, r) ∈ hotels
                    <-> rows (day_items db) !! id = Some r
                        /\ itinerary_id r = day_id /\ category r = "hotel"
                        /\ hidden r = false
                        /\ (Py.truthy_opt
                              (location_name (v_location_by_date view)
                                 (date day))
                            = true ->
                            Py.contains
                              (Py.lower
                                 (Py.or_empty
                                    (location_name (v_location_by_date view)
                                       (date day))))
                              (Py.lower (name r)) = true)).
Proof.
  intros Ht Hs Hc. split.
  { intros _.
    destruct (trip_detail_days_spec db trip_id trip Ht Hs Hc)
      as (view & E & _).
    now exists view. }
  intros view E.
  destruct (trip_detail_days_view db trip_id trip view Ht Hs Hc E)
    as (_ & El & Ei & Hdays).
  split; [exact El|].
  intros day_id day Hin. destruct (Hdays day_id day Hin) as (_ & _ & H3).
  assert (Hid : day_id ∈ (select_days db trip_id).*1).
  { apply list_elem_of_fmap. now exists (day_id, day). }
  destruct (hotels_filtered_spec db (select_days db trip_id).*1 day_id
              (location_name (v_location_by_date view) (date day)) Hc Hid)
    as (ibd & Ei' & Heq & Hmem).
  assert (ibd = v_items_by_day view) by congruence. subst ibd.
  eexists. split; [exact H3|]. split; [exact Heq | exact Hmem].
Qed.

Lemma hotels_filtered_visible_hotels_witness :
  exists view,
    trip_detail_days sample_db 1 = Some (inr view)
    /\ location_name (v_location_by_date view) "2024-01-01" = Some "Paris"
    /\ v_hotels_filtered_by_day view !! 1
       = Some [(5, DayItemRow 1 "hotel" "Hotel PARIS Opera" false None false)].
Proof.
  destruct (hotels_filtered_visible_hotels sample_db 1
              (TripRow "Paris" "2024-01-01" "2024-01-03" "Foodie"))
    as (Hex & _); try (vm_compute; reflexivity).
  destruct Hex as [view E]; [vm_compute; reflexivity|].
  exists view. split; [exact E|].
  vm_compute in E. injection E as <-.
  split; vm_compute; reflexivity.
Defined.

(** C6: for every day of the trip, the completion percent that trip_detail
    records is round(100 * (slots_filled + meals_picked) / 6), where
    slots_filled counts the day's three descriptions that are non-blank
    after trimming and meals_picked counts the meals among breakfast, lunch
    and dinner that a checked visible restaurant item of that day has as its
    slot (a snack slot counts for nothing); three slots with two meals give
    83.  The page is computed when the trip has no more days than SQLite
    accepts host parameters in one statement. *)
Theorem completion_percent_formula (db : database) (trip_id : Z)
    (trip : trip_row) :
  rows (trips db) !! trip_id = Some trip ->
  stops_ok db trip_id = true ->
  categories_ok db = true -> slots_lowercase db = true ->
  (Sql.within_limit (select_days db trip_id).*1 = true ->
   exists view, trip_detail_days db trip_id = Some (inr view))
  /\ forall view,
       trip_detail_days db trip_id = Some (inr view) ->
       forall day_id day, (day_id, day) ∈ select_days db trip_id ->
         exists c,
           v_completion_by_day view !! day_id = Some c
           /\ slots_filled c
              = Z.of_nat (length (List.filter nonblank
                                    [morning_description day;
                                     afternoon_description day;
                                     evening_description day]))
           /\ meals_picked c
              = Z.of_nat (length (List.filter (meal_picked db day_id)
                                    ["breakfast"; "lunch"; "dinner"]))
           /\ total_slots c = 3 /\ total_meals c = 3
           /\ percent c
              = round_ratio (100 * (slots_filled c + meals_picked c)) 6
           /\ (slots_filled c = 3 -> meals_picked c = 2 -> percent c = 83).
Proof.
  intros Ht Hs Hc Hl. split.
  { intros _.
    destruct (trip_detail_days_spec db trip_id trip Ht Hs Hc)
      as (view & E & _).
    now exists view. }
  intros view E.
  destruct (trip_detail_days_view db trip_id trip view Ht Hs Hc E)
    as (_ & El & Ei & Hdays).
  intros day_id day Hin. destruct (Hdays day_id day Hin) as (_ & H2 & _).
  assert (Hid : day_id ∈ (select_days db trip_id).*1).
  { apply list_elem_of_fmap. now exists (day_id, day). }
  destruct (day_completion_formula db (select_days db trip_id).*1 day_id day
              Hc Hl Hid)
    as (ibd & c & Ei' & Ec & Hsf & Hmp & Hp & H83).
  assert (ibd = v_items_by_day view) by congruence. subst ibd.
  exists c. split; [now rewrite H2|].
  split; [exact Hsf|]. split; [exact Hmp|].
  assert (Htot : total_slots c = 3 /\ total_meals c = 3).
  { unfold day_completion in Ec. cbv zeta in Ec.
    destruct (if 3 + 3 =? 0 then _ else _) as [p|]; [|discriminate].
    cbn [mbind option_bind] in Ec. injection Ec as <-. now split. }
  destruct Htot as [T1 T2].
  split; [exact T1|]. split; [exact T2|]. split; [exact Hp | exact H83].
Qed.

Lemma completion_percent_formula_witness :
  exists view c,
    trip_detail_days sample_db 1 = Some (inr view)
    /\ v_completion_by_day view !! 1 = Some c
    /\ slots_filled c = 3 /\ meals_picked c = 2 /\ percent c = 83.
Proof.
  destruct (completion_percent_formula sample_db 1
              (TripRow "Paris" "2024-01-01" "2024-01-03" "Foodie"))
    as (Hex & Hdays); try (vm_compute; reflexivity).
  destruct Hex as [view E]; [vm_compute; reflexivity|].
  destruct (Hdays view E 1 (sample_day 1 "2024-01-01" (Some "Louvre")
                              (Some "Seine walk") (Some "Dinner cruise")))
    as (c & Ec & Hsf & Hmp & _ & _ & Hp & H83).
  { vm_compute. left. }
  exists view, c. split; [exact E|]. split; [exact Ec|].
  assert (S3 : slots_filled c = 3) by (rewrite Hsf; vm_compute; reflexivity).
  assert (M2 : meals_picked c = 2) by (rewrite Hmp; vm_compute; reflexivity).
  split; [exact S3|]. split; [exact M2|]. now apply H83.
Defined.


(** * The round trip of a trip through its CSV file *)

Lemma isoformat_fits d : Csv.field_fits (Date.isoformat d) = true.
Proof.
  unfold Date.isoformat, Date.pad4, Date.pad2.
  repeat (rewrite StrptimeFacts.app_cons || rewrite StrptimeFacts.app_empty_l).
  reflexivity.
Qed.

Lemma token_fits s l :
  Forall (fun t => Csv.field_fits t = true) l ->
  Csv.field_fits (if Py.in_set s l then s else "") = true.
Proof.
  intros H. destruct (Py.in_set s l) eqn:E; [|reflexivity].
  apply in_set_In in E. rewrite Forall_forall in H. apply H.
  now apply list_elem_of_In.
Qed.

(** The rows of the export of a trip whose names are within the limit of
    the reader are read back as they were written. *)
Lemma exported_rows_fit db trip_id trip lbd :
  build_location_by_date (select_stops db trip_id) = inr lbd ->
  stops_ok db trip_id = true ->
  exportable db trip_id = true ->
  fields_fit db trip_id trip = true ->
  forallb row_fits
    (export_rows (destination trip) lbd (select_days db trip_id)
       (select_visible_items db (select_days db trip_id).*1))
  = true.
Proof.
  intros El Hs Hexp Hfit. apply forallb_forall. intros x Hx.
  apply list_elem_of_In, elem_of_export_rows in Hx.
  destruct Hx as (day & item & Hday & Hitem & E & ->).
  unfold exportable in Hexp. apply andb_true_iff in Hexp.
  destruct Hexp as [Hdays Hitems]. rewrite forallb_forall in Hdays, Hitems.
  apply list_elem_of_In in Hday, Hitem.
  specialize (Hdays day Hday). specialize (Hitems item Hitem).
  cbv beta in Hdays, Hitems.
  apply iso_date_text_spec in Hdays. destruct Hdays as (d & V & _ & Ed).
  rewrite !andb_true_iff in Hitems. destruct Hitems as [_ Hc].
  unfold fields_fit in Hfit. rewrite !andb_true_iff in Hfit.
  destruct Hfit as [[Fd Fs] Fi]. rewrite forallb_forall in Fs, Fi.
  specialize (Fi item Hitem). cbv beta in Fi.
  assert (Fcity : Csv.field_fits (Py.or_else (lbd !! date day.2)
                                    (destination trip)) = true).
  { unfold Py.or_else. destruct (Py.truthy_opt (lbd !! date day.2)) eqn:T;
      [|exact Fd].
    destruct (build_location_by_date_spec (select_stops db trip_id)
                (stops_ok_Forall db trip_id Hs)) as (lbd' & El' & A & _).
    assert (lbd' = lbd) by congruence. subst lbd'.
    specialize (A d V). unfold location_name in A. rewrite <- Ed in A.
    rewrite A in *.
    destruct (last _) as [stop|] eqn:L; [|discriminate].
    cbn. apply Fs.
    apply last_Some_elem_of in L. apply list_elem_of_In in L.
    apply filter_In in L. now destruct L. }
  unfold row_fits, export_item. cbv zeta.
  cbn [x_date x_time_of_day x_category x_name x_city x_meal x_selected].
  rewrite Fi, Fcity, Ed, isoformat_fits. cbn [andb].
  unfold three in Hc. apply in_set_In in Hc. cbn in Hc.
  destruct item as [iid [day_id cat nm chk sl hid]]. cbn [snd category slot
    checked] in *.
  assert (Fsel : Csv.field_fits (if chk then "1" else "0") = true)
    by now destruct chk.
  rewrite Fsel.
  destruct Hc as [<- | [<- | [<- | []]]].
  - change ("place" =? "place")%string with true.
    change ("place" =? "restaurant")%string with false. cbn [andb negb].
    rewrite token_fits; [reflexivity|].
    repeat (constructor; [reflexivity|]). constructor.
  - change ("restaurant" =? "place")%string with false.
    change ("restaurant" =? "restaurant")%string with true. cbn [andb negb].
    rewrite token_fits; [reflexivity|].
    repeat (constructor; [reflexivity|]). constructor.
  - reflexivity.
Qed.

(** The export of a trip that has a visible item has a row. *)
Lemma export_rows_nonempty db trip_id destination lbd :
  has_visible_item db trip_id = true ->
  export_rows destination lbd (select_days db trip_id)
    (select_visible_items db (select_days db trip_id).*1) <> [].
Proof.
  unfold has_visible_item. intros Hvis Hnil.
  destruct (select_visible_items db (select_days db trip_id).*1)
    as [|[iid it] items] eqn:Ei; [discriminate|].
  assert (Hin : (iid, it) ∈ select_visible_items db (select_days db trip_id).*1).
  { rewrite Ei. left. }
  apply elem_of_select_visible in Hin. destruct Hin as (_ & Hday & _).
  apply list_elem_of_fmap in Hday. destruct Hday as (day & Eday & Hday).
  assert (Hx : export_item (date day.2)
                 (Py.or_else (lbd !! date day.2) destination) (iid, it)
               ∈ export_rows destination lbd (select_days db trip_id)
                   ((iid, it) :: items)).
  { apply elem_of_export_rows. exists day, (iid, it).
    split; [exact Hday|]. split; [left|]. split; [exact Eday | reflexivity]. }
  rewrite Hnil in Hx. now apply elem_of_nil in Hx.
Qed.

(** C9 (amended): for a trip that exists, whose stops have dates that parse
    and do not end on date.max, whose days have ISO dates before date.max,
    whose visible items have a trimmed non-empty name and one of the three
    categories, that has at least one visible item, and whose destination,
    stop names and item names are within csv.field_size_limit() (131072
    characters), in a database whose foreign keys hold: the export succeeds
    when the trip has no more days than SQLite accepts host parameters in
    one statement; and whenever the export succeeds, csv.DictReader reads
    every written row back, and the import of that file with a non-blank
    destination creates a new trip and redirects to it.  The visible items
    of the new trip are those of the exported trip, with the same date,
    category, name and checked flag; the slot is kept when it is a
    recognized one for the category (a time of day for a place, a meal for a
    restaurant) and is empty otherwise. *)
Theorem export_import_round_trip (db : database) (trip_id : Z)
    (trip : trip_row) (f_destination f_travel_style : form_field) :
  rows (trips db) !! trip_id = Some trip ->
  stops_ok db trip_id = true ->
  exportable db trip_id = true ->
  has_visible_item db trip_id = true ->
  fields_fit db trip_id trip = true ->
  foreign_keys_ok db = true ->
  Py.truthy (Py.strip (Py.or_empty f_destination)) = true ->
  (Sql.within_limit (select_days db trip_id).*1 = true ->
   exists exported, export_trip_csv db trip_id = ExportCsv exported)
  /\ forall exported,
       export_trip_csv db trip_id = ExportCsv exported ->
       exists reader new_id db',
         read_rows exported = inr reader
         /\ import_trip_csv db f_destination f_travel_style (Some reader)
            = (Redirect "trip_detail" (Some new_id)
                 (Some "Trip imported from CSV."),
               db')
         /\ rows (trips db) !! new_id = None
         /\ (forall d c n k s,
               visible_item db' new_id d c n k s
               <-> exists s0,
                     visible_item db trip_id d c n k s0
                     /\ s = kept_slot c s0)
         /\ (forall d c n k s0,
               visible_item db trip_id d c n k s0 ->
               recognized c s0 = true ->
               visible_item db' new_id d c n k s0).
Proof.
  intros Ht Hs Hexp Hvis Hfit Hfk Hd.
  destruct (build_location_by_date_spec (select_stops db trip_id)
              (stops_ok_Forall db trip_id Hs)) as (lbd & El & _).
  pose proof (exported_rows_fit db trip_id trip lbd El Hs Hexp Hfit) as Hrows.
  pose proof (export_rows_nonempty db trip_id (destination trip) lbd Hvis)
    as Hne.
  assert (Hx : export_trip_csv db trip_id
               = ExportCsv
                   (export_rows (destination trip) lbd (select_days db trip_id)
                      (select_visible_items db (select_days db trip_id).*1))).
  { unfold export_trip_csv. rewrite Ht. cbv zeta. now rewrite El. }
  split; [intros _; eauto|].
  intros exported Hx'. rewrite Hx in Hx'. injection Hx' as <-.
  destruct (export_rows (destination trip) lbd (select_days db trip_id)
              (select_visible_items db (select_days db trip_id).*1))
    as [|first rest] eqn:Ex; [congruence|].
  destruct (round_trip_of_export db trip_id trip first rest f_destination
              f_travel_style Ht Hx Hd Hfk Hexp)
    as (new_id & db' & Himp & Hnew & Hiff & Hrec).
  exists (read_back <$> first :: rest), new_id, db'.
  split.
  { unfold read_rows. now rewrite Hrows. }
  split; [exact Himp|]. split; [exact Hnew|]. split; [exact Hiff | exact Hrec].
Qed.

Lemma export_import_round_trip_witness :
  Csv.field_fits (string_of_list_ascii (replicate (Z.to_nat 131072) "x"%char))
  = true
  /\ read_rows
       [ExportRow "2024-01-01" "" "place"
          (string_of_list_ascii (replicate (Z.to_nat 131073) "x"%char))
          "Paris" "" "1"]
     = inl CsvError
  /\ exists new_id db',
    export_trip_csv sample_db 1
    = ExportCsv (sample_export_first :: sample_export_rest)
    /\ read_rows (sample_export_first :: sample_export_rest)
       = inr (read_back <$> sample_export_first :: sample_export_rest)
    /\ import_trip_csv sample_db (Some "Paris again") None
         (Some (read_back <$> sample_export_first :: sample_export_rest))
       = (Redirect "trip_detail" (Some new_id) (Some "Trip imported from CSV."),
          db')
    /\ rows (trips sample_db) !! new_id = None
    /\ visible_item db' new_id "2024-01-01" "place" "Louvre" true
         (Some "morning").
Proof.
  split; [vm_compute; reflexivity|]. split; [vm_compute; reflexivity|].
  destruct (export_import_round_trip sample_db 1
              (TripRow "Paris" "2024-01-01" "2024-01-03" "Foodie")
              (Some "Paris again") None)
    as (Hex & Hround); try (vm_compute; reflexivity).
  destruct Hex as [exported H1]; [vm_compute; reflexivity|].
  destruct (Hround exported H1)
    as (reader & new_id & db' & H2 & H3 & H4 & _ & H6).
  assert (E1 : export_trip_csv sample_db 1
               = ExportCsv (sample_export_first :: sample_export_rest))
    by (vm_compute; reflexivity).
  rewrite E1 in H1. injection H1 as <-.
  assert (E2 : read_rows (sample_export_first :: sample_export_rest)
               = inr (read_back <$> sample_export_first :: sample_export_rest))
    by (vm_compute; reflexivity).
  rewrite E2 in H2. injection H2 as <-.
  exists new_id, db'. split; [exact E1|]. split; [exact E2|].
  split; [exact H3|]. split; [exact H4|].
  apply H6; [|reflexivity].
  exists 1, (sample_day 1 "2024-01-01" (Some "Louvre") (Some "Seine walk")
               (Some "Dinner cruise")),
    8, (DayItemRow 1 "place" "Louvre" true (Some "morning") false).
  vm_compute. repeat split.
Defined.


(** * Creating a trip, and day loops that reach the last date *)

(** A loop whose end is [date.max] raises OverflowError: after the body has
    run for 9999-12-31, [current += timedelta(days=1)] has no result. *)
Lemma for_each_day_overflow {S : Type} (body : Date.date -> S -> S) :
  forall n current s,
    Date.valid current = true -> n = day_fuel current Date.max ->
    for_each_day n current Date.max body s = inl OverflowError.
Proof.
  induction n as [|n IH]; intros current s V En;
    pose proof (DateFacts.toordinal_le_max current V) as Hle;
    unfold day_fuel, Date.days_between in En.
  - lia.
  - cbn [for_each_day].
    assert (L : Date.leb current Date.max = true).
    { apply DateFacts.leb_toordinal; [exact V | apply DateFacts.valid_max | exact Hle]. }
    rewrite L. destruct (Date.eqb current Date.max) eqn:E.
    + apply DateFacts.eqb_eq in E. subst current. reflexivity.
    + assert (Hne : current <> Date.max).
      { intros ->. now rewrite (proj2 (DateFacts.eqb_eq _ _) eq_refl) in E. }
      destruct (DateFacts.add_day_spec current V Hne) as (d' & Ea & V' & O').
      rewrite Ea. apply IH; [exact V'|].
      unfold day_fuel, Date.days_between. lia.
Qed.

Lemma insert_days_overflow trip_id start db :
  Date.valid start = true ->
  insert_days trip_id start Date.max db = inl OverflowError.
Proof.
  intros V. unfold insert_days.
  now rewrite (for_each_day_overflow _ _ start _ V eq_refl).
Qed.

Lemma leb_max d : Date.valid d = true -> Date.leb d Date.max = true.
Proof.
  intros V. apply DateFacts.leb_toordinal;
    [exact V | apply DateFacts.valid_max | now apply DateFacts.toordinal_le_max].
Qed.

(** new_trip with the end date 9999-12-31: whatever the start date, the day
    loop raises OverflowError before the commit, so no trip and no day is
    stored. *)
Theorem new_trip_last_day_overflow (db : database)
    (f_destination f_start_date f_travel_style : form_field)
    (start_date : Date.date) :
  Py.truthy (Py.strip (Py.or_empty f_destination)) = true ->
  parse_date (Py.or_empty f_start_date) = Some start_date ->
  new_trip db f_destination f_start_date (Some "9999-12-31") f_travel_style
  = (Raised OverflowError, db).
Proof.
  intros Hd Es. pose proof (parse_date_valid _ _ Es) as V.
  unfold new_trip. cbv zeta. rewrite Hd, (truthy_of_parse_date _ _ Es).
  change (Py.truthy_opt (Some "9999-12-31")) with true. cbn [negb orb].
  rewrite Es.
  change (parse_date (Py.or_empty (Some "9999-12-31"))) with (Some Date.max).
  unfold Date.ltb. rewrite (leb_max _ V). cbn [negb].
  unfold Sql.insert at 1. cbv zeta.
  now rewrite insert_days_overflow.
Qed.

Lemma new_trip_last_day_overflow_witness :
  new_trip sample_db (Some "Rome") (Some "9999-12-25") (Some "9999-12-31") None
  = (Raised OverflowError, sample_db).
Proof.
  apply (new_trip_last_day_overflow sample_db (Some "Rome") (Some "9999-12-25")
           None (Date.mk 9999 12 25)); vm_compute; reflexivity.
Defined.

(** edit_trip with a new end date 9999-12-31 that changes the range: the
    reconciliation loop raises OverflowError and nothing is stored, not even
    the new destination. *)
Theorem edit_trip_last_day_overflow (db : database) (trip_id : Z)
    (trip : trip_row)
    (f_destination f_start_date f_travel_style : form_field)
    (old_start old_end new_start : Date.date) :
  rows (trips db) !! trip_id = Some trip ->
  parse_date (start_date trip) = Some old_start ->
  parse_date (end_date trip) = Some old_end ->
  Py.truthy (Py.strip (Py.or_empty f_destination)) = true ->
  parse_date (Py.or_empty f_start_date) = Some new_start ->
  negb (Date.eqb new_start old_start) || negb (Date.eqb Date.max old_end)
  = true ->
  edit_trip db trip_id f_destination f_start_date (Some "9999-12-31")
    f_travel_style
  = (Raised OverflowError, db).
Proof.
  intros Ht Eos Eoe Hd Ens Hdiff.
  pose proof (parse_date_valid _ _ Ens) as V.
  unfold edit_trip. rewrite Ht. cbv zeta.
  rewrite Hd, (truthy_of_parse_date _ _ Ens).
  change (Py.truthy_opt (Some "9999-12-31")) with true. cbn [negb orb].
  rewrite Ens.
  change (parse_date (Py.or_empty (Some "9999-12-31"))) with (Some Date.max).
  unfold Date.ltb. rewrite (leb_max _ V). cbn [negb].
  rewrite Eos, Eoe, Hdiff. unfold reconcile_days.
  now rewrite (for_each_day_overflow _ _ new_start _ V eq_refl).
Qed.

Lemma edit_trip_last_day_overflow_witness :
  edit_trip sample_db 1 (Some "Rome") (Some "2024-01-01") (Some "9999-12-31")
    None
  = (Raised OverflowError, sample_db).
Proof.
  apply (edit_trip_last_day_overflow sample_db 1
           (TripRow "Paris" "2024-01-01" "2024-01-03" "Foodie")
           (Some "Rome") (Some "2024-01-01") None
           (Date.mk 2024 1 1) (Date.mk 2024 1 3) (Date.mk 2024 1 1));
    vm_compute; reflexivity.
Defined.

(** The columns of a trip's days when its rows are known by position. *)
Lemma day_columns_of_rows (db' : database) (trip_id : Z)
    (rowf : nat -> Date.date -> itinerary_row) (ds : list Date.date)
    (ids : list Z) :
  length ids = length ds -> NoDup ids ->
  (forall k d, day_number (rowf k d) = Z.of_nat k + 1
               /\ date (rowf k d) = Date.isoformat d) ->
  (forall id r, (id, r) ∈ select_days db' trip_id
     <-> exists k d, ids !! k = Some id /\ ds !! k = Some d /\ r = rowf k d) ->
  day_columns db' trip_id
  = imap (fun k d => (Z.of_nat k + 1, Date.isoformat d)) ds.
Proof.
  intros RL RN Hcol Hsel.
  apply (Sorted_unique_strong by_first).
  - intros x1 x2 H1 H2 L1 L2.
    assert (H1' : x1 ∈ imap (fun k d => (Z.of_nat k + 1, Date.isoformat d)) ds).
    { unfold day_columns in H1. apply list_elem_of_fmap in H1.
      destruct H1 as [[id r] [-> H1]]. apply Hsel in H1.
      destruct H1 as (k & d & _ & Hd & ->). cbn [snd].
      destruct (Hcol k d) as (-> & ->).
      now apply (elem_of_lookup_imap_2
                   (fun k d => (Z.of_nat k + 1, Date.isoformat d)) ds). }
    apply elem_of_lookup_imap in H1', H2.
    destruct H1' as (k1 & d1 & -> & G1), H2 as (k2 & d2 & -> & G2).
    unfold by_first in L1, L2. cbn in L1, L2.
    assert (k1 = k2) by lia. subst k2. congruence.
  - apply day_columns_sorted.
  - apply numbered_sorted.
  - unfold day_columns.
    transitivity ((fun row : Z * itinerary_row => (day_number row.2, date row.2))
                    <$> zip ids (imap rowf ds)).
    + apply fmap_Permutation. apply NoDup_Permutation.
      * apply (NoDup_fmap_1 fst). apply select_days_NoDup.
      * apply (NoDup_fmap_1 fst). rewrite fst_zip; [exact RN|].
        rewrite length_imap. lia.
      * intros [id r]. rewrite Hsel.
        rewrite elem_of_lookup_zip_with. split.
        -- intros (k & d & Hk & Hd & ->).
           exists k, id, (rowf k d).
           split; [reflexivity|]. split; [exact Hk|].
           rewrite list_lookup_imap, Hd. reflexivity.
        -- intros (k & x & y & [= <- <-] & Hk & Hy).
           rewrite list_lookup_imap in Hy.
           destruct (ds !! k) as [d|] eqn:Hd; [|discriminate].
           cbn in Hy. injection Hy as <-. now exists k, d.
    + match goal with
      | |- ?a ≡ₚ ?b => enough (E : a = b) by (now rewrite E)
      end.
      apply list_eq. intros i.
      rewrite list_lookup_fmap, list_lookup_imap.
      rewrite lookup_zip_with, list_lookup_imap.
      destruct (ds !! i) as [d|] eqn:Hd.
      * destruct (lookup_lt_is_Some_2 ids i) as [id Hid].
        { rewrite RL. now apply lookup_lt_Some in Hd. }
        rewrite Hid. cbn.
        destruct (Hcol i d) as (-> & ->). reflexivity.
      * cbn. now destruct (ids !! i).
Qed.

(** new_trip with a valid form and an end date before 9999-12-31 stores the
    trip under a new id and exactly one blank day per date of the range,
    numbered 1..N in date order; the days of other trips, and every other
    table, are left as they were. *)
Theorem new_trip_creates_days (db : database)
    (f_destination f_start_date f_end_date f_travel_style : form_field)
    (start_date end_date : Date.date) :
  foreign_keys_ok db = true ->
  Py.truthy (Py.strip (Py.or_empty f_destination)) = true ->
  parse_date (Py.or_empty f_start_date) = Some start_date ->
  parse_date (Py.or_empty f_end_date) = Some end_date ->
  Date.leb start_date end_date = true ->
  Date.eqb end_date Date.max = false ->
  exists new_id db',
    new_trip db f_destination f_start_date f_end_date f_travel_style
    = (Redirect "trip_detail" (Some new_id) (Some "Trip created."), db')
    /\ rows (trips db) !! new_id = None
    /\ rows (trips db') !! new_id
       = Some (TripRow (Py.strip (Py.or_empty f_destination))
                 (Date.isoformat start_date) (Date.isoformat end_date)
                 (Py.or_else f_travel_style "Flexible"))
    /\ day_columns db' new_id = numbered_dates start_date end_date
    /\ (forall id r, (id, r) ∈ select_days db' new_id ->
          r = blank_day new_id (day_number r) (date r)
          /\ rows (itinerary db) !! id = None)
    /\ (forall id r, rows (itinerary db) !! id = Some r ->
          rows (itinerary db') !! id = Some r)
    /\ (forall id r, id <> new_id -> rows (trips db) !! id = Some r ->
          rows (trips db') !! id = Some r)
    /\ day_items db' = day_items db /\ budget_items db' = budget_items db
    /\ trip_stops db' = trip_stops db /\ packing_items db' = packing_items db.
Proof.
  intros Hfk Hd Es Ee Hle Hmax.
  destruct (foreign_keys_spec db Hfk) as [Hfk1 _].
  pose proof (parse_date_valid _ _ Es) as Vs.
  pose proof (parse_date_valid _ _ Ee) as Ve.
  assert (Hne : end_date <> Date.max).
  { intros E. apply DateFacts.eqb_eq in E. congruence. }
  set (t_row := TripRow (Py.strip (Py.or_empty f_destination))
                  (Date.isoformat start_date) (Date.isoformat end_date)
                  (Py.or_else f_travel_style "Flexible")).
  destruct (new_trip_days db t_row start_date end_date Hfk1 Vs Ve Hne)
    as (ids & db1 & Hrun & HL & HN & Hnew & Hfresh & Hother
        & Ft & Fb & Fi & Fs & Fp).
  set (new_id := (Sql.insert t_row (trips db)).1) in *.
  exists new_id, db1. split.
  { unfold new_trip. cbv zeta.
    rewrite Hd, (truthy_of_parse_date _ _ Es), (truthy_of_parse_date _ _ Ee).
    cbn [negb orb]. rewrite Es, Ee. unfold Date.ltb. rewrite Hle. cbn [negb].
    fold t_row. unfold Sql.insert at 1. cbv zeta.
    change (Z.max (sequence (trips db)) (Sql.max_rowid (rows (trips db))) + 1)
      with new_id.
    change (Table (<[new_id := t_row]> (rows (trips db))) new_id)
      with (Sql.insert t_row (trips db)).2.
    rewrite Hrun. reflexivity. }
  split; [apply insert_fresh|].
  split.
  { rewrite Ft, insert_lookup. fold new_id. case_decide; [reflexivity|congruence]. }
  split.
  { apply (day_columns_of_rows db1 new_id
             (fun k d => blank_day new_id (Z.of_nat k + 1) (Date.isoformat d))
             (date_range start_date end_date) ids HL HN).
    - intros k d. split; reflexivity.
    - intros id r. rewrite elem_of_select_days. apply Hnew. }
  split.
  { intros id r Hin. apply elem_of_select_days in Hin.
    apply Hnew in Hin. destruct Hin as (k & d & Hk & Hd' & ->).
    split; [reflexivity|]. apply Hfresh.
    now apply list_elem_of_lookup_2 in Hk. }
  split.
  { intros id r Hr. rewrite Hother; [exact Hr|].
    intros Hin. apply Hfresh in Hin. congruence. }
  split.
  { intros id r Hid Hr. rewrite Ft, insert_lookup. fold new_id.
    case_decide; [congruence | exact Hr]. }
  now repeat split.
Qed.

Lemma new_trip_creates_days_witness :
  exists new_id db',
    new_trip sample_db (Some " Rome ") (Some "2024-02-28") (Some "2024-03-01")
      None
    = (Redirect "trip_detail" (Some new_id) (Some "Trip created."), db')
    /\ day_columns db' new_id
       = numbered_dates (Date.mk 2024 2 28) (Date.mk 2024 3 1).
Proof.
  destruct (new_trip_creates_days sample_db (Some " Rome ") (Some "2024-02-28")
              (Some "2024-03-01") None (Date.mk 2024 2 28) (Date.mk 2024 3 1))
    as (new_id & db' & H1 & _ & _ & H2 & _); try (vm_compute; reflexivity).
  exists new_id, db'. split; [exact H1 | exact H2].
Defined.


(** * What the handlers leave alone *)

Lemma insert_stops_spec trip_id city_dates : forall db,
  let db' := insert_stops trip_id city_dates db in
  (forall id st, rows (trip_stops db) !! id = Some st ->
     rows (trip_stops db') !! id = Some st)
  /\ (forall id st, rows (trip_stops db') !! id = Some st ->
        rows (trip_stops db) !! id = Some st \/ st_trip_id st = trip_id).
Proof.
  unfold insert_stops. induction city_dates as [|e l IH]; intros db.
  - cbn. split; auto.
  - cbn [fold_left]. cbv zeta.
    match goal with
    | |- context [fold_left ?f l ?x] => specialize (IH x); set (db1 := x) in *
    end.
    cbv zeta in IH. destruct IH as [Hold Hnew].
    assert (H1 : (forall id st, rows (trip_stops db) !! id = Some st ->
                    rows (trip_stops db1) !! id = Some st)
                 /\ (forall id st, rows (trip_stops db1) !! id = Some st ->
                       rows (trip_stops db) !! id = Some st
                       \/ st_trip_id st = trip_id)).
    { unfold db1. destruct e.2 as [|d ds]; [split; auto|]. proj_db.
      split; intros id st; rewrite insert_lookup; case_decide as Eq.
      - intros H. pose proof (insert_fresh
          (StopRow trip_id e.1 (Date.isoformat (date_min d ds))
             (Date.isoformat (date_max d ds))) (trip_stops db)) as Hf.
        rewrite Eq in Hf. congruence.
      - auto.
      - intros [= <-]. now right.
      - auto. }
    destruct H1 as [Hold1 Hnew1]. split.
    + intros id st H. apply Hold, Hold1, H.
    + intros id st H. apply Hnew in H. destruct H as [H | H]; [|now right].
      now apply Hnew1.
Qed.

Lemma day_by_date_sound l key id :
  day_by_date l !! key = Some id -> exists r, (id, r) ∈ l /\ date r = key.
Proof.
  rewrite day_by_date_index.
  destruct (index_by_date l !! key) as [[id' r]|] eqn:E; [|discriminate].
  cbn. intros [= <-]. apply index_by_date_sound in E. now exists r.
Qed.

(** The merge of a CSV file into a trip, whatever the file and whatever the
    outcome, leaves the trips, the itinerary days, the budget and the packing
    list as they were and keeps every stored checklist item and stop; what
    it adds are visible items on days of this trip and stops of this
    trip. *)
Theorem merge_import_only_adds (db : database) (trip_id : Z)
    (file : option (list csv_row)) :
  let db' := (import_trip_csv_into_trip db trip_id file).2 in
  trips db' = trips db /\ itinerary db' = itinerary db
  /\ budget_items db' = budget_items db
  /\ packing_items db' = packing_items db
  /\ (forall id it, rows (day_items db) !! id = Some it ->
        rows (day_items db') !! id = Some it)
  /\ (forall id st, rows (trip_stops db) !! id = Some st ->
        rows (trip_stops db') !! id = Some st)
  /\ (forall id it, rows (day_items db') !! id = Some it ->
        rows (day_items db) !! id = Some it
        \/ hidden it = false
           /\ exists day, rows (itinerary db) !! itinerary_id it = Some day
                          /\ it_trip_id day = trip_id)
  /\ (forall id st, rows (trip_stops db') !! id = Some st ->
        rows (trip_stops db) !! id = Some st \/ st_trip_id st = trip_id).
Proof.
  cbv zeta. unfold import_trip_csv_into_trip.
  assert (Hsame : trips db = trips db /\ itinerary db = itinerary db
    /\ budget_items db = budget_items db
    /\ packing_items db = packing_items db
    /\ (forall id it, rows (day_items db) !! id = Some it ->
          rows (day_items db) !! id = Some it)
    /\ (forall id st, rows (trip_stops db) !! id = Some st ->
          rows (trip_stops db) !! id = Some st)
    /\ (forall id it, rows (day_items db) !! id = Some it ->
          rows (day_items db) !! id = Some it
          \/ hidden it = false
             /\ exists day, rows (itinerary db) !! itinerary_id it = Some day
                            /\ it_trip_id day = trip_id)
    /\ (forall id st, rows (trip_stops db) !! id = Some st ->
          rows (trip_stops db) !! id = Some st \/ st_trip_id st = trip_id))
    by (repeat split; auto).
  destruct (rows (trips db) !! trip_id) as [trip|]; [|exact Hsame].
  destruct file as [reader|]; [|exact Hsame].
  destruct (parse_rows reader) as [|p ps]; [exact Hsame|].
  destruct (parse_date (start_date trip)) as [ts|]; [|exact Hsame].
  destruct (parse_date (end_date trip)) as [te|]; [|exact Hsame].
  cbv zeta.
  destruct (List.filter _ (p :: ps)) as [|k ks]; [exact Hsame|].
  cbn [snd]. clear Hsame.
  set (kept := k :: ks).
  set (dbd := day_by_date _).
  destruct (insert_stops_frame trip_id (build_city_dates kept) db)
    as (S1 & S2 & S3 & S4 & S5).
  destruct (insert_stops_spec trip_id (build_city_dates kept) db)
    as [Sold Snew].
  set (db1 := insert_stops trip_id (build_city_dates kept) db) in *.
  destruct (insert_items_spec dbd kept db1)
    as ((I1 & I2 & I3 & I4 & I5) & Hold & Hnew & _).
  set (db2 := insert_items dbd kept db1) in *.
  cbv zeta in Hnew.
  split; [congruence|]. split; [congruence|]. split; [congruence|].
  split; [congruence|]. split.
  { intros id it H. apply Hold. now rewrite S3. }
  split.
  { intros id st H. rewrite I3. now apply Sold. }
  split.
  { intros id it H. apply Hnew in H.
    destruct H as [H | (row & day_id & _ & Hlook & ->)].
    - left. now rewrite <- S3.
    - right. split; [reflexivity|]. cbn [itinerary_id].
      apply day_by_date_sound in Hlook. destruct Hlook as (r & Hin & _).
      apply elem_of_select in Hin. destruct Hin as [Hr Ht].
      apply Z.eqb_eq in Ht. now exists r. }
  intros id st H. rewrite I3 in H. now apply Snew.
Qed.

Lemma or_else_idem old s : Py.or_else (Some (Py.or_else old s)) s = Py.or_else old s.
Proof.
  unfold Py.or_else, Py.truthy_opt, Py.or_empty. cbn [default from_option id].
  destruct (Py.truthy (default "" old)) eqn:E.
  - now rewrite E.
  - now destruct (Py.truthy s).
Qed.

Lemma fill_idem c r : fill c (fill c r) = fill c r.
Proof.
  unfold fill, set_descriptions. cbn. now rewrite !or_else_idem.
Qed.

(** Generating the sample itinerary a second time changes nothing: every
    description is non-empty or already holds the suggestion. *)
Theorem generate_itinerary_idempotent (db : database) (trip_id : Z) :
  let db1 := (generate_itinerary db trip_id).2 in
  let db2 := (generate_itinerary db1 trip_id).2 in
  (forall j, rows (itinerary db2) !! j = rows (itinerary db1) !! j)
  /\ trips db2 = trips db1 /\ budget_items db2 = budget_items db1
  /\ day_items db2 = day_items db1 /\ trip_stops db2 = trip_stops db1
  /\ packing_items db2 = packing_items db1.
Proof.
  cbv zeta.
  destruct (generate_itinerary_spec db trip_id)
    as [[_ E1] | (trip & db1 & Ht & E1 & Ft & Fb & Fi & Fs & Fp & Hrows1)];
    rewrite E1; cbn [snd].
  - rewrite E1. cbn [snd]. now repeat split.
  - destruct (generate_itinerary_spec db1 trip_id)
      as [[_ E2] | (trip2 & db2 & Ht2 & E2 & Gt & Gb & Gi & Gs & Gp & Hrows2)];
      rewrite E2; cbn [snd]; [now repeat split|].
    split; [|now repeat split].
    assert (trip2 = trip) by (rewrite Ft in Ht2; congruence). subst trip2.
    intros j. rewrite Hrows2, Hrows1.
    destruct (rows (itinerary db) !! j) as [r|]; [|reflexivity].
    destruct (it_trip_id r =? trip_id) eqn:E.
    + destruct (fill_same (trip_content trip) r) as (-> & _).
      rewrite E. now rewrite fill_idem.
    + now rewrite E.
Qed.

(** delete_trip, for a trip id that SQLite can bind (a 64-bit integer) and
    a trip with at most as many days as SQLite accepts host parameters in
    one statement, removes the trip, its days, the checklist items of those
    days, its stops and its budget items, and keeps every row of the other
    trips in these tables. *)
Theorem delete_trip_removes_owned_rows (db : database) (trip_id : Z) :
  Sql.is_integer trip_id = true ->
  Sql.within_limit (select_days db trip_id).*1 = true ->
  let db' := (delete_trip db trip_id).2 in
  rows (trips db') !! trip_id = None
  /\ (forall id r, rows (itinerary db') !! id = Some r
                   <-> rows (itinerary db) !! id = Some r
                       /\ it_trip_id r <> trip_id)
  /\ (forall id r, rows (day_items db') !! id = Some r
                   <-> rows (day_items db) !! id = Some r
                       /\ ~ (exists d, rows (itinerary db) !! itinerary_id r = Some d
                                       /\ it_trip_id d = trip_id))
  /\ (forall id r, rows (trip_stops db') !! id = Some r
                   <-> rows (trip_stops db) !! id = Some r
                       /\ st_trip_id r <> trip_id)
  /\ (forall id r, rows (budget_items db') !! id = Some r
                   <-> rows (budget_items db) !! id = Some r
                       /\ bi_trip_id r <> trip_id)
  /\ (forall id r, id <> trip_id -> rows (trips db) !! id = Some r ->
        rows (trips db') !! id = Some r).
Proof.
  intros _ _.
  cbv zeta. destruct (delete_trip_effect db trip_id) as (H1 & H2 & H3 & H4 & H5 & _).
  split; [exact H1|]. split; [exact H2|]. split; [exact H3|].
  split; [exact H4|]. split; [exact H5|].
  intros id r Hid Hr. unfold delete_trip. cbv zeta. cbn [snd].
  destruct ((Sql.select _ (itinerary db)).*1); proj_db;
    (apply delete_where_lookup; split; [exact Hr | now apply Z.eqb_neq]).
Qed.

Lemma delete_trip_removes_owned_rows_witness :
  let db' := (delete_trip sample_db 1).2 in
  rows (trips db') !! 1 = None
  /\ (forall id r, rows (itinerary db') !! id = Some r
                   <-> rows (itinerary sample_db) !! id = Some r
                       /\ it_trip_id r <> 1)
  /\ (forall id r, rows (budget_items db') !! id = Some r
                   <-> rows (budget_items sample_db) !! id = Some r
                       /\ bi_trip_id r <> 1).
Proof.
  destruct (delete_trip_removes_owned_rows sample_db 1)
    as (H1 & H2 & _ & _ & H5 & _); [reflexivity | vm_compute; reflexivity|].
  cbv zeta. split; [exact H1|]. split; [exact H2 | exact H5].
Defined.

(** parse_date reads back what isoformat writes, and whatever text it
    accepts, it returns a calendar date whose ISO text it accepts too: the
    stored form of a date is a fixed point of parsing and formatting. *)
Theorem parse_date_inverts_isoformat :
  (forall d, Date.valid d = true -> parse_date (Date.isoformat d) = Some d)
  /\ (forall s d, parse_date s = Some d ->
        Date.valid d = true /\ parse_date (Date.isoformat d) = Some d)
  /\ (forall a b, Date.valid a = true -> Date.valid b = true ->
        Date.isoformat a = Date.isoformat b -> a = b).
Proof.
  split; [exact parse_date_isoformat|]. split.
  - intros s d H. pose proof (parse_date_valid s d H) as V.
    split; [exact V | now apply parse_date_isoformat].
  - exact isoformat_inj.
Qed.

(** The grouping of trip_detail raises KeyError exactly when a visible item
    of the days has a category other than place, restaurant and hotel. *)
Theorem grouping_raises_on_unknown_category (db : database)
    (day_ids : list Z) :
  (exists row, row ∈ select_visible_items db day_ids
               /\ Py.in_set (category row.2) three = false)
  <-> build_items_by_day db day_ids = inl KeyError.
Proof.
  assert (Hfold : forall l ibd seen,
            grouped ibd seen ->
            (Forall (fun row : Z * day_item_row =>
                       Py.in_set (category row.2) three = true) l
             /\ exists ibd', fold_left items_by_day_step l (inr ibd) = inr ibd')
            \/ ((exists row, row ∈ l
                             /\ Py.in_set (category row.2) three = false)
                /\ fold_left items_by_day_step l (inr ibd) = inl KeyError)).
  { induction l as [|row l IH]; intros ibd seen G.
    - left. split; [constructor | now exists ibd].
    - cbn [fold_left].
      destruct (Py.in_set (category row.2) three) eqn:E.
      + destruct (grouped_step ibd seen row G E) as (ibd' & E' & G').
        rewrite E'. destruct (IH ibd' _ G') as [[HF Hx] | [(r & Hr & Hc) Hx]].
        * left. split; [now constructor | exact Hx].
        * right. split; [|exact Hx]. exists r. split; [now right | exact Hc].
      + right. split; [exists row; split; [left | exact E]|].
        assert (Es : items_by_day_step (inr ibd) row = inl KeyError).
        { unfold items_by_day_step. cbn [bind]. cbv zeta.
          pose proof (G (itinerary_id row.2) (category row.2)) as Hg.
          rewrite E in Hg. unfold per_day_items in Hg. now rewrite Hg. }
        rewrite Es. apply items_by_day_fold_inl. }
  unfold build_items_by_day.
  destruct day_ids as [|x ids] eqn:Eids.
  - split; [|discriminate]. intros (row & Hin & _).
    destruct row as [id r]. apply elem_of_select_visible in Hin.
    destruct Hin as (_ & Hin & _). now apply elem_of_nil in Hin.
  - rewrite <- Eids.
    destruct (Hfold (select_visible_items db day_ids) ∅ [] grouped_empty)
      as [[HF (ibd' & Hx)] | [Hex Hx]].
    + rewrite Hx. split; [|discriminate].
      intros (row & Hin & Hc). rewrite Forall_forall in HF.
      specialize (HF row Hin). cbv beta in HF. congruence.
    + rewrite Hx. split; auto.
Qed.

(** The completion of a day is always computed: whatever the day and its
    items, both totals are 3, both counts lie between 0 and 3, and the percent
    is one of 0, 17, 33, 50, 67, 83 and 100, being 100 exactly when all three
    slots are filled and all three meals are picked. *)
Theorem day_completion_values (day : itinerary_row) (per_day : item_groups) :
  exists c,
    day_completion day per_day = Some c
    /\ total_slots c = 3 /\ total_meals c = 3
    /\ 0 <= slots_filled c <= 3 /\ 0 <= meals_picked c <= 3
    /\ percent c = round_ratio (100 * (slots_filled c + meals_picked c)) 6
    /\ In (percent c) [0; 17; 33; 50; 67; 83; 100]
    /\ (percent c = 100 <-> slots_filled c = 3 /\ meals_picked c = 3).
Proof.
  unfold day_completion.
  change initial_meal_flags with (flags3 false false false).
  rewrite meal_flags_fold, count_true_flags3. cbn [orb].
  set (items := items_of per_day "restaurant").
  set (sf := count_slots_filled day).
  set (mp := (if existsb (meal_hit "breakfast") items then 1 else 0)
             + (if existsb (meal_hit "lunch") items then 1 else 0)
             + (if existsb (meal_hit "dinner") items then 1 else 0)).
  assert (Hsf : 0 <= sf <= 3).
  { unfold sf, count_slots_filled.
    destruct (nonblank _), (nonblank _), (nonblank _); lia. }
  assert (Hmp : 0 <= mp <= 3).
  { unfold mp. destruct (existsb _ _), (existsb _ _), (existsb _ _); lia. }
  change (3 + 3 =? 0) with false. cbv iota. change (3 + 3) with 6.
  rewrite float_percent by lia. cbn [mbind option_bind].
  eexists. split; [reflexivity|].
  cbn [slots_filled meals_picked percent total_slots total_meals].
  split; [reflexivity|]. split; [reflexivity|].
  split; [exact Hsf|]. split; [exact Hmp|]. split; [reflexivity|].
  clearbody sf mp. clear items.
  assert (Hk : sf + mp = 0 \/ sf + mp = 1 \/ sf + mp = 2 \/ sf + mp = 3
               \/ sf + mp = 4 \/ sf + mp = 5 \/ sf + mp = 6) by lia.
  destruct Hk as [E | [E | [E | [E | [E | [E | E]]]]]]; rewrite E;
    (split; [vm_compute; tauto
            | split; [vm_compute; intros; lia | vm_compute; intros [? ?]; lia]]).
Qed.

(** The rows of an export are those of the visible checklist items on the
    trip's days, one row per item: a hidden item, or an item of another
    trip's day, is never exported, and no visible item of the trip is left
    out. *)
Theorem export_rows_are_visible_items (db : database) (trip_id : Z)
    (exported : list export_row) :
  export_trip_csv db trip_id = ExportCsv exported ->
  exists trip location_by_date,
    rows (trips db) !! trip_id = Some trip
    /\ build_location_by_date (select_stops db trip_id) = inr location_by_date
    /\ forall x, x ∈ exported
         <-> exists day_id day iid it,
               rows (itinerary db) !! day_id = Some day
               /\ it_trip_id day = trip_id
               /\ rows (day_items db) !! iid = Some it
               /\ itinerary_id it = day_id /\ hidden it = false
               /\ x = export_item (date day)
                        (Py.or_else (location_by_date !! date day)
                           (destination trip)) (iid, it).
Proof.
  unfold export_trip_csv.
  destruct (rows (trips db) !! trip_id) as [trip|]; [|discriminate].
  cbv zeta.
  destruct (build_location_by_date (select_stops db trip_id)) as [e|lbd];
    [discriminate|].
  intros [= <-]. exists trip, lbd. split; [reflexivity|]. split; [reflexivity|].
  intros x. rewrite elem_of_export_rows. split.
  - intros ([day_id day] & [iid it] & Hday & Hitem & E & ->).
    cbn [fst snd] in *. apply elem_of_select_days in Hday.
    apply elem_of_select_visible in Hitem.
    destruct Hday as [Hd Ht], Hitem as (Hi & _ & Hh).
    now exists day_id, day, iid, it.
  - intros (day_id & day & iid & it & Hd & Ht & Hi & E & Hh & ->).
    assert (Hday : (day_id, day) ∈ select_days db trip_id)
      by now apply elem_of_select_days.
    exists (day_id, day), (iid, it). split; [exact Hday|]. split; [|now split].
    apply elem_of_select_visible. split; [exact Hi|]. split; [|exact Hh].
    rewrite E. apply list_elem_of_fmap. now exists (day_id, day).
Qed.

Lemma export_rows_are_visible_items_witness :
  exists trip location_by_date,
    rows (trips sample_db) !! 1 = Some trip
    /\ build_location_by_date (select_stops sample_db 1) = inr location_by_date
    /\ forall x, x ∈ sample_export_first :: sample_export_rest
         <-> exists day_id day iid it,
               rows (itinerary sample_db) !! day_id = Some day
               /\ it_trip_id day = 1
               /\ rows (day_items sample_db) !! iid = Some it
               /\ itinerary_id it = day_id /\ hidden it = false
               /\ x = export_item (date day)
                        (Py.or_else (location_by_date !! date day)
                           (destination trip)) (iid, it).
Proof.
  apply (export_rows_are_visible_items sample_db 1
           (sample_export_first :: sample_export_rest)).
  vm_compute. reflexivity.
Defined.

(** Editing a trip without changing its date range updates the trip's row
    and nothing else: the days keep their numbers, dates, content and
    items. *)
Theorem edit_trip_same_range_keeps_days (db : database) (trip_id : Z)
    (trip : trip_row)
    (f_destination f_start_date f_end_date f_travel_style : form_field)
    (start_date_ end_date_ : Date.date) :
  rows (trips db) !! trip_id = Some trip ->
  parse_date (start_date trip) = Some start_date_ ->
  parse_date (end_date trip) = Some end_date_ ->
  Py.truthy (Py.strip (Py.or_empty f_destination)) = true ->
  parse_date (Py.or_empty f_start_date) = Some start_date_ ->
  parse_date (Py.or_empty f_end_date) = Some end_date_ ->
  Date.leb start_date_ end_date_ = true ->
  exists db',
    edit_trip db trip_id f_destination f_start_date f_end_date f_travel_style
    = (Redirect "trip_detail" (Some trip_id) (Some "Trip updated."), db')
    /\ rows (trips db') !! trip_id
       = Some (TripRow (Py.strip (Py.or_empty f_destination))
                 (Date.isoformat start_date_) (Date.isoformat end_date_)
                 (Py.or_else f_travel_style "Flexible"))
    /\ (forall id, id <> trip_id ->
          rows (trips db') !! id = rows (trips db) !! id)
    /\ itinerary db' = itinerary db /\ day_items db' = day_items db
    /\ budget_items db' = budget_items db /\ trip_stops db' = trip_stops db
    /\ packing_items db' = packing_items db.
Proof.
  intros Ht Eos Eoe Hd Ens Ene Hle.
  eexists. split.
  - unfold edit_trip. rewrite Ht. cbv zeta. rewrite Hd.
    rewrite (truthy_of_parse_date _ _ Ens), (truthy_of_parse_date _ _ Ene).
    cbn [negb orb]. rewrite Ens, Ene.
    unfold Date.ltb. rewrite Hle. cbn [negb]. rewrite Eos, Eoe.
    rewrite !(proj2 (DateFacts.eqb_eq _ _) eq_refl). cbn [negb orb].
    reflexivity.
  - proj_db. split; [|split; [|now repeat split]].
    + rewrite update_lookup. case_decide; [|congruence]. now rewrite Ht.
    + intros id Hid. rewrite update_lookup. case_decide; congruence.
Qed.

Lemma edit_trip_same_range_keeps_days_witness :
  exists db',
    edit_trip sample_db 1 (Some "Paris, France") (Some "2024-01-01")
      (Some "2024-01-03") (Some "Relaxed")
    = (Redirect "trip_detail" (Some 1) (Some "Trip updated."), db')
    /\ itinerary db' = itinerary sample_db.
Proof.
  destruct (edit_trip_same_range_keeps_days sample_db 1
              (TripRow "Paris" "2024-01-01" "2024-01-03" "Foodie")
              (Some "Paris, France") (Some "2024-01-01") (Some "2024-01-03")
              (Some "Relaxed") (Date.mk 2024 1 1) (Date.mk 2024 1 3))
    as (db' & H1 & _ & _ & H2 & _); try (vm_compute; reflexivity).
  exists db'. split; [exact H1 | exact H2].
Defined.
